(** * DesignGenius: the generation workflow, view regeneration and the
      fullscreen viewer

    A shallow embedding of the orchestration code of the DesignGenius
    front-end: the data model of [types.ts], the service functions
    [generateMockupImage] and [refineAndRegenerateMockup] of
    [services/geminiService.ts], and the handlers of [App.tsx]
    ([handleGenerate], [handleRegenerateView], the zoom and pan handlers and
    the effect that resets the viewer).

    Modelling choices.
    - React state cells are the fields of a record; a handler is a
      computation in a state-and-exception monad that also writes a trace
      of what is observable from outside: requests sent to the generative
      API, their settlement, console output and the successive values given
      to [generatedMockups].
    - What the outside world answers (file reads, API responses, which of
      two concurrent requests settles first) is an explicit argument of the
      handler.
    - A JavaScript number is an IEEE-754 binary64, here Rocq's primitive
      [float].
    - A JavaScript string is held by the bytes of its UTF-8 encoding, a
      Rocq [string]; where the code counts UTF-16 code units ([length])
      the model counts them from that encoding, and where it classifies
      them ([trim]) the string is held as the list of its code units. *)

From Stdlib Require Import String Ascii List Bool Arith Lia.
From Stdlib Require Import Decimal DecimalNat DecimalString.
From Stdlib Require Import Floats.
From stdpp Require Import base list.
Import ListNotations.

Local Open Scope list_scope.
Local Open Scope string_scope.

(** ** JavaScript preliminaries *)

(** A thrown value; every [throw] of the modelled code throws an [Error]. *)
Inductive JsError : Type :=
| Error (message : string).

(** How an awaited promise (or a [try] block) ends. *)
Inductive Result (A : Type) : Type :=
| Ok (a : A)
| Throw (e : JsError).
Arguments Ok {A} a.
Arguments Throw {A} e.

(** Truthiness of a [string | undefined]. *)
Definition truthy (s : option string) : bool :=
  match s with
  | Some s => negb (String.eqb s "")
  | None => false
  end.

(** [String(n)] for a loop index, as a template literal prints it. *)
Definition Number_toString (n : nat) : string :=
  NilEmpty.string_of_uint (Nat.to_uint n).

(** [Math.min] and [Math.max] on two numbers: NaN is contagious and
    [-0] is below [+0]. *)
Definition Math_min (a b : float) : float :=
  if (PrimFloat.is_nan a || PrimFloat.is_nan b)%bool then PrimFloat.nan
  else if (a <? b)%float then a
  else if (b <? a)%float then b
  else if PrimFloat.get_sign a then a else b.

Definition Math_max (a b : float) : float :=
  if (PrimFloat.is_nan a || PrimFloat.is_nan b)%bool then PrimFloat.nan
  else if (a <? b)%float then b
  else if (b <? a)%float then a
  else if PrimFloat.get_sign a then b else a.

(** ** types.ts *)

Module DesignConcept.
Record t : Type := mk {
  name : string;
  description : string;
  imagePrompt : string
}.
End DesignConcept.
Abbreviation DesignConcept := DesignConcept.t.

Record GroundingSource : Type := {
  title : string;
  uri : string
}.

Inductive Status : Type := pending | generating | completed | failed.

Inductive Device : Type := mobile | desktop.

Definition Status_eqb (a b : Status) : bool :=
  match a, b with
  | pending, pending | generating, generating
  | completed, completed | failed, failed => true
  | _, _ => false
  end.

Definition Device_eqb (a b : Device) : bool :=
  match a, b with
  | mobile, mobile | desktop, desktop => true
  | _, _ => false
  end.

(** [regeneratingView?: 'mobile' | 'desktop' | null]: the outer [option] is
    the presence of the property, [Some None] is [null]. *)
Record GeneratedMockup : Type := {
  id : string;
  conceptName : string;
  description : string;
  mobileImageUrl : option string;
  desktopImageUrl : option string;
  status : Status;
  regeneratingView : option (option Device);
  error : option string
}.

(** A [File] of the browser; its bytes are only reachable through a
    [FileReader], whose outcome is part of the environment. *)
Record File : Type := { fileName : string }.

Record GenerationInput : Type := {
  url : string;
  companyInfo : string;
  screenshot : option File;
  logo : option File
}.

(** The object spreads [{ ...m, field: v }] of the handlers. *)
Definition with_mobileImageUrl (v : option string) (m : GeneratedMockup) :=
  {| id := id m; conceptName := conceptName m; description := description m;
     mobileImageUrl := v; desktopImageUrl := desktopImageUrl m;
     status := status m; regeneratingView := regeneratingView m;
     error := error m |}.

Definition with_desktopImageUrl (v : option string) (m : GeneratedMockup) :=
  {| id := id m; conceptName := conceptName m; description := description m;
     mobileImageUrl := mobileImageUrl m; desktopImageUrl := v;
     status := status m; regeneratingView := regeneratingView m;
     error := error m |}.

Definition with_status (v : Status) (m : GeneratedMockup) :=
  {| id := id m; conceptName := conceptName m; description := description m;
     mobileImageUrl := mobileImageUrl m; desktopImageUrl := desktopImageUrl m;
     status := v; regeneratingView := regeneratingView m;
     error := error m |}.

Definition with_regeneratingView (v : option (option Device))
    (m : GeneratedMockup) :=
  {| id := id m; conceptName := conceptName m; description := description m;
     mobileImageUrl := mobileImageUrl m; desktopImageUrl := desktopImageUrl m;
     status := status m; regeneratingView := v;
     error := error m |}.

(** ** The fullscreen viewer of App.tsx *)

Module Viewer.

Record Point : Type := { x : float; y : float }.

(** The five state cells under "Fullscreen & Zoom State". *)
Record State : Type := {
  fullscreenImage : option string;
  zoom : float;
  pan : Point;
  isDragging : bool;
  dragStart : Point
}.

Definition origin : Point := {| x := 0%float; y := 0%float |}.

Definition initial : State :=
  {| fullscreenImage := None; zoom := 1%float;
     pan := {| x := 0%float; y := 0%float |};
     isDragging := false;
     dragStart := {| x := 0%float; y := 0%float |} |}.

Definition setZoom (f : float -> float) (s : State) : State :=
  {| fullscreenImage := fullscreenImage s; zoom := f (zoom s);
     pan := pan s; isDragging := isDragging s; dragStart := dragStart s |}.

Definition setPan (p : Point) (s : State) : State :=
  {| fullscreenImage := fullscreenImage s; zoom := zoom s;
     pan := p; isDragging := isDragging s; dragStart := dragStart s |}.

Definition setIsDragging (b : bool) (s : State) : State :=
  {| fullscreenImage := fullscreenImage s; zoom := zoom s;
     pan := pan s; isDragging := b; dragStart := dragStart s |}.

Definition setDragStart (p : Point) (s : State) : State :=
  {| fullscreenImage := fullscreenImage s; zoom := zoom s;
     pan := pan s; isDragging := isDragging s; dragStart := p |}.

Definition handleZoomIn (s : State) : State :=
  setZoom (fun prev => Math_min (prev + 0.5)%float 4%float) s.

Definition handleZoomOut (s : State) : State :=
  setZoom (fun prev => Math_max (prev - 0.5)%float 0.5%float) s.

Definition handleResetZoom (s : State) : State :=
  setPan {| x := 0%float; y := 0%float |} (setZoom (fun _ => 1%float) s).

Definition handleMouseDown (clientX clientY : float) (s : State) : State :=
  setDragStart {| x := (clientX - x (pan s))%float;
                  y := (clientY - y (pan s))%float |}
               (setIsDragging true s).

Definition handleMouseMove (clientX clientY : float) (s : State) : State :=
  if negb (isDragging s) then s
  else setPan {| x := (clientX - x (dragStart s))%float;
                 y := (clientY - y (dragStart s))%float |} s.

Definition handleMouseUp (s : State) : State := setIsDragging false s.

(** The dependency check of [useEffect(..., [fullscreenImage])]. *)
Definition sameImage (a b : option string) : bool :=
  match a, b with
  | Some a, Some b => String.eqb a b
  | None, None => true
  | _, _ => false
  end.

(** [setFullscreenImage(v)] followed by the render it causes: the effect
    runs when the cell changed, and resets zoom and pan when the new
    value is truthy. *)
Definition setFullscreenImage (v : option string) (s : State) : State :=
  let s' := {| fullscreenImage := v; zoom := zoom s; pan := pan s;
               isDragging := isDragging s; dragStart := dragStart s |} in
  if sameImage (fullscreenImage s) v then s'
  else if truthy v
       then setPan {| x := 0%float; y := 0%float |}
                   (setZoom (fun _ => 1%float) s')
       else s'.

(** What the user can do to the viewer. *)
Inductive Action : Type :=
| ZoomIn
| ZoomOut
| ResetZoom
| MouseDown (clientX clientY : float)
| MouseMove (clientX clientY : float)
| MouseUp
| SetFullscreenImage (v : option string).

Definition step (s : State) (a : Action) : State :=
  match a with
  | ZoomIn => handleZoomIn s
  | ZoomOut => handleZoomOut s
  | ResetZoom => handleResetZoom s
  | MouseDown cx cy => handleMouseDown cx cy s
  | MouseMove cx cy => handleMouseMove cx cy s
  | MouseUp => handleMouseUp s
  | SetFullscreenImage v => setFullscreenImage v s
  end.

Definition run (acts : list Action) (s : State) : State :=
  fold_left step acts s.

(** [0.5 <= z && z <= 4] on numbers. *)
Definition zoomInRange (z : float) : bool :=
  ((0.5 <=? z)%float && (z <=? 4)%float)%bool.

End Viewer.

(** ** The generative API as the code sees it *)

Record InlineData : Type := { mimeType : string; data : string }.

(** One element of [contents.parts], in a request or in a response. *)
Record Part : Type := {
  text : option string;
  inlineData : option InlineData
}.

Definition textPart (s : string) : Part :=
  {| text := Some s; inlineData := None |}.

Definition inlinePart (mime d : string) : Part :=
  {| text := None; inlineData := Some {| mimeType := mime; data := d |} |}.

(** The argument of [ai.models.generateContent]. *)
Inductive Request : Type :=
| ImageRequest (model : string) (parts : list Part)
               (aspectRatio imageSize : string)
| TextRequest (model : string) (contents : string).

Definition isImageRequest (r : Request) : bool :=
  match r with
  | ImageRequest _ _ _ _ => true
  | TextRequest _ _ => false
  end.

(** What the code reads of a response: [response.text] and
    [response.candidates?.[0]?.content?.parts]. *)
Record GenResponse : Type := {
  responseText : option string;
  candidateParts : option (list Part)
}.

(** What a handler does that is visible from outside the component. *)
Inductive Event : Type :=
| ReadFile (f : File)
| ResearchCall (url companyInfo screenshotBase64 : string)
| ApiCall (r : Request)
| ApiSettled (r : Request) (ok : bool)
| ConsoleError (msg : string) (e : JsError)
| ConsoleWarn (msg : string) (e : JsError)
| SetGeneratedMockups (now : list GeneratedMockup).

(** ** services/geminiService.ts *)

Module Service.

(** A service function does not touch the component's state: it writes
    events and ends with a value or an exception. *)
Definition Svc (A : Type) : Type := list Event * Result A.

(** [fileToGenerativePart(file)], given what the [FileReader] produces. *)
Definition fileToGenerativePart (file : File) (read : Result string)
  : Svc string :=
  ([ReadFile file], read).

(** [generateDesignConcepts]: the request, the parsing of its answer and
    the collection of the sources are given by [answer]; the
    [catch (error) { console.error(...); throw error; }] is kept. *)
Definition generateDesignConcepts (url companyInfo screenshotBase64 : string)
    (answer : Result (list DesignConcept * list GroundingSource))
  : Svc (list DesignConcept * list GroundingSource) :=
  match answer with
  | Ok r => ([ResearchCall url companyInfo screenshotBase64], Ok r)
  | Throw e =>
      ([ResearchCall url companyInfo screenshotBase64;
        ConsoleError "Error generating design concepts:" e], Throw e)
  end.

Definition mobileSuffix : string :=
  " . GENERATE A MOBILE MOCKUP: Vertical layout, hamburger menu, stacked content, optimized for smartphone screen (9:16). Show the full length of the mobile page.".

Definition desktopSuffix : string :=
  " . GENERATE A FULL-PAGE DESKTOP SCROLL MOCKUP: Vertical long-scrolling screenshot of the desktop website. Wide navigation bar at the top, multi-column grid layouts for content, small desktop-sized text. Show the Hero section, followed by Features/Services section, and ending with the Footer. Do NOT use mobile layout. High-fidelity desktop UI on a long vertical canvas.".

Definition deviceName (d : Device) : string :=
  match d with mobile => "mobile" | desktop => "desktop" end.

(** The request [generateMockupImage] builds before its [try]. *)
Definition imageRequest (concept : DesignConcept)
    (logoBase64 : option string) (deviceType : Device) : Request :=
  let model := "gemini-3-pro-image-preview" in
  let specificPrompt :=
    match deviceType with
    | mobile => DesignConcept.imagePrompt concept ++ mobileSuffix
    | desktop => DesignConcept.imagePrompt concept ++ desktopSuffix
    end in
  let aspectRatio := "9:16" in
  let parts := [textPart specificPrompt] in
  let parts :=
    if truthy logoBase64
    then (parts ++
          [inlinePart "image/png" (default "" logoBase64);
           textPart
             "Incorporate this logo naturally into the website header."])%list
    else parts in
  ImageRequest model parts aspectRatio "2K".

(** The [for ... of] over the parts of the first candidate. *)
Fixpoint firstInlineData (parts : list Part) : option string :=
  match parts with
  | [] => None
  | part :: rest =>
      match inlineData part with
      | Some d => Some ("data:image/png;base64," ++ data d)
      | None => firstInlineData rest
      end
  end.

Definition extractImage (response : GenResponse) : Result string :=
  match firstInlineData (default [] (candidateParts response)) with
  | Some dataUri => Ok dataUri
  | None => Throw (Error "No image data found in response")
  end.

(** The part of [generateMockupImage] that runs when its request settles
    with [answer]: the body of the [try] after the [await], and the
    [catch] that logs and rethrows. *)
Definition generateMockupImage_settle (req : Request) (deviceType : Device)
    (answer : Result GenResponse) : Svc string :=
  let rethrow e :=
    ([ConsoleError
        ("Error generating " ++ deviceName deviceType ++ " mockup image:") e],
     Throw e) in
  match answer with
  | Ok response =>
      match extractImage response with
      | Ok dataUri => ([ApiSettled req true], Ok dataUri)
      | Throw e => let '(t, r) := rethrow e in (ApiSettled req true :: t, r)
      end
  | Throw e => let '(t, r) := rethrow e in (ApiSettled req false :: t, r)
  end.

(** [await generateMockupImage(concept, logoBase64, deviceType)] with
    nothing running in between. *)
Definition generateMockupImage (concept : DesignConcept)
    (logoBase64 : option string) (deviceType : Device)
    (answer : Result GenResponse) : Svc string :=
  let req := imageRequest concept logoBase64 deviceType in
  let '(t, r) := generateMockupImage_settle req deviceType answer in
  (ApiCall req :: t, r).

Definition nl : string := String (ascii_of_nat 10) EmptyString.

(** The template literal [orchestratorPrompt], line by line. *)
Definition orchestratorPrompt (originalConcept : DesignConcept)
    (companyInfo : string) (deviceType : Device) : string :=
  String.concat nl
    [ "";
      "        You are a Senior Art Director and UI/UX Specialist. ";
      "        We are refining a website mockup design.";
      "        ";
      "        Company Context: " ++ companyInfo;
      "        Concept Name: " ++ DesignConcept.name originalConcept;
      "        Concept Description: "
        ++ DesignConcept.description originalConcept;
      "        Original Image Prompt: "
        ++ DesignConcept.imagePrompt originalConcept;
      "        ";
      "        Task: ";
      "        Analyze the constraints and create a VASTLY IMPROVED, Version 2.0 image generation prompt for a "
        ++ deviceName deviceType ++ " layout.";
      "        The goal is to make it look even more professional, modern, and aligned with the brand.";
      "        Focus on:";
      "        - Better use of whitespace and typography.";
      "        - More impactful hero section.";
      "        - Clearer visual hierarchy.";
      "        - Trending UI elements (glassmorphism, bento grids, etc. if appropriate).";
      "        ";
      "        Output: JUST the new image prompt text. Do not explain.";
      "    " ].

(** What the environment answers during one call of
    [refineAndRegenerateMockup]. *)
Record RefineEnv : Type := {
  refineAnswer : Result GenResponse;
  regenerateAnswer : Result GenResponse
}.

(** Step 1 of [refineAndRegenerateMockup]: the prompt after the
    best-effort refinement. *)
Definition refinePrompt (originalConcept : DesignConcept)
    (companyInfo : string) (deviceType : Device)
    (answer : Result GenResponse) : list Event * string :=
  let req :=
    TextRequest "gemini-3-flash-preview"
      (orchestratorPrompt originalConcept companyInfo deviceType) in
  let refinedPrompt := DesignConcept.imagePrompt originalConcept in
  match answer with
  | Ok textResponse =>
      ([ApiCall req; ApiSettled req true],
       if truthy (responseText textResponse)
       then default "" (responseText textResponse)
       else refinedPrompt)
  | Throw e =>
      ([ApiCall req; ApiSettled req false;
        ConsoleWarn
          "Orchestration step failed, falling back to original prompt" e],
       refinedPrompt)
  end.

Definition refineAndRegenerateMockup (originalConcept : DesignConcept)
    (companyInfo : string) (deviceType : Device)
    (logoBase64 : option string) (env : RefineEnv) : Svc string :=
  let '(t1, refinedPrompt) :=
    refinePrompt originalConcept companyInfo deviceType (refineAnswer env) in
  let refinedConcept :=
    DesignConcept.mk (DesignConcept.name originalConcept)
                     (DesignConcept.description originalConcept)
                     refinedPrompt in
  let '(t2, r) :=
    generateMockupImage refinedConcept logoBase64 deviceType
                        (regenerateAnswer env) in
  ((t1 ++ t2)%list, r).

End Service.

(** ** App.tsx: the object literals of the handlers *)

(** [`mockup-${index}`]. *)
Definition mockupId (index : nat) : string :=
  "mockup-" ++ Number_toString index.

(** The placeholder [handleGenerate] seeds for the concept at [index]. *)
Definition initialMockup (index : nat) (concept : DesignConcept)
  : GeneratedMockup :=
  {| id := mockupId index;
     conceptName := DesignConcept.name concept;
     description := DesignConcept.description concept;
     mobileImageUrl := None;
     desktopImageUrl := None;
     status := generating;
     regeneratingView := None;
     error := None |}.

(** The update of the targeted mockup when regeneration succeeded. *)
Definition regenerated (viewMode : Device) (newImageUrl : string)
    (m : GeneratedMockup) : GeneratedMockup :=
  {| id := id m; conceptName := conceptName m; description := description m;
     mobileImageUrl :=
       if Device_eqb viewMode mobile then Some newImageUrl
       else mobileImageUrl m;
     desktopImageUrl :=
       if Device_eqb viewMode desktop then Some newImageUrl
       else desktopImageUrl m;
     status := status m;
     regeneratingView := Some None;
     error := error m |}.

(** ** App.tsx: the generation and regeneration handlers *)

Module App.

(** The state cells the two handlers read or write. *)
Record State : Type := {
  input : GenerationInput;
  isAnalyzing : bool;
  generatedMockups : list GeneratedMockup;
  sources : list GroundingSource;
  error : option string;
  viewMode : Device
}.

(** A handler: it transforms the state, writes events, and ends with a
    value or an exception. *)
Definition M (A : Type) : Type := State -> Result A * State * list Event.

Definition ret {A} (a : A) : M A := fun s => (Ok a, s, []).

Definition bind {A B} (m : M A) (k : A -> M B) : M B :=
  fun s =>
    match m s with
    | (Ok a, s1, t1) =>
        let '(r, s2, t2) := k a s1 in (r, s2, (t1 ++ t2)%list)
    | (Throw e, s1, t1) => (Throw e, s1, t1)
    end.

Definition throw {A} (e : JsError) : M A := fun s => (Throw e, s, []).

(** [try { m } catch (e) { h e }]. *)
Definition tryCatch {A} (m : M A) (h : JsError -> M A) : M A :=
  fun s =>
    match m s with
    | (Ok a, s1, t1) => (Ok a, s1, t1)
    | (Throw e, s1, t1) =>
        let '(r, s2, t2) := h e s1 in (r, s2, (t1 ++ t2)%list)
    end.

(** [await] of a service call. *)
Definition await {A} (c : Service.Svc A) : M A :=
  fun s => (snd c, s, fst c).

Definition emit (ev : Event) : M unit := fun s => (Ok tt, s, [ev]).

Declare Scope handler_scope.
Delimit Scope handler_scope with handler.
Notation "x <- m ;; k" := (bind m (fun x => k))
  (at level 100, m at next level, right associativity) : handler_scope.
Notation "m ;; k" := (bind m (fun _ => k))
  (at level 100, right associativity) : handler_scope.
Local Open Scope handler_scope.

Definition setError (v : option string) : M unit :=
  fun s =>
    (Ok tt,
     {| input := input s; isAnalyzing := isAnalyzing s;
        generatedMockups := generatedMockups s; sources := sources s;
        error := v; viewMode := viewMode s |}, []).

Definition setIsAnalyzing (v : bool) : M unit :=
  fun s =>
    (Ok tt,
     {| input := input s; isAnalyzing := v;
        generatedMockups := generatedMockups s; sources := sources s;
        error := error s; viewMode := viewMode s |}, []).

Definition setSources (v : list GroundingSource) : M unit :=
  fun s =>
    (Ok tt,
     {| input := input s; isAnalyzing := isAnalyzing s;
        generatedMockups := generatedMockups s; sources := v;
        error := error s; viewMode := viewMode s |}, []).

(** [setGeneratedMockups(prev => f prev)]; a constant [f] is
    [setGeneratedMockups(value)]. *)
Definition setGeneratedMockups
    (f : list GeneratedMockup -> list GeneratedMockup) : M unit :=
  fun s =>
    let now := f (generatedMockups s) in
    (Ok tt,
     {| input := input s; isAnalyzing := isAnalyzing s;
        generatedMockups := now; sources := sources s;
        error := error s; viewMode := viewMode s |},
     [SetGeneratedMockups now]).

Definition consoleError (msg : string) (e : JsError) : M unit :=
  emit (ConsoleError msg e).

(** [for (let i = start; i < start + concepts.length; i++)], the array
    being read at [i]. *)
Fixpoint forEachFrom {A} (i : nat) (l : list A)
    (body : nat -> A -> M unit) : M unit :=
  match l with
  | [] => ret tt
  | a :: rest => body i a ;; forEachFrom (S i) rest body
  end.

(** What the environment does during one run of [handleGenerate]. *)
Record GenerateEnv : Type := {
  screenshotRead : Result string;
  researchAnswer : Result (list DesignConcept * list GroundingSource);
  logoRead : Result string;
  imageAnswer : nat -> Device -> Result GenResponse;
  (** which of the two requests of concept [i] settles first *)
  mobileSettlesFirst : nat -> bool
}.

Definition setImageUrl (deviceType : Device) (v : option string)
    (m : GeneratedMockup) : GeneratedMockup :=
  match deviceType with
  | mobile => with_mobileImageUrl v m
  | desktop => with_desktopImageUrl v m
  end.

Definition failureMessage (deviceType : Device) (i : nat) : string :=
  match deviceType with
  | mobile => "Mobile generation failed for concept " ++ Number_toString i
  | desktop => "Desktop generation failed for concept " ++ Number_toString i
  end.

(** The [.then(...)] and [.catch(...)] attached to the request of concept
    [i] for [deviceType], run when that request settles. *)
Definition settle (i : nat) (concept : DesignConcept)
    (logoBase64 : option string) (deviceType : Device)
    (answer : Result GenResponse) : M bool :=
  tryCatch
    (url <- await (Service.generateMockupImage_settle
                     (Service.imageRequest concept logoBase64 deviceType)
                     deviceType answer) ;;
     setGeneratedMockups
       (map (fun m => if String.eqb (id m) (mockupId i)
                      then setImageUrl deviceType (Some url) m else m)) ;;
     ret true)
    (fun e => consoleError (failureMessage deviceType i) e ;; ret false).

(** One turn of the loop of [handleGenerate]. *)
Definition generateConcept (env : GenerateEnv) (logoBase64 : option string)
    (i : nat) (concept : DesignConcept) : M unit :=
  emit (ApiCall (Service.imageRequest concept logoBase64 mobile)) ;;
  emit (ApiCall (Service.imageRequest concept logoBase64 desktop)) ;;
  (if mobileSettlesFirst env i
   then settle i concept logoBase64 mobile (imageAnswer env i mobile) ;;
        settle i concept logoBase64 desktop (imageAnswer env i desktop)
   else settle i concept logoBase64 desktop (imageAnswer env i desktop) ;;
        settle i concept logoBase64 mobile (imageAnswer env i mobile)) ;;
  setGeneratedMockups
    (map (fun m => if String.eqb (id m) (mockupId i)
                   then with_status completed m else m)).

Definition handleGenerate (env : GenerateEnv) : M unit :=
  fun s0 =>
    let input := input s0 in
    match screenshot input with
    | None =>
        setError
          (Some "Please upload a screenshot of the current website.") s0
    | Some shot =>
        (setError None ;;
         setIsAnalyzing true ;;
         setGeneratedMockups (fun _ => []) ;;
         setSources [] ;;
         tryCatch
           (screenshotBase64 <-
              await (Service.fileToGenerativePart shot
                       (screenshotRead env)) ;;
            found <-
              await (Service.generateDesignConcepts
                       (url input) (companyInfo input) screenshotBase64
                       (researchAnswer env)) ;;
            let concepts := fst found in
            let foundSources := snd found in
            setSources foundSources ;;
            setIsAnalyzing false ;;
            let initialMockups := imap initialMockup concepts in
            setGeneratedMockups (fun _ => initialMockups) ;;
            logoBase64 <-
              match logo input with
              | Some l =>
                  b <- await (Service.fileToGenerativePart l
                                (logoRead env)) ;;
                  ret (Some b)
              | None => ret None
              end ;;
            forEachFrom 0 concepts (generateConcept env logoBase64))
           (fun err =>
              consoleError "Workflow failed:" err ;;
              setError
                (Some "Failed to analyze website. Please ensure the API key is valid and try again.") ;;
              setIsAnalyzing false)) s0
    end.

(** [Array.prototype.findIndex]; [None] is [-1]. *)
Fixpoint findIndex {A} (p : A -> bool) (l : list A) : option nat :=
  match l with
  | [] => None
  | a :: rest => if p a then Some 0 else option_map S (findIndex p rest)
  end.

(** What the environment does during one run of
    [handleRegenerateView]. *)
Record RegenerateEnv : Type := {
  regenLogoRead : Result string;
  regenApi : Service.RefineEnv
}.

Definition fallbackPrompt (url : string) (m : GeneratedMockup) : string :=
  "Website design for " ++ url ++ ". Style: " ++ conceptName m ++ ". "
    ++ description m.

(** [prev.map((m, idx) => idx === mockupIndex ? f m : m)]. *)
Definition mapAt (mockupIndex : nat)
    (f : GeneratedMockup -> GeneratedMockup)
    (prev : list GeneratedMockup) : list GeneratedMockup :=
  imap (fun idx m => if Nat.eqb idx mockupIndex then f m else m) prev.

Definition handleRegenerateView (mockupId : string) (env : RegenerateEnv)
  : M unit :=
  fun s0 =>
    (* the values of the render the handler was created in *)
    let generatedMockups := generatedMockups s0 in
    let input := input s0 in
    let viewMode := viewMode s0 in
    match findIndex (fun m => String.eqb (id m) mockupId)
                    generatedMockups with
    | None => ret tt s0
    | Some mockupIndex =>
        (setGeneratedMockups
           (mapAt mockupIndex
                  (with_regeneratingView (Some (Some viewMode)))) ;;
         tryCatch
           (logoBase64 <-
              match logo input with
              | Some l =>
                  b <- await (Service.fileToGenerativePart l
                                (regenLogoRead env)) ;;
                  ret (Some b)
              | None => ret None
              end ;;
            target <-
              match generatedMockups !! mockupIndex with
              | Some m => ret m
              | None =>
                  throw (Error "Cannot read properties of undefined")
              end ;;
            let concept :=
              DesignConcept.mk (conceptName target) (description target)
                               (fallbackPrompt (url input) target) in
            newImageUrl <-
              await (Service.refineAndRegenerateMockup
                       concept (companyInfo input) viewMode logoBase64
                       (regenApi env)) ;;
            setGeneratedMockups
              (mapAt mockupIndex (regenerated viewMode newImageUrl)))
           (fun e =>
              consoleError "Regeneration failed" e ;;
              setGeneratedMockups
                (mapAt mockupIndex
                       (with_regeneratingView (Some None))))) s0
    end.

End App.

(** ** Vocabulary of the properties *)

(** What [generateMockupImage] ends with, given the answer of the API. *)
Definition imageResult (answer : Result GenResponse) : Result string :=
  match answer with
  | Ok response => Service.extractImage response
  | Throw e => Throw e
  end.

Definition succeeded {A} (r : Result A) : bool :=
  match r with
  | Ok _ => true
  | Throw _ => false
  end.

(** The image URL a view ends with: the one its own request produced,
    [null] when that request failed. *)
Definition urlOf (answer : Result GenResponse) : option string :=
  match imageResult answer with
  | Ok dataUri => Some dataUri
  | Throw _ => None
  end.

(** The [.then] of one view applied to a mockup. *)
Definition applyResult (deviceType : Device) (answer : Result GenResponse)
    (m : GeneratedMockup) : GeneratedMockup :=
  match imageResult answer with
  | Ok dataUri => App.setImageUrl deviceType (Some dataUri) m
  | Throw _ => m
  end.

(** The mockup of concept [i] once its turn of the loop is over. *)
Definition finished (env : App.GenerateEnv) (i : nat) (m : GeneratedMockup)
  : GeneratedMockup :=
  with_status completed
    (applyResult desktop (App.imageAnswer env i desktop)
       (applyResult mobile (App.imageAnswer env i mobile) m)).

(** [prev.map(m => m.id === `mockup-${i}` ? f m : m)], one mockup. *)
Definition byId (i : nat) (f : GeneratedMockup -> GeneratedMockup)
    (m : GeneratedMockup) : GeneratedMockup :=
  if String.eqb (id m) (mockupId i) then f m else m.

(** A state that differs only in [generatedMockups]. *)
Definition withMockups (now : list GeneratedMockup) (s : App.State)
  : App.State :=
  {| App.input := App.input s; App.isAnalyzing := App.isAnalyzing s;
     App.generatedMockups := now; App.sources := App.sources s;
     App.error := App.error s; App.viewMode := App.viewMode s |}.

(** The ids of a list of mockups are those [handleGenerate] gives by
    position. *)
Definition Seeded (ms : list GeneratedMockup) : Prop :=
  forall j m, ms !! j = Some m -> id m = mockupId j.

(** The loop has dealt with the concepts before [k] and no other. *)
Definition Progress (k : nat) (ms : list GeneratedMockup) : Prop :=
  Seeded ms /\
  forall j m, ms !! j = Some m ->
    status m = if Nat.ltb j k then completed else generating.

(** What the settlement of one request of concept [k] makes of
    [generatedMockups], and what it writes, in closed form. *)
Definition settleMockups (k : nat) (dev : Device)
    (answer : Result GenResponse) (ms : list GeneratedMockup)
  : list GeneratedMockup :=
  match imageResult answer with
  | Ok dataUri => map (byId k (App.setImageUrl dev (Some dataUri))) ms
  | Throw _ => ms
  end.

Definition settleTrace (k : nat) (c : DesignConcept) (logo : option string)
    (dev : Device) (answer : Result GenResponse)
    (ms : list GeneratedMockup) : list Event :=
  match imageResult answer with
  | Ok dataUri =>
      [ApiSettled (Service.imageRequest c logo dev) true;
       SetGeneratedMockups (settleMockups k dev answer ms)]
  | Throw e =>
      [ApiSettled (Service.imageRequest c logo dev) (succeeded answer);
       ConsoleError
         ("Error generating " ++ Service.deviceName dev ++ " mockup image:") e;
       ConsoleError (App.failureMessage dev k) e]
  end.

(** What the turn of concept [k] writes when it starts from [ms]. *)
Definition turnTrace (env : App.GenerateEnv) (logo : option string)
    (k : nat) (c : DesignConcept) (ms : list GeneratedMockup) : list Event :=
  let d1 := if App.mobileSettlesFirst env k then mobile else desktop in
  let d2 := if App.mobileSettlesFirst env k then desktop else mobile in
  [ApiCall (Service.imageRequest c logo mobile);
   ApiCall (Service.imageRequest c logo desktop)]
  ++ settleTrace k c logo d1 (App.imageAnswer env k d1) ms
  ++ settleTrace k c logo d2 (App.imageAnswer env k d2)
       (settleMockups k d1 (App.imageAnswer env k d1) ms)
  ++ [SetGeneratedMockups (App.mapAt k (finished env k) ms)].

(** [generatedMockups] after the turns of the concepts [k], ..., [k+n-1]. *)
Definition loopMockups (env : App.GenerateEnv) (k n : nat)
    (ms : list GeneratedMockup) : list GeneratedMockup :=
  imap (fun j m => if (Nat.leb k j && Nat.ltb j (k + n))%bool
                   then finished env j m else m) ms.

(** The [logoBase64] of a handler: [null] without a logo, the outcome of
    reading it otherwise. *)
Definition logoResult (i : GenerationInput) (read : Result string)
  : Result (option string) :=
  match logo i with
  | None => Ok None
  | Some _ =>
      match read with
      | Ok b => Ok (Some b)
      | Throw e => Throw e
      end
  end.

Definition logoEvents (i : GenerationInput) : list Event :=
  match logo i with
  | None => []
  | Some l => [ReadFile l]
  end.

(** The three components of a run. *)
Definition outcome {A} (r : Result A * App.State * list Event) : Result A :=
  fst (fst r).
Definition finalState {A} (r : Result A * App.State * list Event)
  : App.State := snd (fst r).
Definition trace {A} (r : Result A * App.State * list Event) : list Event :=
  snd r.

Definition isImageCall (e : Event) : bool :=
  match e with
  | ApiCall r => isImageRequest r
  | _ => false
  end.

Definition isImageSettled (e : Event) : bool :=
  match e with
  | ApiSettled r _ => isImageRequest r
  | _ => false
  end.

(** The events of [handleGenerate] outside its loop. *)
Definition isQuiet (e : Event) : bool :=
  match e with
  | ApiCall _ | ApiSettled _ _ => false
  | _ => true
  end.

(** The image URL of one view of a mockup. *)
Definition viewUrl (deviceType : Device) (m : GeneratedMockup)
  : option string :=
  match deviceType with
  | mobile => mobileImageUrl m
  | desktop => desktopImageUrl m
  end.

Definition isApiCall (e : Event) : bool :=
  match e with
  | ApiCall _ => true
  | _ => false
  end.

Definition otherView (deviceType : Device) : Device :=
  match deviceType with
  | mobile => desktop
  | desktop => mobile
  end.

(** What the [try] block of [handleRegenerateView] ends with: the
    exception of the logo read, or else what the image generation of
    [refineAndRegenerateMockup] ends with. *)
Definition regenerationResult (s : App.State) (env : App.RegenerateEnv)
  : Result string :=
  match logoResult (App.input s) (App.regenLogoRead env) with
  | Throw e => Throw e
  | Ok _ => imageResult (Service.regenerateAnswer (App.regenApi env))
  end.

(** ** Sample runs *)

Definition demoConcepts : list DesignConcept :=
  [DesignConcept.mk "Minimalist Tech" "Calm, airy, content first."
     "A minimalist homepage with a large headline";
   DesignConcept.mk "Bold & Disruptive" "Loud colours, big type."
     "A bold homepage with oversized typography"].

Definition demoSources : list GroundingSource :=
  [{| title := "example.com"; uri := "https://example.com/about" |}].

(** A response that carries one image. *)
Definition demoImage (d : string) : Result GenResponse :=
  Ok {| responseText := None;
        candidateParts :=
          Some [textPart "Here is the mockup."; inlinePart "image/png" d] |}.

(** Research succeeds with two concepts; the mobile request of the first
    concept is refused and the desktop request of the second one is
    answered without an image. *)
Definition demoEnv : App.GenerateEnv :=
  {| App.screenshotRead := Ok "U0hPVA==";
     App.researchAnswer := Ok (demoConcepts, demoSources);
     App.logoRead := Ok "TE9HTw==";
     App.imageAnswer := fun i d =>
       match i, d with
       | 0, mobile => Throw (Error "503 Service Unavailable")
       | 0, desktop => demoImage "RDA="
       | _, mobile => demoImage "TTE="
       | _, desktop =>
           Ok {| responseText := Some "I cannot draw this.";
                 candidateParts := None |}
       end;
     App.mobileSettlesFirst := fun i => Nat.eqb i 0 |}.

(** The same, with a research call that throws. *)
Definition demoEnvNoResearch : App.GenerateEnv :=
  {| App.screenshotRead := Ok "U0hPVA==";
     App.researchAnswer := Throw (Error "API key not valid");
     App.logoRead := Ok "TE9HTw==";
     App.imageAnswer := App.imageAnswer demoEnv;
     App.mobileSettlesFirst := App.mobileSettlesFirst demoEnv |}.

Definition demoMockup : GeneratedMockup :=
  {| id := "mockup-0"; conceptName := "Minimalist Tech";
     description := "Calm, airy, content first.";
     mobileImageUrl := Some "data:image/png;base64,T0xE";
     desktopImageUrl := Some "data:image/png;base64,T0xEMg==";
     status := completed; regeneratingView := None; error := None |}.

Definition demoState : App.State :=
  {| App.input :=
       {| url := "https://example.com"; companyInfo := "A bakery.";
          screenshot := Some {| fileName := "home.png" |};
          logo := Some {| fileName := "logo.png" |} |};
     App.isAnalyzing := false;
     App.generatedMockups := [];
     App.sources := [];
     App.error := None;
     App.viewMode := mobile |}.

(** A state with results of an earlier run and no screenshot. *)
Definition demoStateNoScreenshot : App.State :=
  {| App.input :=
       {| url := "https://example.com"; companyInfo := "A bakery.";
          screenshot := None; logo := None |};
     App.isAnalyzing := false;
     App.generatedMockups := [demoMockup];
     App.sources := demoSources;
     App.error := None;
     App.viewMode := desktop |}.

(** Two finished mockups, the desktop view being shown. *)
Definition demoRegenState : App.State :=
  {| App.input :=
       {| url := "https://example.com"; companyInfo := "A bakery.";
          screenshot := Some {| fileName := "home.png" |};
          logo := None |};
     App.isAnalyzing := false;
     App.generatedMockups :=
       [demoMockup;
        {| id := "mockup-1"; conceptName := "Bold & Disruptive";
           description := "Loud colours, big type.";
           mobileImageUrl := Some "data:image/png;base64,TTE=";
           desktopImageUrl := Some "data:image/png;base64,RDE=";
           status := completed; regeneratingView := None;
           error := None |}];
     App.sources := demoSources;
     App.error := None;
     App.viewMode := desktop |}.

(** The refinement answers with a new prompt and the image request is
    refused. *)
Definition demoRegenEnvFailing : App.RegenerateEnv :=
  {| App.regenLogoRead := Ok "";
     App.regenApi :=
       {| Service.refineAnswer :=
            Ok {| responseText := Some "A bolder homepage, version 2";
                  candidateParts := None |};
          Service.regenerateAnswer := Throw (Error "429 Too Many Requests")
       |} |}.

(** The refinement fails and the image request succeeds. *)
Definition demoRegenEnv : App.RegenerateEnv :=
  {| App.regenLogoRead := Ok "";
     App.regenApi :=
       {| Service.refineAnswer := Throw (Error "500 Internal Server Error");
          Service.regenerateAnswer := demoImage "TkVX" |} |}.

(** Image-generation requests sent, and settled, along a trace. *)
Definition issued (t : list Event) : nat :=
  length (List.filter isImageCall t).

Definition settled (t : list Event) : nat :=
  length (List.filter isImageSettled t).

(** The successive statuses of the mockup at position [i]: one entry for
    each value given to [generatedMockups] that has such a mockup. *)
Fixpoint statusTrace (i : nat) (t : list Event) : list Status :=
  match t with
  | [] => []
  | SetGeneratedMockups now :: rest =>
      match now !! i with
      | Some m => status m :: statusTrace i rest
      | None => statusTrace i rest
      end
  | _ :: rest => statusTrace i rest
  end.

(** A list without its immediate repetitions: the statuses a mockup goes
    through, each change of status being a transition. *)
Fixpoint changes (l : list Status) : list Status :=
  match l with
  | [] => []
  | a :: rest =>
      match rest with
      | [] => [a]
      | b :: _ => if Status_eqb a b then changes rest else a :: changes rest
      end
  end.

Fixpoint Status_list_eqb (a b : list Status) : bool :=
  match a, b with
  | [], [] => true
  | x :: a', y :: b' => Status_eqb x y && Status_list_eqb a' b'
  | _, _ => false
  end.

(** [Q issuedBefore settledBefore e] holds of every event [e] of the
    trace, the two counters being those of the events before it (plus
    [a] and [b]). *)
Fixpoint Steps (Q : nat -> nat -> Event -> Prop) (a b : nat)
    (t : list Event) : Prop :=
  match t with
  | [] => True
  | e :: rest =>
      Q a b e /\
      Steps Q (if isImageCall e then S a else a)
              (if isImageSettled e then S b else b) rest
  end.

(** What is asked of every image request: it is sent when at most its
    sibling is in flight, every request of the earlier pairs being settled;
    [a] requests were sent and [b] settled before the event. *)
Definition Gate (a b : nat) (e : Event) : Prop :=
  b <= a <= b + 2 /\ (isImageCall e = true -> b = 2 * (a / 2)).

(** A value of [generatedMockups] shows the mockup at position [i] as
    completed only when the requests of the concepts up to [i] are
    settled. *)
Definition CompletedLate (b : nat) (e : Event) : Prop :=
  match e with
  | SetGeneratedMockups now =>
      forall i m, now !! i = Some m -> status m = completed -> 2 * (i + 1) <= b
  | _ => True
  end.

Definition Orderly (a b : nat) (e : Event) : Prop :=
  Gate a b e /\ CompletedLate b e.

(** The prompt the specification says the regenerated image is made from:
    the refined one when the refinement call succeeds with a non-empty
    text, the original one otherwise. *)
Definition promptPerSpec (originalConcept : DesignConcept)
    (refinement : Result GenResponse) : string :=
  match refinement with
  | Throw _ => DesignConcept.imagePrompt originalConcept
  | Ok response =>
      match responseText response with
      | None => DesignConcept.imagePrompt originalConcept
      | Some "" => DesignConcept.imagePrompt originalConcept
      | Some refined => refined
      end
  end.

(** The viewer's zoom levels: the halves from 0.5 to 4. *)
Definition zoomLevels : list float :=
  [0.5; 1; 1.5; 2; 2.5; 3; 3.5; 4]%float.

(** ** components/FileUpload.tsx and the two upload zones of App.tsx *)

Module FileUpload.

(** What a handler passes to [onFileChange], when it calls it:
    [files && files[0]] is the first file of the list, if there is one. *)
Definition handleDrop (files : option (list File)) : option (option File) :=
  match files with
  | Some (f :: _) => Some (Some f)
  | _ => None
  end.

Definition handleChange (files : option (list File))
  : option (option File) :=
  match files with
  | Some (f :: _) => Some (Some f)
  | _ => None
  end.

(** The click on the cross of a loaded file: [onFileChange(null)]. *)
Definition handleClear : option (option File) := Some None.

End FileUpload.

Module Form.

(** [onFileChange={(f) => setInput({...input, screenshot: f})}]. *)
Definition onScreenshotChange (f : option File) (s : App.State)
  : App.State :=
  {| App.input :=
       {| url := url (App.input s); companyInfo := companyInfo (App.input s);
          screenshot := f; logo := logo (App.input s) |};
     App.isAnalyzing := App.isAnalyzing s;
     App.generatedMockups := App.generatedMockups s;
     App.sources := App.sources s;
     App.error := App.error s;
     App.viewMode := App.viewMode s |}.

(** [onFileChange={(f) => setInput({...input, logo: f})}]. *)
Definition onLogoChange (f : option File) (s : App.State) : App.State :=
  {| App.input :=
       {| url := url (App.input s); companyInfo := companyInfo (App.input s);
          screenshot := screenshot (App.input s); logo := f |};
     App.isAnalyzing := App.isAnalyzing s;
     App.generatedMockups := App.generatedMockups s;
     App.sources := App.sources s;
     App.error := App.error s;
     App.viewMode := App.viewMode s |}.

(** A handler of [FileUpload] wired to a zone of the form. *)
Definition deliver (call : option (option File))
    (onFileChange : option File -> App.State -> App.State)
    (s : App.State) : App.State :=
  match call with
  | Some f => onFileChange f s
  | None => s
  end.

(** [disabled={isAnalyzing || !input.screenshot}] of the Generate
    button. *)
Definition generateDisabled (s : App.State) : bool :=
  App.isAnalyzing s
  || negb (match screenshot (App.input s) with Some _ => true | None => false end).

(** [setViewMode(d)]. *)
Definition setViewMode (d : Device) (s : App.State) : App.State :=
  {| App.input := App.input s;
     App.isAnalyzing := App.isAnalyzing s;
     App.generatedMockups := App.generatedMockups s;
     App.sources := App.sources s;
     App.error := App.error s;
     App.viewMode := d |}.

(** The state the component is mounted in. *)
Definition initial : App.State :=
  {| App.input :=
       {| url := ""; companyInfo := ""; screenshot := None; logo := None |};
     App.isAnalyzing := false;
     App.generatedMockups := [];
     App.sources := [];
     App.error := None;
     App.viewMode := mobile |}.

(** What happens to the component, one handler at a time. *)
Inductive Op : Type :=
| Generate (env : App.GenerateEnv)
| Regenerate (mockupId : string) (env : App.RegenerateEnv)
| SetViewMode (d : Device)
| DropScreenshot (files : option (list File))
| ClearScreenshot
| DropLogo (files : option (list File))
| ClearLogo.

Definition apply (s : App.State) (op : Op) : App.State :=
  match op with
  | Generate env => snd (fst (App.handleGenerate env s))
  | Regenerate mockupId env =>
      snd (fst (App.handleRegenerateView mockupId env s))
  | SetViewMode d => setViewMode d s
  | DropScreenshot files =>
      deliver (FileUpload.handleDrop files) onScreenshotChange s
  | ClearScreenshot => deliver FileUpload.handleClear onScreenshotChange s
  | DropLogo files => deliver (FileUpload.handleDrop files) onLogoChange s
  | ClearLogo => deliver FileUpload.handleClear onLogoChange s
  end.

Definition run (ops : list Op) (s : App.State) : App.State :=
  fold_left apply ops s.

End Form.

(** ** App.tsx: what a card of the results grid shows *)

Module Card.

Inductive t : Type :=
| ShowImage (src : string)
| ShowFailed
| ShowSpinner (label hint : string).

(** [viewMode === 'mobile' ? mockup.mobileImageUrl
                           : mockup.desktopImageUrl]. *)
Definition activeImage (viewMode : Device) (mockup : GeneratedMockup)
  : option string :=
  match viewMode with
  | mobile => mobileImageUrl mockup
  | desktop => desktopImageUrl mockup
  end.

(** [mockup.regeneratingView === viewMode]. *)
Definition isRegeneratingThisView (viewMode : Device)
    (mockup : GeneratedMockup) : bool :=
  match regeneratingView mockup with
  | Some (Some d) => Device_eqb d viewMode
  | _ => false
  end.

(** [!!activeImage && !isRegeneratingThisView]. *)
Definition isImageReady (viewMode : Device) (mockup : GeneratedMockup)
  : bool :=
  truthy (activeImage viewMode mockup)
  && negb (isRegeneratingThisView viewMode mockup).

(** The three-way conditional of the card. *)
Definition render (viewMode : Device) (mockup : GeneratedMockup) : t :=
  if isImageReady viewMode mockup
  then ShowImage (default "" (activeImage viewMode mockup))
  else if Status_eqb (status mockup) failed
          && negb (isRegeneratingThisView viewMode mockup)
       then ShowFailed
       else ShowSpinner
              (if isRegeneratingThisView viewMode mockup
               then "Improving Design..."
               else "Rendering "
                    ++ (match viewMode with
                        | mobile => "Mobile"
                        | desktop => "Desktop"
                        end)
                    ++ " Design...")
              (match viewMode with
               | desktop => "Long-scrolling layout"
               | mobile => "App-like vertical layout"
               end).

(** The download, fullscreen and regenerate buttons are rendered under
    [isImageReady]. *)
Definition hasActions (viewMode : Device) (mockup : GeneratedMockup)
  : bool := isImageReady viewMode mockup.

Definition isShowFailed (c : t) : bool :=
  match c with
  | ShowFailed => true
  | _ => false
  end.

End Card.

(** ** App.tsx: the toolbar of the fullscreen viewer *)

Module Toolbar.

(** [disabled={zoom <= 0.5}] and [disabled={zoom >= 4}]. *)
Definition zoomOutDisabled (s : Viewer.State) : bool :=
  (Viewer.zoom s <=? 0.5)%float.

Definition zoomInDisabled (s : Viewer.State) : bool :=
  (4 <=? Viewer.zoom s)%float.

Inductive Cursor : Type := grabbing | grab | default_.

(** [isDragging ? 'grabbing' : zoom > 1 ? 'grab' : 'default']. *)
Definition cursor (s : Viewer.State) : Cursor :=
  if Viewer.isDragging s then grabbing
  else if (1 <? Viewer.zoom s)%float then grab
  else default_.

End Toolbar.

(** ** components/ApiKeySelector.tsx *)

Module ApiKeySelector.

(** The value of the environment variable is held as the sequence of its
    UTF-16 code units, which is what [String.prototype.trim] works on. *)
Definition CodeUnits : Type := list N.

(** The code units [trim] strips: the WhiteSpace and LineTerminator
    productions of ECMAScript (tab, line feed, vertical tab, form feed,
    carriage return, space, no-break space, the space separators of
    Unicode, line and paragraph separator, and the byte-order mark). *)
Definition isWhiteSpace (c : N) : bool :=
  (N.leb 0x0009 c && N.leb c 0x000D)
  || N.eqb c 0x0020
  || N.eqb c 0x00A0
  || N.eqb c 0x1680
  || (N.leb 0x2000 c && N.leb c 0x200A)
  || N.eqb c 0x2028
  || N.eqb c 0x2029
  || N.eqb c 0x202F
  || N.eqb c 0x205F
  || N.eqb c 0x3000
  || N.eqb c 0xFEFF.

Fixpoint trimStart (s : CodeUnits) : CodeUnits :=
  match s with
  | [] => []
  | c :: rest => if isWhiteSpace c then trimStart rest else s
  end.

Fixpoint trimEnd (s : CodeUnits) : CodeUnits :=
  match s with
  | [] => []
  | c :: rest =>
      match trimEnd rest with
      | [] => if isWhiteSpace c then [] else [c]
      | kept => c :: kept
      end
  end.

Definition trim (s : CodeUnits) : CodeUnits := trimEnd (trimStart s).

(** [s !== ''] and the truthiness of a [string | undefined]. *)
Definition nonEmpty (s : CodeUnits) : bool :=
  match s with
  | [] => false
  | _ :: _ => true
  end.

Definition truthy (s : option CodeUnits) : bool :=
  match s with
  | Some s => nonEmpty s
  | None => false
  end.

(** The two cells involved: [loading] of the selector and [hasApiKey] of
    [App], which [onKeySelected] sets. *)
Record State : Type := {
  loading : bool;
  hasApiKey : bool
}.

Definition initial : State := {| loading := true; hasApiKey := false |}.

(** [checkKey], [apiKey] being [import.meta.env.VITE_GEMINI_API_KEY]. *)
Definition checkKey (apiKey : option CodeUnits) (s : State) : State :=
  let selected := truthy apiKey && nonEmpty (trim (default [] apiKey)) in
  {| loading := false;
     hasApiKey := if selected then true else hasApiKey s |}.

(** The "API Key Missing" screen: the selector is mounted under
    [!hasApiKey] and renders nothing while [loading]. *)
Definition showsMissingKey (s : State) : bool :=
  negb (hasApiKey s) && negb (loading s).

End ApiKeySelector.

(** ** services/geminiService.ts: reading a file *)

Module FileRead.

(** [s.split(sep)] for a separator of one code unit. *)
Fixpoint split (sep : ascii) (s : string) : list string :=
  match s with
  | EmptyString => [EmptyString]
  | String c rest =>
      if Ascii.eqb c sep then EmptyString :: split sep rest
      else match split sep rest with
           | [] => [String c EmptyString]
           | piece :: pieces => String c piece :: pieces
           end
  end.

(** [base64String.split(',')[1]]; [None] is [undefined]. *)
Definition base64Data (base64String : string) : option string :=
  nth_error (split "," base64String) 1.

Fixpoint includes (c : ascii) (s : string) : bool :=
  match s with
  | EmptyString => false
  | String a rest => Ascii.eqb a c || includes c rest
  end.

End FileRead.

(** ** services/geminiService.ts: [generateDesignConcepts] in full *)

Module Research.

(** [chunk.web], with its optional [uri] and [title]. *)
Record Web : Type := {
  webUri : option string;
  webTitle : option string
}.

Record GroundingChunk : Type := { web : option Web }.

(** What the function reads of the response: [response.text] and
    [response.candidates?.[0]?.groundingMetadata?.groundingChunks]. *)
Record Response : Type := {
  text : option string;
  groundingChunks : option (list GroundingChunk)
}.

Section Parsers.

(** [new URL(uri).hostname], which throws on a string that is no URL. *)
Variable hostname : string -> Result string.

(** [JSON.parse(text) as DesignConcept[]]. *)
Variable parse : string -> Result (list DesignConcept).

(** The [for ... of] over the grounding chunks, [sources] being the array
    pushed to. *)
Fixpoint collect (chunks : list GroundingChunk)
    (sources : list GroundingSource) : Result (list GroundingSource) :=
  match chunks with
  | [] => Ok sources
  | chunk :: rest =>
      match web chunk with
      | Some w =>
          if truthy (webUri w)
          then
            if truthy (webTitle w)
            then collect rest
                   (sources ++ [{| title := default "" (webTitle w);
                                   uri := default "" (webUri w) |}])%list
            else match hostname (default "" (webUri w)) with
                 | Ok host =>
                     collect rest
                       (sources ++ [{| title := host;
                                       uri := default "" (webUri w) |}])%list
                 | Throw e => Throw e
                 end
          else collect rest sources
      | None => collect rest sources
      end
  end.

(** The body of the [try] once the request is answered. *)
Definition designAnswer (response : Result Response)
  : Result (list DesignConcept * list GroundingSource) :=
  match response with
  | Throw e => Throw e
  | Ok r =>
      match collect (default [] (groundingChunks r)) [] with
      | Throw e => Throw e
      | Ok sources =>
          if truthy (text r)
          then match parse (default "" (text r)) with
               | Ok concepts => Ok (concepts, sources)
               | Throw e => Throw e
               end
          else Throw (Error "No JSON response received from design analysis.")
      end
  end.

(** [generateDesignConcepts]: the request, then the body above, then the
    [catch] that logs and rethrows. *)
Definition generateDesignConcepts (url companyInfo screenshotBase64 : string)
    (response : Result Response)
  : Service.Svc (list DesignConcept * list GroundingSource) :=
  Service.generateDesignConcepts url companyInfo screenshotBase64
    (designAnswer response).

End Parsers.

(** The chunks that cite a page: those with a non-empty [web.uri]. *)
Definition cited (chunk : GroundingChunk) : option Web :=
  match web chunk with
  | Some w => if truthy (webUri w) then Some w else None
  | None => None
  end.

End Research.

(** ** App.tsx and geminiService.ts: the auto-fill of the company brief *)

(** [s.length]: the number of UTF-16 code units of [s], a string without
    unpaired surrogates. In the UTF-8 encoding the model holds, every code
    point starts with a byte outside 0x80..0xBF, and those that take two
    code units (the ones beyond U+FFFF) are the ones that start with a
    byte from 0xF0 on. *)
Fixpoint String_length (s : string) : nat :=
  match s with
  | EmptyString => 0
  | String c rest =>
      let b := nat_of_ascii c in
      (if Nat.ltb b 0x80 then 1
       else if Nat.ltb b 0xC0 then 0
       else if Nat.ltb b 0xF0 then 1
       else 2)
      + String_length rest
  end.

Module AutoFill.

(** What the effect does outside the component. *)
Inductive Event : Type :=
| GenerateContent (model contents : string) (tools : list string)
| Log (msg : string) (e : JsError).

(** The template literal [prompt] of [getCompanyInfoFromUrl]. *)
Definition prompt (url : string) : string :=
  String.concat Service.nl
    [ "";
      "    You are an expert web design strategist.";
      "    Research the website at this URL: " ++ url;
      "    ";
      "    Write a concise design brief summary (approx 50-80 words) covering:";
      "    1. What the company does.";
      "    2. The target audience.";
      "    3. The existing brand vibe (e.g. corporate, playful, minimalist).";
      "    ";
      "    Do not use markdown formatting, just plain text suitable for a form field.";
      "  " ].

(** [getCompanyInfoFromUrl(url)], given the answer to its request. *)
Definition getCompanyInfoFromUrl (url : string)
    (answer : Result GenResponse) : list Event * Result string :=
  let call :=
    GenerateContent "gemini-3-flash-preview" (prompt url) ["googleSearch"] in
  match answer with
  | Ok response =>
      ([call],
       Ok (if truthy (responseText response)
           then default "" (responseText response)
           else ""))
  | Throw error => ([call; Log "Failed to fetch company info:" error], Ok "")
  end.

(** The cells the effect reads or writes. *)
Record State : Type := {
  hasApiKey : bool;
  input : GenerationInput;
  isFetchingInfo : bool
}.

Definition setIsFetchingInfo (v : bool) (s : State) : State :=
  {| hasApiKey := hasApiKey s; input := input s; isFetchingInfo := v |}.

(** [setInput(prev => ({ ...prev, companyInfo: info }))]. *)
Definition setCompanyInfo (info : string) (s : State) : State :=
  {| hasApiKey := hasApiKey s;
     input := {| url := url (input s); companyInfo := info;
                 screenshot := screenshot (input s);
                 logo := logo (input s) |};
     isFetchingInfo := isFetchingInfo s |}.

(** [hasApiKey && input.url && input.url.includes('.')
     && input.url.length > 4]. *)
Definition shouldFetch (s : State) : bool :=
  hasApiKey s
  && truthy (Some (url (input s)))
  && FileRead.includes "." (url (input s))
  && Nat.ltb 4 (String_length (url (input s))).

(** The callback of the timer, once the 1.5 s have passed. *)
Definition onTimer (answer : Result GenResponse) (s : State)
  : State * list Event :=
  if shouldFetch s
  then
    let s1 := setIsFetchingInfo true s in
    let '(t, r) := getCompanyInfoFromUrl (url (input s)) answer in
    match r with
    | Ok info =>
        let s2 := if truthy (Some info) then setCompanyInfo info s1 else s1 in
        (setIsFetchingInfo false s2, t)
    | Throw e =>
        (setIsFetchingInfo false s1, (t ++ [Log "Failed to auto-fill info:" e])%list)
    end
  else (s, []).

End AutoFill.

(** ** More vocabulary *)

(** Every step before the loop of [handleGenerate] succeeds. *)
Definition reachesLoop (env : App.GenerateEnv) (s : App.State) : bool :=
  match screenshot (App.input s) with
  | None => false
  | Some _ =>
      succeeded (App.screenshotRead env)
      && succeeded (App.researchAnswer env)
      && succeeded (logoResult (App.input s) (App.logoRead env))
  end.

Definition isNone {A} (o : option A) : bool :=
  match o with
  | None => true
  | Some _ => false
  end.

(** The statuses the handlers give. *)
Definition statusInUse (m : GeneratedMockup) : bool :=
  Status_eqb (status m) generating || Status_eqb (status m) completed.

(** The two requests of a concept, in the order they are sent. *)
Definition requestsOf (logo : option string) (c : DesignConcept)
  : list Event :=
  [ApiCall (Service.imageRequest c logo mobile);
   ApiCall (Service.imageRequest c logo desktop)].

(** The concepts the research call of a run returns, none when it
    throws. *)
Definition conceptsOf (env : App.GenerateEnv) : list DesignConcept :=
  match App.researchAnswer env with
  | Ok found => fst found
  | Throw _ => []
  end.

Definition hasScreenshot (s : App.State) : bool :=
  match screenshot (App.input s) with
  | Some _ => true
  | None => false
  end.

(** Research succeeds and the logo cannot be read. *)
Definition demoEnvNoLogo : App.GenerateEnv :=
  {| App.screenshotRead := Ok "U0hPVA==";
     App.researchAnswer := Ok (demoConcepts, demoSources);
     App.logoRead := Throw (Error "NotReadableError");
     App.imageAnswer := App.imageAnswer demoEnv;
     App.mobileSettlesFirst := App.mobileSettlesFirst demoEnv |}.

(** The screenshot cannot be read. *)
Definition demoEnvNoScreenshotRead : App.GenerateEnv :=
  {| App.screenshotRead := Throw (Error "NotReadableError");
     App.researchAnswer := Ok (demoConcepts, demoSources);
     App.logoRead := Ok "TE9HTw==";
     App.imageAnswer := App.imageAnswer demoEnv;
     App.mobileSettlesFirst := App.mobileSettlesFirst demoEnv |}.

(** A key [checkKey] accepts: defined, with a code unit that is not white
    space. *)
Definition usableKey (apiKey : option ApiKeySelector.CodeUnits) : bool :=
  match apiKey with
  | Some k => existsb (fun c => negb (ApiKeySelector.isWhiteSpace c)) k
  | None => false
  end.

(** The code units of a string of ASCII characters. *)
Definition unitsOfAscii (s : string) : ApiKeySelector.CodeUnits :=
  map N_of_ascii (list_ascii_of_string s).

(** The text of an answer, when there is one. *)
Definition textOf (answer : Result GenResponse) : option string :=
  match answer with
  | Ok response => responseText response
  | Throw _ => None
  end.

Definition isGenerateContent (e : AutoFill.Event) : bool :=
  match e with
  | AutoFill.GenerateContent _ _ _ => true
  | AutoFill.Log _ _ => false
  end.

Definition isAutoFillLog (e : AutoFill.Event) : bool :=
  match e with
  | AutoFill.Log msg _ => String.eqb msg "Failed to auto-fill info:"
  | AutoFill.GenerateContent _ _ _ => false
  end.

(** A citation that carries its own title. *)
Definition titled (w : Research.Web) : bool := truthy (Research.webTitle w).

(** The source made of a titled citation. *)
Definition sourceOfTitled (w : Research.Web) : GroundingSource :=
  {| title := default "" (Research.webTitle w);
     uri := default "" (Research.webUri w) |}.

(** The pages a response cites, in the order of its chunks. *)
Definition citations (r : Research.Response) : list Research.Web :=
  omap Research.cited (default [] (Research.groundingChunks r)).

(** [src] is the source the loop makes of the citation [w]: the same URI,
    and the title of the citation or, when it has none, the host name of
    its URI. *)
Definition Cites (hostname : string -> Result string) (w : Research.Web)
    (src : GroundingSource) : Prop :=
  uri src = default "" (Research.webUri w)
  /\ (if titled w then title src = default "" (Research.webTitle w)
      else hostname (default "" (Research.webUri w)) = Ok (title src)).

(** A URL parser that knows two hosts and rejects the rest. *)
Definition demoHostname (u : string) : Result string :=
  if String.eqb u "https://example.com/about" then Ok "example.com"
  else if String.eqb u "https://bakers.example.org/" then Ok "bakers.example.org"
  else Throw (Error "Invalid URL").

Definition demoParse (t : string) : Result (list DesignConcept) :=
  if String.eqb t "[...]" then Ok demoConcepts
  else Throw (Error "Unexpected token").

Definition demoResponse : Research.Response :=
  {| Research.text := Some "[...]";
     Research.groundingChunks :=
       Some [ {| Research.web :=
                   Some {| Research.webUri := Some "https://example.com/about";
                           Research.webTitle := Some "About us" |} |};
              {| Research.web := None |};
              {| Research.web :=
                   Some {| Research.webUri := Some "https://bakers.example.org/";
                           Research.webTitle := None |} |} ] |}.

(** The same answer with one more citation, untitled and with a URI that
    is no URL. *)
Definition demoResponseBadCitation : Research.Response :=
  {| Research.text := Some "[...]";
     Research.groundingChunks :=
       Some (default [] (Research.groundingChunks demoResponse)
             ++ [ {| Research.web :=
                       Some {| Research.webUri := Some "bakers dot org";
                               Research.webTitle := Some "" |} |} ])%list |}.

(** An answer whose citations are all titled, and without text. *)
Definition demoResponseNoText : Research.Response :=
  {| Research.text := Some "";
     Research.groundingChunks :=
       Some [ {| Research.web :=
                   Some {| Research.webUri := Some "not a url";
                           Research.webTitle := Some "About us" |} |};
              {| Research.web :=
                   Some {| Research.webUri := None;
                           Research.webTitle := Some "Untraceable" |} |} ] |}.

Definition demoAutoFillState : AutoFill.State :=
  {| AutoFill.hasApiKey := true;
     AutoFill.input :=
       {| url := "example.com"; companyInfo := "We bake bread.";
          screenshot := None; logo := None |};
     AutoFill.isFetchingInfo := false |}.

(** * Properties *)

Local Open Scope list_scope.

(** ** The fullscreen viewer *)

Section ViewerFacts.

Import Viewer.

Local Ltac level_cases H :=
  unfold zoomLevels in H; simpl in H;
  repeat (destruct H as [H | H]; [symmetry in H | ]);
  [ .. | destruct H ].

Local Ltac pick_level :=
  vm_compute; repeat (first [ left; reflexivity | right ]).

Lemma handleZoomIn_level (s : State) :
  In (zoom s) zoomLevels -> In (zoom (handleZoomIn s)) zoomLevels.
Proof.
  intros H. unfold handleZoomIn, setZoom. cbn [zoom].
  level_cases H; rewrite H; pick_level.
Qed.

Lemma handleZoomOut_level (s : State) :
  In (zoom s) zoomLevels -> In (zoom (handleZoomOut s)) zoomLevels.
Proof.
  intros H. unfold handleZoomOut, setZoom. cbn [zoom].
  level_cases H; rewrite H; pick_level.
Qed.

Lemma one_is_a_level : In 1%float zoomLevels.
Proof. pick_level. Qed.

Lemma setFullscreenImage_zoom (v : option string) (s : State) :
  zoom (setFullscreenImage v s) = zoom s \/
  zoom (setFullscreenImage v s) = 1%float.
Proof.
  unfold setFullscreenImage.
  destruct (sameImage (fullscreenImage s) v); [left; reflexivity | ].
  destruct (truthy v); [right | left]; reflexivity.
Qed.

Lemma step_level (s : State) (a : Action) :
  In (zoom s) zoomLevels -> In (zoom (step s a)) zoomLevels.
Proof.
  intros H. destruct a; cbn [step].
  - now apply handleZoomIn_level.
  - now apply handleZoomOut_level.
  - apply one_is_a_level.
  - exact H.
  - unfold handleMouseMove. destruct (negb (isDragging s)); exact H.
  - exact H.
  - destruct (setFullscreenImage_zoom v s) as [E | E]; rewrite E;
      [exact H | apply one_is_a_level].
Qed.

Lemma run_level (acts : list Action) (s : State) :
  In (zoom s) zoomLevels -> In (zoom (run acts s)) zoomLevels.
Proof.
  revert s. induction acts as [| a acts IH]; intros s H; [exact H | ].
  cbn [run fold_left]. apply IH, step_level, H.
Qed.

Lemma level_in_range (z : float) :
  In z zoomLevels -> zoomInRange z = true.
Proof. intros H. level_cases H; rewrite H; reflexivity. Qed.

Lemma level_zoomIn (z : float) :
  In z zoomLevels ->
  Math_min (z + 0.5)%float 4%float
  = (if (z + 0.5 <=? 4)%float then (z + 0.5)%float else 4%float).
Proof. intros H. level_cases H; rewrite H; reflexivity. Qed.

Lemma level_zoomOut (z : float) :
  In z zoomLevels ->
  Math_max (z - 0.5)%float 0.5%float
  = (if (0.5 <=? z - 0.5)%float then (z - 0.5)%float else 0.5%float).
Proof. intros H. level_cases H; rewrite H; reflexivity. Qed.

(** C10. Whatever the user does to the viewer, starting from the state
    the component is mounted in, the zoom factor is one of the levels
    0.5, 1, ..., 4 and so lies in [0.5, 4], and it still does after any
    further action. In such a state zoom-in gives [zoom + 0.5], or 4 when
    that exceeds 4; zoom-out gives [zoom - 0.5], or 0.5 when that is
    below 0.5; reset gives zoom 1 and pan (0, 0), and so does opening an
    image that is not the one already shown. *)
Theorem zoom_stays_within_bounds (acts : list Action) :
  let s := run acts initial in
  zoomInRange (zoom s) = true
  /\ (forall a : Action, zoomInRange (zoom (step s a)) = true)
  /\ zoom (handleZoomIn s)
     = (if (zoom s + 0.5 <=? 4)%float then (zoom s + 0.5)%float
        else 4%float)
  /\ zoom (handleZoomOut s)
     = (if (0.5 <=? zoom s - 0.5)%float then (zoom s - 0.5)%float
        else 0.5%float)
  /\ (zoom (handleResetZoom s) = 1%float /\ pan (handleResetZoom s) = origin)
  /\ (forall img : string,
        truthy (Some img) = true ->
        sameImage (fullscreenImage s) (Some img) = false ->
        zoom (setFullscreenImage (Some img) s) = 1%float /\
        pan (setFullscreenImage (Some img) s) = origin).
Proof.
  intros s.
  assert (L : In (zoom s) zoomLevels) by (apply run_level, one_is_a_level).
  split; [now apply level_in_range | ].
  split; [intros a; apply level_in_range, step_level, L | ].
  split; [apply (level_zoomIn _ L) | ].
  split; [apply (level_zoomOut _ L) | ].
  split; [split; reflexivity | ].
  intros img T D. unfold setFullscreenImage. rewrite D, T.
  split; reflexivity.
Qed.

(** The theorem at work: three zoom-ins, a drag, then a new image. *)
Lemma zoom_stays_within_bounds_witness :
  let acts := [ZoomIn; ZoomIn; ZoomIn; MouseDown 10 10; MouseMove 25 5] in
  zoom (run acts initial) = 2.5%float
  /\ zoomInRange (zoom (run acts initial)) = true
  /\ zoom (setFullscreenImage (Some "data:image/png;base64,AAAA")
             (run acts initial)) = 1%float.
Proof.
  intros acts.
  destruct (zoom_stays_within_bounds acts) as (R & _ & _ & _ & _ & O).
  split; [reflexivity | ]. split; [exact R | ].
  apply (O "data:image/png;base64,AAAA"); reflexivity.
Defined.

End ViewerFacts.

(** ** Strings, lists and traces *)

Lemma Number_toString_inj (a b : nat) :
  Number_toString a = Number_toString b -> a = b.
Proof.
  unfold Number_toString. intros H.
  apply (f_equal NilEmpty.uint_of_string) in H.
  rewrite !NilEmpty.usu in H. injection H as H.
  apply (f_equal Nat.of_uint) in H. now rewrite !Unsigned.of_to in H.
Qed.

Lemma mockupId_eqb (a b : nat) :
  String.eqb (mockupId a) (mockupId b) = Nat.eqb a b.
Proof.
  destruct (Nat.eqb_spec a b) as [-> | N].
  - apply String.eqb_refl.
  - apply String.eqb_neq. intros H. apply N, Number_toString_inj.
    unfold mockupId in H. cbn in H. now repeat injection H as H.
Qed.

Lemma lookup_map {A B} (f : A -> B) (l : list A) (j : nat) :
  map f l !! j = f <$> l !! j.
Proof.
  revert j. induction l as [| a l IH]; intros [| j]; cbn; auto.
Qed.

Lemma lookup_mapAt (k : nat) (f : GeneratedMockup -> GeneratedMockup)
    (ms : list GeneratedMockup) (j : nat) :
  App.mapAt k f ms !! j = (if Nat.eqb j k then f else fun m => m) <$> ms !! j.
Proof.
  unfold App.mapAt. rewrite list_lookup_imap.
  destruct (ms !! j); cbn; [ | reflexivity]. now destruct (Nat.eqb j k).
Qed.

Lemma map_byId (k : nat) (f : GeneratedMockup -> GeneratedMockup)
    (ms : list GeneratedMockup) :
  Seeded ms -> map (byId k f) ms = App.mapAt k f ms.
Proof.
  intros HS. apply list_eq. intros j.
  rewrite lookup_map, lookup_mapAt.
  destruct (ms !! j) as [m | ] eqn:E; cbn; [ | reflexivity].
  unfold byId. rewrite (HS _ _ E), mockupId_eqb. now destruct (Nat.eqb j k).
Qed.

Lemma mapAt_mapAt (k : nat) (f g : GeneratedMockup -> GeneratedMockup)
    (ms : list GeneratedMockup) :
  App.mapAt k g (App.mapAt k f ms) = App.mapAt k (fun m => g (f m)) ms.
Proof.
  apply list_eq. intros j. rewrite !lookup_mapAt.
  destruct (ms !! j); cbn; [ | reflexivity]. now destruct (Nat.eqb j k).
Qed.

Lemma mapAt_ext (k : nat) (f g : GeneratedMockup -> GeneratedMockup)
    (ms : list GeneratedMockup) :
  (forall m, f m = g m) -> App.mapAt k f ms = App.mapAt k g ms.
Proof.
  intros E. apply list_eq. intros j. rewrite !lookup_mapAt.
  destruct (ms !! j); cbn; [ | reflexivity].
  destruct (Nat.eqb j k); now rewrite ?E.
Qed.

Lemma Seeded_mapAt (k : nat) (f : GeneratedMockup -> GeneratedMockup)
    (ms : list GeneratedMockup) :
  (forall m, id (f m) = id m) -> Seeded ms -> Seeded (App.mapAt k f ms).
Proof.
  intros P HS j m. rewrite lookup_mapAt.
  destruct (ms !! j) as [m0 | ] eqn:E; cbn; [ | discriminate].
  intros [= <-]. destruct (Nat.eqb j k); rewrite ?P; apply (HS _ _ E).
Qed.

Lemma Seeded_initial (concepts : list DesignConcept) :
  Seeded (imap initialMockup concepts).
Proof.
  intros j m. rewrite list_lookup_imap.
  destruct (concepts !! j); cbn; [ | discriminate]. now intros [= <-].
Qed.

Lemma issued_app (t1 t2 : list Event) :
  issued (t1 ++ t2) = issued t1 + issued t2.
Proof. unfold issued. now rewrite List.filter_app, length_app. Qed.

Lemma settled_app (t1 t2 : list Event) :
  settled (t1 ++ t2) = settled t1 + settled t2.
Proof. unfold settled. now rewrite List.filter_app, length_app. Qed.

Lemma issued_cons (e : Event) (t : list Event) :
  issued (e :: t) = if isImageCall e then S (issued t) else issued t.
Proof. unfold issued. cbn. now destruct (isImageCall e). Qed.

Lemma settled_cons (e : Event) (t : list Event) :
  settled (e :: t) = if isImageSettled e then S (settled t) else settled t.
Proof. unfold settled. cbn. now destruct (isImageSettled e). Qed.

Lemma Steps_app (Q : nat -> nat -> Event -> Prop) (t1 t2 : list Event) :
  forall a b,
    Steps Q a b t1 ->
    Steps Q (a + issued t1) (b + settled t1) t2 ->
    Steps Q a b (t1 ++ t2).
Proof.
  induction t1 as [| e t1 IH]; intros a b H1 H2.
  - cbn in *. now rewrite !Nat.add_0_r in H2.
  - cbn [app Steps] in *. destruct H1 as [Hq H1]. split; [exact Hq | ].
    apply IH; [exact H1 | ].
    rewrite issued_cons, settled_cons in H2.
    destruct (isImageCall e), (isImageSettled e);
      now rewrite ?Nat.add_succ_r in H2.
Qed.

Lemma Steps_impl (Q R : nat -> nat -> Event -> Prop) (t : list Event) :
  (forall a b e, Q a b e -> R a b e) ->
  forall a b, Steps Q a b t -> Steps R a b t.
Proof.
  intros I. induction t as [| e t IH]; intros a b H; [exact H | ].
  destruct H as [Hq H]. split; auto.
Qed.

(** The event after a prefix [p] of a monitored trace satisfies [Q] at the
    counters of [p]. *)
Lemma Steps_split (Q : nat -> nat -> Event -> Prop) (p : list Event) :
  forall a b e q,
    Steps Q a b (p ++ e :: q) -> Q (a + issued p) (b + settled p) e.
Proof.
  induction p as [| x p IH]; intros a b e q H.
  - cbn in H. destruct H as [H _]. now rewrite !Nat.add_0_r.
  - cbn [app Steps] in H. destruct H as [_ H]. apply IH in H.
    rewrite issued_cons, settled_cons.
    destruct (isImageCall x), (isImageSettled x);
      now rewrite ?Nat.add_succ_r.
Qed.

Lemma statusTrace_app (i : nat) (t1 t2 : list Event) :
  statusTrace i (t1 ++ t2) = statusTrace i t1 ++ statusTrace i t2.
Proof.
  induction t1 as [| e t1 IH]; [reflexivity | ].
  destruct e; cbn; auto. destruct (now !! i); cbn; now rewrite IH.
Qed.

Lemma Status_eqb_refl (a : Status) : Status_eqb a a = true.
Proof. now destruct a. Qed.

Lemma changes_same (a : Status) (l : list Status) :
  changes (a :: a :: l) = changes (a :: l).
Proof. cbn [changes]. now rewrite Status_eqb_refl. Qed.

Lemma changes_repeat (b : Status) (m : nat) :
  changes (repeat b (S m)) = [b].
Proof.
  induction m as [| m IH]; [reflexivity | ].
  change (repeat b (S (S m))) with (b :: b :: repeat b m).
  rewrite changes_same. exact IH.
Qed.

Lemma changes_two (a b : Status) (n m : nat) :
  Status_eqb a b = false ->
  changes (repeat a (S n) ++ repeat b (S m)) = [a; b].
Proof.
  intros D. induction n as [| n IH].
  - change (repeat a 1 ++ repeat b (S m)) with (a :: b :: repeat b m).
    cbn [changes]. rewrite D. f_equal. apply (changes_repeat b m).
  - change (repeat a (S (S n)) ++ repeat b (S m))
      with (a :: a :: (repeat a n ++ repeat b (S m))).
    rewrite changes_same. exact IH.
Qed.

(** ** One turn of the loop of [handleGenerate] *)

Lemma withMockups_same (s : App.State) :
  withMockups (App.generatedMockups s) s = s.
Proof. now destruct s. Qed.

Lemma settle_run (k : nat) (c : DesignConcept) (logo : option string)
    (dev : Device) (answer : Result GenResponse) (s : App.State) :
  App.settle k c logo dev answer s =
  (Ok (succeeded (imageResult answer)),
   withMockups (settleMockups k dev answer (App.generatedMockups s)) s,
   settleTrace k c logo dev answer (App.generatedMockups s)).
Proof.
  unfold App.settle, App.tryCatch, App.bind, App.await,
    Service.generateMockupImage_settle, settleTrace, settleMockups,
    imageResult.
  destruct answer as [response | e]; cbn [fst snd succeeded].
  - destruct (Service.extractImage response); cbn [succeeded];
      now rewrite ?withMockups_same.
  - now rewrite withMockups_same.
Qed.

Lemma generateConcept_run (env : App.GenerateEnv) (logo : option string)
    (k : nat) (c : DesignConcept) (s : App.State) :
  let ms := App.generatedMockups s in
  let d1 := if App.mobileSettlesFirst env k then mobile else desktop in
  let d2 := if App.mobileSettlesFirst env k then desktop else mobile in
  let ms1 := settleMockups k d1 (App.imageAnswer env k d1) ms in
  let ms2 := settleMockups k d2 (App.imageAnswer env k d2) ms1 in
  let ms3 := map (byId k (with_status completed)) ms2 in
  App.generateConcept env logo k c s =
  (Ok tt, withMockups ms3 s,
   [ApiCall (Service.imageRequest c logo mobile);
    ApiCall (Service.imageRequest c logo desktop)]
   ++ settleTrace k c logo d1 (App.imageAnswer env k d1) ms
   ++ settleTrace k c logo d2 (App.imageAnswer env k d2) ms1
   ++ [SetGeneratedMockups ms3]).
Proof.
  unfold App.generateConcept, App.bind, App.emit.
  destruct (App.mobileSettlesFirst env k); rewrite !settle_run;
    unfold App.setGeneratedMockups; cbv beta iota zeta;
    rewrite <- !app_assoc; reflexivity.
Qed.

Lemma mapAt_id (k : nat) (ms : list GeneratedMockup) :
  App.mapAt k (fun m => m) ms = ms.
Proof.
  apply list_eq. intros j. rewrite lookup_mapAt.
  destruct (ms !! j); cbn; [ | reflexivity]. now destruct (Nat.eqb j k).
Qed.

Lemma applyResult_id (dev : Device) (answer : Result GenResponse)
    (m : GeneratedMockup) :
  id (applyResult dev answer m) = id m.
Proof.
  unfold applyResult. destruct (imageResult answer); [ | reflexivity].
  now destruct dev.
Qed.

Lemma applyResult_status (dev : Device) (answer : Result GenResponse)
    (m : GeneratedMockup) :
  status (applyResult dev answer m) = status m.
Proof.
  unfold applyResult. destruct (imageResult answer); [ | reflexivity].
  now destruct dev.
Qed.

Lemma settleMockups_mapAt (k : nat) (dev : Device)
    (answer : Result GenResponse) (ms : list GeneratedMockup) :
  Seeded ms ->
  settleMockups k dev answer ms = App.mapAt k (applyResult dev answer) ms.
Proof.
  intros HS. unfold settleMockups.
  destruct (imageResult answer) as [u | e] eqn:E.
  - rewrite (map_byId _ _ _ HS). apply mapAt_ext. intros m.
    unfold applyResult. now rewrite E.
  - rewrite <- (mapAt_id k ms) at 1. apply mapAt_ext. intros m.
    unfold applyResult. now rewrite E.
Qed.

Lemma Progress_settle (k : nat) (dev : Device)
    (answer : Result GenResponse) (ms : list GeneratedMockup) :
  Progress k ms -> Progress k (settleMockups k dev answer ms).
Proof.
  intros [HS P]. rewrite (settleMockups_mapAt _ _ _ _ HS). split.
  - apply Seeded_mapAt; [apply applyResult_id | exact HS].
  - intros j m. rewrite lookup_mapAt.
    destruct (ms !! j) as [m0 | ] eqn:E; cbn; [ | discriminate].
    intros [= <-]. destruct (Nat.eqb j k); rewrite ?applyResult_status;
      apply (P _ _ E).
Qed.

Lemma finished_ordered (env : App.GenerateEnv) (k : nat)
    (m : GeneratedMockup) :
  with_status completed
    (applyResult mobile (App.imageAnswer env k mobile)
       (applyResult desktop (App.imageAnswer env k desktop) m))
  = finished env k m.
Proof.
  unfold finished, applyResult.
  destruct (imageResult (App.imageAnswer env k mobile)),
    (imageResult (App.imageAnswer env k desktop)); reflexivity.
Qed.

(** The value of [generatedMockups] at the end of the turn of concept
    [k], whichever request settled first. *)
Lemma turn_mockups (env : App.GenerateEnv) (k : nat)
    (ms : list GeneratedMockup) :
  Seeded ms ->
  let d1 := if App.mobileSettlesFirst env k then mobile else desktop in
  let d2 := if App.mobileSettlesFirst env k then desktop else mobile in
  map (byId k (with_status completed))
    (settleMockups k d2 (App.imageAnswer env k d2)
       (settleMockups k d1 (App.imageAnswer env k d1) ms))
  = App.mapAt k (finished env k) ms.
Proof.
  intros HS d1 d2.
  assert (S1 : Seeded (settleMockups k d1 (App.imageAnswer env k d1) ms)).
  { rewrite (settleMockups_mapAt _ _ _ _ HS).
    apply Seeded_mapAt; [apply applyResult_id | exact HS]. }
  assert (S2 : Seeded (settleMockups k d2 (App.imageAnswer env k d2)
                         (settleMockups k d1 (App.imageAnswer env k d1) ms))).
  { rewrite (settleMockups_mapAt _ _ _ _ S1).
    apply Seeded_mapAt; [apply applyResult_id | exact S1]. }
  rewrite (map_byId _ _ _ S2), (settleMockups_mapAt _ _ _ _ S1),
    (settleMockups_mapAt _ _ _ _ HS), !mapAt_mapAt.
  apply mapAt_ext. intros m. subst d1 d2.
  destruct (App.mobileSettlesFirst env k);
    [reflexivity | apply finished_ordered].
Qed.

Lemma Progress_turn (env : App.GenerateEnv) (k : nat)
    (ms : list GeneratedMockup) :
  Progress k ms -> Progress (S k) (App.mapAt k (finished env k) ms).
Proof.
  intros [HS P]. split.
  - apply Seeded_mapAt; [ | exact HS]. intros m. unfold finished.
    cbn [with_status id]. now rewrite !applyResult_id.
  - intros j m Hm. rewrite lookup_mapAt in Hm.
    destruct (ms !! j) as [m0 | ] eqn:E; [ | discriminate Hm].
    injection Hm as <-. destruct (Nat.eqb_spec j k) as [-> | N].
    + rewrite (proj2 (Nat.ltb_lt k (S k))) by lia. reflexivity.
    + rewrite (P _ _ E).
      destruct (Nat.ltb_spec j k), (Nat.ltb_spec j (S k));
        (reflexivity || lia).
Qed.

Lemma settleTrace_counts (k : nat) (c : DesignConcept)
    (logo : option string) (dev : Device) (answer : Result GenResponse)
    (ms : list GeneratedMockup) :
  issued (settleTrace k c logo dev answer ms) = 0 /\
  settled (settleTrace k c logo dev answer ms) = 1.
Proof.
  unfold settleTrace. destruct (imageResult answer); split; reflexivity.
Qed.

Lemma Progress_late (k b : nat) (ms : list GeneratedMockup) :
  Progress k ms -> 2 * k <= b -> CompletedLate b (SetGeneratedMockups ms).
Proof.
  intros [_ P] L i m E C. apply P in E. rewrite C in E.
  destruct (Nat.ltb_spec i k); [lia | discriminate].
Qed.

Lemma settleTrace_orderly (k : nat) (c : DesignConcept)
    (logo : option string) (dev : Device) (answer : Result GenResponse)
    (ms : list GeneratedMockup) (a b : nat) :
  Progress k ms -> b + 1 <= a <= b + 2 -> 2 * k <= b + 1 ->
  Steps Orderly a b (settleTrace k c logo dev answer ms).
Proof.
  intros P B L. pose proof (Progress_settle k dev answer ms P) as P'.
  unfold settleTrace. destruct (imageResult answer) eqn:E; cbn [Steps].
  - repeat split; cbn; try lia; try discriminate.
    apply (Progress_late k); [exact P' | lia].
  - repeat split; cbn; try lia; try discriminate.
Qed.

Lemma settleTrace_status (k : nat) (c : DesignConcept)
    (logo : option string) (dev : Device) (answer : Result GenResponse)
    (ms : list GeneratedMockup) (i : nat) (m : GeneratedMockup) :
  Progress k ms -> ms !! i = Some m ->
  exists n, statusTrace i (settleTrace k c logo dev answer ms)
            = repeat (status m) n.
Proof.
  intros [HS P] E. unfold settleTrace.
  destruct (imageResult answer) eqn:R; cbn [statusTrace].
  - rewrite (settleMockups_mapAt _ _ _ _ HS), lookup_mapAt, E. cbn.
    exists 1. cbn. destruct (Nat.eqb i k); now rewrite ?applyResult_status.
  - now exists 0.
Qed.

Lemma generateConcept_turn (env : App.GenerateEnv) (logo : option string)
    (k : nat) (c : DesignConcept) (s : App.State) :
  Seeded (App.generatedMockups s) ->
  App.generateConcept env logo k c s =
  (Ok tt,
   withMockups (App.mapAt k (finished env k) (App.generatedMockups s)) s,
   turnTrace env logo k c (App.generatedMockups s)).
Proof.
  intros HS. rewrite generateConcept_run. cbv zeta.
  unfold turnTrace. now rewrite (turn_mockups env k _ HS).
Qed.

Lemma half_even (k : nat) : 2 * k / 2 = k.
Proof. rewrite Nat.mul_comm. apply Nat.div_mul. discriminate. Qed.

Lemma half_odd (k : nat) : S (2 * k) / 2 = k.
Proof.
  symmetry. apply (Nat.div_unique (S (2 * k)) 2 k 1); lia.
Qed.

Lemma turnTrace_counts (env : App.GenerateEnv) (logo : option string)
    (k : nat) (c : DesignConcept) (ms : list GeneratedMockup) :
  issued (turnTrace env logo k c ms) = 2 /\
  settled (turnTrace env logo k c ms) = 2.
Proof.
  unfold turnTrace. rewrite !issued_app, !settled_app.
  destruct (settleTrace_counts k c logo
              (if App.mobileSettlesFirst env k then mobile else desktop)
              (App.imageAnswer env k
                 (if App.mobileSettlesFirst env k then mobile else desktop))
              ms) as [-> ->].
  destruct (settleTrace_counts k c logo
              (if App.mobileSettlesFirst env k then desktop else mobile)
              (App.imageAnswer env k
                 (if App.mobileSettlesFirst env k then desktop else mobile))
              (settleMockups k
                 (if App.mobileSettlesFirst env k then mobile else desktop)
                 (App.imageAnswer env k
                    (if App.mobileSettlesFirst env k
                     then mobile else desktop)) ms)) as [-> ->].
  split; reflexivity.
Qed.

Lemma turnTrace_orderly (env : App.GenerateEnv) (logo : option string)
    (k : nat) (c : DesignConcept) (ms : list GeneratedMockup) :
  Progress k ms ->
  Steps Orderly (2 * k) (2 * k) (turnTrace env logo k c ms).
Proof.
  intros P. unfold turnTrace.
  set (d1 := if App.mobileSettlesFirst env k then mobile else desktop).
  set (d2 := if App.mobileSettlesFirst env k then desktop else mobile).
  pose proof (Progress_settle k d1 (App.imageAnswer env k d1) ms P) as P1.
  apply Steps_app.
  { cbn [Steps isImageCall isImageSettled Service.imageRequest isImageRequest].
    repeat split; try lia.
    - intros _. now rewrite half_even.
    - intros _. now rewrite half_odd. }
  change (issued [ApiCall (Service.imageRequest c logo mobile);
                  ApiCall (Service.imageRequest c logo desktop)]) with 2.
  change (settled [ApiCall (Service.imageRequest c logo mobile);
                   ApiCall (Service.imageRequest c logo desktop)]) with 0.
  apply Steps_app; [apply settleTrace_orderly; [exact P | lia | lia] | ].
  destruct (settleTrace_counts k c logo d1 (App.imageAnswer env k d1) ms)
    as [-> ->].
  apply Steps_app; [apply settleTrace_orderly; [exact P1 | lia | lia] | ].
  destruct (settleTrace_counts k c logo d2 (App.imageAnswer env k d2)
              (settleMockups k d1 (App.imageAnswer env k d1) ms)) as [-> ->].
  cbn [Steps]. split; [ | exact I]. split.
  - split; [lia | discriminate].
  - apply (Progress_late (S k)); [now apply Progress_turn | lia].
Qed.

Lemma turnTrace_status (env : App.GenerateEnv) (logo : option string)
    (k : nat) (c : DesignConcept) (ms : list GeneratedMockup)
    (i : nat) (m : GeneratedMockup) :
  Progress k ms -> ms !! i = Some m ->
  exists n,
    statusTrace i (turnTrace env logo k c ms)
    = repeat (status m) n
      ++ [if Nat.eqb i k then completed else status m].
Proof.
  intros P E. unfold turnTrace.
  set (d1 := if App.mobileSettlesFirst env k then mobile else desktop).
  set (d2 := if App.mobileSettlesFirst env k then desktop else mobile).
  pose proof (Progress_settle k d1 (App.imageAnswer env k d1) ms P) as P1.
  destruct (settleTrace_status k c logo d1 (App.imageAnswer env k d1)
              ms i m P E) as [n1 E1].
  assert (E' : exists m1,
             settleMockups k d1 (App.imageAnswer env k d1) ms !! i = Some m1
             /\ status m1 = status m).
  { rewrite (settleMockups_mapAt _ _ _ _ (proj1 P)), lookup_mapAt, E.
    eexists. split; [reflexivity | ].
    destruct (Nat.eqb i k); now rewrite ?applyResult_status. }
  destruct E' as (m1 & Em1 & St1).
  destruct (settleTrace_status k c logo d2 (App.imageAnswer env k d2)
              _ i m1 P1 Em1) as [n2 E2].
  exists (n1 + n2).
  rewrite !statusTrace_app, E1, E2, St1, repeat_app, <- app_assoc.
  cbn [statusTrace app]. do 2 f_equal.
  rewrite lookup_mapAt, E. cbn.
  destruct (Nat.eqb i k); [ | reflexivity].
  unfold finished. reflexivity.
Qed.

Lemma turnTrace_logs (env : App.GenerateEnv) (logo : option string)
    (k : nat) (c : DesignConcept) (ms : list GeneratedMockup)
    (dev : Device) (e : JsError) :
  imageResult (App.imageAnswer env k dev) = Throw e ->
  In (ConsoleError (App.failureMessage dev k) e) (turnTrace env logo k c ms).
Proof.
  intros R. unfold turnTrace.
  assert (L : forall ms', In (ConsoleError (App.failureMessage dev k) e)
                (settleTrace k c logo dev (App.imageAnswer env k dev) ms')).
  { intros ms'. unfold settleTrace. rewrite R. cbn. auto. }
  rewrite !in_app_iff.
  destruct (App.mobileSettlesFirst env k), dev; auto.
Qed.

(** ** The loop of [handleGenerate] *)

Lemma loopMockups_nil (env : App.GenerateEnv) (k : nat)
    (ms : list GeneratedMockup) :
  loopMockups env k 0 ms = ms.
Proof.
  unfold loopMockups. apply list_eq. intros j. rewrite list_lookup_imap.
  destruct (ms !! j); [ | reflexivity]. cbn [fmap option_fmap option_map].
  destruct (Nat.leb_spec k j), (Nat.ltb_spec j (k + 0));
    (reflexivity || lia).
Qed.

Lemma loopMockups_step (env : App.GenerateEnv) (k n : nat)
    (ms : list GeneratedMockup) :
  loopMockups env (S k) n (App.mapAt k (finished env k) ms)
  = loopMockups env k (S n) ms.
Proof.
  unfold loopMockups. apply list_eq. intros j.
  rewrite !list_lookup_imap, lookup_mapAt.
  destruct (ms !! j); [ | reflexivity].
  cbn [fmap option_fmap option_map]. f_equal.
  destruct (Nat.eqb_spec j k) as [E | N];
    destruct (Nat.leb_spec (S k) j), (Nat.leb_spec k j),
      (Nat.ltb_spec j (S k + n)), (Nat.ltb_spec j (k + S n));
    cbn [andb]; first [reflexivity | lia | now subst j].
Qed.

Lemma lookup_loopMockups (env : App.GenerateEnv) (k n : nat)
    (ms : list GeneratedMockup) (j : nat) :
  loopMockups env k n ms !! j
  = (fun m => if (Nat.leb k j && Nat.ltb j (k + n))%bool
              then finished env j m else m) <$> ms !! j.
Proof. unfold loopMockups. now rewrite list_lookup_imap. Qed.

Lemma forEachFrom_run (env : App.GenerateEnv) (logo : option string)
    (rest : list DesignConcept) :
  forall (k : nat) (s : App.State),
    Progress k (App.generatedMockups s) ->
    exists t,
      App.forEachFrom k rest (App.generateConcept env logo) s
      = (Ok tt,
         withMockups
           (loopMockups env k (length rest) (App.generatedMockups s)) s,
         t)
      /\ issued t = 2 * length rest
      /\ settled t = 2 * length rest
      /\ Steps Orderly (2 * k) (2 * k) t
      /\ (forall i m, App.generatedMockups s !! i = Some m ->
            exists a b,
              statusTrace i t = repeat generating a ++ repeat completed b
              /\ (i < k -> a = 0)
              /\ (k <= i < k + length rest -> 1 <= b))
      /\ (forall j c dev e,
            rest !! j = Some c ->
            imageResult (App.imageAnswer env (k + j) dev) = Throw e ->
            In (ConsoleError (App.failureMessage dev (k + j)) e) t).
Proof.
  induction rest as [| c rest IH]; intros k s P.
  - exists []. cbn [App.forEachFrom length]. unfold App.ret.
    rewrite loopMockups_nil, withMockups_same.
    repeat split; try reflexivity.
    + intros i m _. exists 0, 0. repeat split; lia.
    + intros j c dev e E. discriminate E.
  - cbn [App.forEachFrom length]. unfold App.bind.
    rewrite (generateConcept_turn env logo k c s (proj1 P)).
    set (ms := App.generatedMockups s) in *.
    set (s1 := withMockups (App.mapAt k (finished env k) ms) s).
    assert (P1 : Progress (S k) (App.generatedMockups s1))
      by (apply Progress_turn, P).
    destruct (IH (S k) s1 P1) as (t & Run & Ni & Ns & St & Tr & Lg).
    rewrite Run. cbv beta iota zeta.
    exists (turnTrace env logo k c ms ++ t).
    destruct (turnTrace_counts env logo k c ms) as [Ti Ts].
    split; [ | split; [ | split; [ | split; [ | split]]]].
    + f_equal. f_equal. subst s1. cbn [App.generatedMockups withMockups].
      rewrite loopMockups_step. reflexivity.
    + rewrite issued_app, Ti, Ni. lia.
    + rewrite settled_app, Ts, Ns. lia.
    + apply Steps_app; [now apply turnTrace_orderly | ].
      rewrite Ti, Ts. replace (2 * k + 2) with (2 * S k) by lia. exact St.
    + intros i m E.
      destruct (turnTrace_status env logo k c ms i m P E) as [n En].
      assert (E1 : exists m1, App.generatedMockups s1 !! i = Some m1).
      { subst s1. cbn [App.generatedMockups withMockups].
        rewrite lookup_mapAt, E. eexists. reflexivity. }
      destruct E1 as [m1 E1].
      destruct (Tr i m1 E1) as (a & b & Et & Ha & Hb).
      rewrite statusTrace_app, En, Et.
      pose proof (proj2 P i m E) as Sm.
      destruct (Nat.ltb_spec i k) as [Lt | Ge].
      * (* already completed *)
        rewrite Sm, (Ha ltac:(lia)).
        replace (Nat.eqb i k) with false
          by (symmetry; apply Nat.eqb_neq; lia).
        exists 0, (n + 1 + b). cbn [repeat app].
        split; [ | split; lia].
        rewrite !repeat_app. cbn [repeat]. now rewrite <- !app_assoc.
      * destruct (Nat.eqb_spec i k) as [-> | N].
        -- rewrite Sm, (Ha ltac:(lia)).
           exists n, (1 + b). cbn [repeat app].
           split; [ | split; lia].
           now rewrite <- app_assoc.
        -- rewrite Sm.
           exists (n + 1 + a), b.
           split; [ | split; [lia | intros; apply Hb; lia]].
           rewrite !repeat_app. cbn [repeat]. now rewrite <- !app_assoc.
    + intros j c' dev e E R. apply in_or_app. destruct j as [| j].
      * left. rewrite Nat.add_0_r in *. now apply turnTrace_logs.
      * right. cbn in E. replace (k + S j) with (S k + j) in * by lia.
        now apply (Lg j c').
Qed.

(** ** [handleGenerate] as a whole *)

Lemma Progress_initial (concepts : list DesignConcept) :
  Progress 0 (imap initialMockup concepts).
Proof.
  split; [apply Seeded_initial | ].
  intros j m. rewrite list_lookup_imap.
  destruct (concepts !! j); [ | discriminate]. now intros [= <-].
Qed.

Ltac run_handleGenerate :=
  unfold App.handleGenerate, App.bind, App.tryCatch, App.await,
    App.setError, App.setIsAnalyzing, App.setSources,
    App.setGeneratedMockups, App.ret, App.consoleError, App.emit,
    Service.fileToGenerativePart, Service.generateDesignConcepts.

Lemma loopMockups_initial (env : App.GenerateEnv)
    (concepts : list DesignConcept) :
  loopMockups env 0 (length concepts) (imap initialMockup concepts)
  = imap (fun j c => finished env j (initialMockup j c)) concepts.
Proof.
  apply list_eq. intros j.
  rewrite lookup_loopMockups, !list_lookup_imap.
  destruct (concepts !! j) as [c | ] eqn:E; [ | reflexivity].
  apply lookup_lt_Some in E.
  cbn [fmap option_fmap option_map]. f_equal.
  destruct (Nat.leb_spec 0 j), (Nat.ltb_spec j (0 + length concepts));
    cbn [andb]; first [reflexivity | lia].
Qed.

Lemma handleGenerate_success (env : App.GenerateEnv) (s : App.State)
    (shot : File) (b : string) (concepts : list DesignConcept)
    (srcs : list GroundingSource) (logob : option string) :
  screenshot (App.input s) = Some shot ->
  App.screenshotRead env = Ok b ->
  App.researchAnswer env = Ok (concepts, srcs) ->
  logoResult (App.input s) (App.logoRead env) = Ok logob ->
  exists t : list Event,
    App.handleGenerate env s
    = (Ok tt,
       {| App.input := App.input s;
          App.isAnalyzing := false;
          App.generatedMockups :=
            imap (fun j c => finished env j (initialMockup j c)) concepts;
          App.sources := srcs;
          App.error := None;
          App.viewMode := App.viewMode s |},
       [SetGeneratedMockups [];
        ReadFile shot;
        ResearchCall (url (App.input s)) (companyInfo (App.input s)) b;
        SetGeneratedMockups (imap initialMockup concepts)]
       ++ logoEvents (App.input s) ++ t)
    /\ issued t = 2 * length concepts
    /\ settled t = 2 * length concepts
    /\ Steps Orderly 0 0 t
    /\ (forall i c, concepts !! i = Some c ->
          exists a b,
            statusTrace i t
            = repeat generating a ++ repeat completed (S b))
    /\ (forall i c dev e,
          concepts !! i = Some c ->
          imageResult (App.imageAnswer env i dev) = Throw e ->
          In (ConsoleError (App.failureMessage dev i) e) t).
Proof.
  intros Hs Hr Ha Hl.
  set (seed := {| App.input := App.input s;
                  App.isAnalyzing := false;
                  App.generatedMockups := imap initialMockup concepts;
                  App.sources := srcs;
                  App.error := None;
                  App.viewMode := App.viewMode s |}).
  destruct (forEachFrom_run env logob concepts 0 seed
              (Progress_initial concepts))
    as (t & Run & Ni & Ns & St & Tr & Lg).
  exists t. split; [ | split; [exact Ni | split; [exact Ns | split;
    [exact St | split]]]].
  - run_handleGenerate. rewrite Hs, Hr, Ha.
    cbv beta iota zeta.
    cbn [fst snd App.input App.isAnalyzing App.generatedMockups
           App.sources App.error App.viewMode].
    fold seed. unfold logoResult, logoEvents in *.
    destruct (logo (App.input s)) as [l | ].
    + destruct (App.logoRead env) as [lb | e]; [ | discriminate Hl].
      injection Hl as <-. rewrite Run. cbn [app].
      subst seed. unfold withMockups.
      cbn [App.input App.isAnalyzing App.generatedMockups
             App.sources App.error App.viewMode].
      now rewrite loopMockups_initial.
    + injection Hl as <-. rewrite Run. cbn [app].
      subst seed. unfold withMockups.
      cbn [App.input App.isAnalyzing App.generatedMockups
             App.sources App.error App.viewMode].
      now rewrite loopMockups_initial.
  - intros i c E.
    assert (E' : App.generatedMockups seed !! i = Some (initialMockup i c)).
    { subst seed. cbn [App.generatedMockups].
      now rewrite list_lookup_imap, E. }
    destruct (Tr _ _ E') as (a & n & Et & _ & Hn).
    apply lookup_lt_Some in E.
    destruct n as [| n]; [specialize (Hn ltac:(lia)); lia | ].
    now exists a, n.
  - intros i c dev e E R. exact (Lg i c dev e E R).
Qed.

Lemma Steps_quiet (Q : nat -> nat -> Event -> Prop) (a b : nat)
    (t : list Event) :
  (forall e, In e t -> isImageCall e = false /\ isImageSettled e = false
                       /\ Q a b e) ->
  Steps Q a b t.
Proof.
  induction t as [| e t IH]; intros H; [exact I | ].
  destruct (H e (or_introl eq_refl)) as (C & S' & Hq).
  cbn [Steps]. rewrite C, S'. split; [exact Hq | ].
  apply IH. intros e' In'. apply H. now right.
Qed.

Lemma issued_quiet (t : list Event) :
  (forall e, In e t -> isImageCall e = false) -> issued t = 0.
Proof.
  induction t as [| e t IH]; intros H; [reflexivity | ].
  rewrite issued_cons, (H e (or_introl eq_refl)).
  apply IH. intros e' In'. apply H. now right.
Qed.

Lemma settled_quiet (t : list Event) :
  (forall e, In e t -> isImageSettled e = false) -> settled t = 0.
Proof.
  induction t as [| e t IH]; intros H; [reflexivity | ].
  rewrite settled_cons, (H e (or_introl eq_refl)).
  apply IH. intros e' In'. apply H. now right.
Qed.

Lemma handleGenerate_gated (env : App.GenerateEnv) (s : App.State) :
  Steps Gate 0 0 (trace (App.handleGenerate env s))
  /\ issued (trace (App.handleGenerate env s))
     = settled (trace (App.handleGenerate env s)).
Proof.
  assert (Quiet : forall t, forallb isQuiet t = true ->
            Steps Gate 0 0 t /\ issued t = settled t).
  { intros t Hq.
    assert (F : forall e, In e t -> isQuiet e = true)
      by (apply forallb_forall, Hq).
    split.
    - apply Steps_quiet. intros e In'. specialize (F e In').
      destruct e; try discriminate F; repeat split; lia || discriminate.
    - rewrite issued_quiet, settled_quiet; [reflexivity | | ];
        intros e In'; specialize (F e In'); destruct e;
        (reflexivity || discriminate F). }
  destruct (screenshot (App.input s)) as [shot | ] eqn:Hs.
  2: { apply Quiet. unfold App.handleGenerate. rewrite Hs. reflexivity. }
  destruct (App.screenshotRead env) as [b | e] eqn:Hr.
  2: { apply Quiet. run_handleGenerate. rewrite Hs, Hr. reflexivity. }
  destruct (App.researchAnswer env) as [[concepts srcs] | e] eqn:Ha.
  2: { apply Quiet. run_handleGenerate. rewrite Hs, Hr, Ha. reflexivity. }
  destruct (logoResult (App.input s) (App.logoRead env)) as [logob | e] eqn:Hl.
  - destruct (handleGenerate_success env s shot b concepts srcs logob
                Hs Hr Ha Hl) as (t & Run & Ni & Ns & St & _).
    rewrite Run. unfold trace. cbn [snd].
    assert (Pre : forallb isQuiet
              ([SetGeneratedMockups []; ReadFile shot;
                ResearchCall (url (App.input s))
                  (companyInfo (App.input s)) b;
                SetGeneratedMockups (imap initialMockup concepts)]
               ++ logoEvents (App.input s)) = true).
    { unfold logoEvents. now destruct (logo (App.input s)). }
    destruct (Quiet _ Pre) as [Sp Ep].
    rewrite app_assoc. split.
    + apply Steps_app; [exact Sp | ].
      rewrite <- Ep.
      assert (Z : issued
                ([SetGeneratedMockups []; ReadFile shot;
                  ResearchCall (url (App.input s))
                    (companyInfo (App.input s)) b;
                  SetGeneratedMockups (imap initialMockup concepts)]
                 ++ logoEvents (App.input s)) = 0).
      { unfold logoEvents. now destruct (logo (App.input s)). }
      rewrite Z. cbn [Nat.add].
      apply (Steps_impl Orderly Gate); [ | exact St].
      intros a0 b0 e0 H. exact (proj1 H).
    + rewrite issued_app, settled_app, Ep, Ni, Ns. reflexivity.
  - apply Quiet. run_handleGenerate. rewrite Hs, Hr, Ha.
    unfold logoResult in Hl.
    destruct (logo (App.input s)); [ | discriminate Hl].
    destruct (App.logoRead env); [discriminate Hl | ]. reflexivity.
Qed.

Lemma handleGenerate_orderly (env : App.GenerateEnv) (s : App.State)
    (shot : File) (b : string) (concepts : list DesignConcept)
    (srcs : list GroundingSource) (logob : option string) :
  screenshot (App.input s) = Some shot ->
  App.screenshotRead env = Ok b ->
  App.researchAnswer env = Ok (concepts, srcs) ->
  logoResult (App.input s) (App.logoRead env) = Ok logob ->
  Steps Orderly 0 0 (trace (App.handleGenerate env s)).
Proof.
  intros Hs Hr Ha Hl.
  destruct (handleGenerate_success env s shot b concepts srcs logob
              Hs Hr Ha Hl) as (t & Run & _ & _ & St & _).
  rewrite Run. unfold trace. cbn [snd]. rewrite app_assoc.
  assert (Z : issued
            ([SetGeneratedMockups []; ReadFile shot;
              ResearchCall (url (App.input s)) (companyInfo (App.input s)) b;
              SetGeneratedMockups (imap initialMockup concepts)]
             ++ logoEvents (App.input s)) = 0
          /\ settled
            ([SetGeneratedMockups []; ReadFile shot;
              ResearchCall (url (App.input s)) (companyInfo (App.input s)) b;
              SetGeneratedMockups (imap initialMockup concepts)]
             ++ logoEvents (App.input s)) = 0).
  { unfold logoEvents. now destruct (logo (App.input s)). }
  apply Steps_app; [ | now rewrite (proj1 Z), (proj2 Z)].
  apply Steps_quiet. intros e In'.
  assert (Late : CompletedLate 0 e).
  { apply in_app_or in In'. destruct In' as [In' | In'].
    - cbn in In'.
      destruct In' as [<- | [<- | [<- | [<- | []]]]]; try exact I.
      + intros i m E. discriminate E.
      + apply (Progress_late 0); [apply Progress_initial | lia].
    - unfold logoEvents in In'. destruct (logo (App.input s)); cbn in In'.
      + destruct In' as [<- | []]. exact I.
      + destruct In'. }
  assert (Qt : isQuiet e = true).
  { apply in_app_or in In'. destruct In' as [In' | In'].
    - cbn in In'.
      destruct In' as [<- | [<- | [<- | [<- | []]]]]; reflexivity.
    - unfold logoEvents in In'. destruct (logo (App.input s)); cbn in In'.
      + destruct In' as [<- | []]. reflexivity.
      + destruct In'. }
  destruct e; try discriminate Qt;
    (split; [reflexivity | split; [reflexivity | ]]);
    (split; [split; [lia | discriminate] | exact Late]).
Qed.

Lemma finished_fields (env : App.GenerateEnv) (i : nat)
    (c : DesignConcept) :
  let m := finished env i (initialMockup i c) in
  id m = mockupId i
  /\ mobileImageUrl m = urlOf (App.imageAnswer env i mobile)
  /\ desktopImageUrl m = urlOf (App.imageAnswer env i desktop)
  /\ status m = completed.
Proof.
  unfold finished, applyResult, urlOf.
  destruct (imageResult (App.imageAnswer env i mobile)),
    (imageResult (App.imageAnswer env i desktop)); repeat split.
Qed.

(** ** The claims about [handleGenerate] *)

(** C1. In a run whose research call and file reads succeed, every
    concept ends with a mockup whose mobile image is what its mobile
    request produced and whose desktop image is what its desktop request
    produced ([urlOf] is [null] for a failed request), each view whatever
    became of the other; the handler itself does not throw, every request
    sent has settled, the status of the mockup is completed, and no value
    of [generatedMockups] shows it completed before both requests of its
    concept (and of the earlier ones) have settled. *)
Theorem views_settle_independently (env : App.GenerateEnv) (s : App.State)
    (shot : File) (b : string) (concepts : list DesignConcept)
    (srcs : list GroundingSource) (logob : option string)
    (i : nat) (c : DesignConcept) :
  screenshot (App.input s) = Some shot ->
  App.screenshotRead env = Ok b ->
  App.researchAnswer env = Ok (concepts, srcs) ->
  logoResult (App.input s) (App.logoRead env) = Ok logob ->
  concepts !! i = Some c ->
  let r := App.handleGenerate env s in
  outcome r = Ok tt
  /\ (exists m,
        App.generatedMockups (finalState r) !! i = Some m
        /\ id m = mockupId i
        /\ mobileImageUrl m = urlOf (App.imageAnswer env i mobile)
        /\ desktopImageUrl m = urlOf (App.imageAnswer env i desktop)
        /\ status m = completed)
  /\ issued (trace r) = 2 * length concepts
  /\ settled (trace r) = 2 * length concepts
  /\ (forall p now q m,
        trace r = p ++ SetGeneratedMockups now :: q ->
        now !! i = Some m -> status m = completed ->
        2 * (i + 1) <= settled p).
Proof.
  intros Hs Hr Ha Hl Hc r.
  pose proof (handleGenerate_orderly env s shot b concepts srcs logob
                Hs Hr Ha Hl) as Ord.
  destruct (handleGenerate_success env s shot b concepts srcs logob
              Hs Hr Ha Hl) as (t & Run & Ni & Ns & _).
  fold r in Ord. subst r. rewrite Run in *.
  unfold outcome, finalState, trace in *. cbn [fst snd] in *.
  assert (Z : issued (logoEvents (App.input s)) = 0
              /\ settled (logoEvents (App.input s)) = 0).
  { unfold logoEvents. now destruct (logo (App.input s)). }
  split; [reflexivity | ].
  split.
  { exists (finished env i (initialMockup i c)).
    cbn [App.generatedMockups]. rewrite list_lookup_imap, Hc.
    split; [reflexivity | apply finished_fields]. }
  split; [rewrite !issued_app, (proj1 Z), Ni; reflexivity | ].
  split; [rewrite !settled_app, (proj2 Z), Ns; reflexivity | ].
  intros p now q m Ep En Em. rewrite Ep in Ord.
  apply Steps_split in Ord. destruct Ord as [_ Late].
  exact (Late i m En Em).
Qed.

(** The first sample concept: its mobile request is refused, its desktop
    image is written all the same and the mockup is completed. *)
Lemma views_settle_independently_witness :
  imageResult (App.imageAnswer demoEnv 0 mobile)
  = Throw (Error "503 Service Unavailable")
  /\ (viewUrl desktop
        <$> App.generatedMockups
              (finalState (App.handleGenerate demoEnv demoState)) !! 0)
     = Some (Some "data:image/png;base64,RDA=")
  /\ (status
        <$> App.generatedMockups
              (finalState (App.handleGenerate demoEnv demoState)) !! 0)
     = Some completed.
Proof.
  destruct (views_settle_independently demoEnv demoState
              {| fileName := "home.png" |} "U0hPVA==" demoConcepts
              demoSources (Some "TE9HTw==") 0
              (DesignConcept.mk "Minimalist Tech" "Calm, airy, content first."
                 "A minimalist homepage with a large headline")
              eq_refl eq_refl eq_refl eq_refl eq_refl)
    as (_ & (m & E & _ & _ & D & C) & _).
  split; [reflexivity | ].
  rewrite E. cbn [fmap option_fmap option_map viewUrl].
  rewrite D, C. split; reflexivity.
Defined.

(** C2, as the code has it. In a run whose research call and file reads
    succeed, when the request of concept [i] for the view [dev] fails, the
    failure is caught (the handler does not throw) and logged, the image of
    that view stays [null] and the mockup ends with status completed, not
    failed; every other concept ends completed with the images its own two
    requests produced. *)
Theorem failed_request_is_logged_and_swallowed
    (env : App.GenerateEnv) (s : App.State)
    (shot : File) (b : string) (concepts : list DesignConcept)
    (srcs : list GroundingSource) (logob : option string)
    (i : nat) (c : DesignConcept) (dev : Device) (e : JsError) :
  screenshot (App.input s) = Some shot ->
  App.screenshotRead env = Ok b ->
  App.researchAnswer env = Ok (concepts, srcs) ->
  logoResult (App.input s) (App.logoRead env) = Ok logob ->
  concepts !! i = Some c ->
  imageResult (App.imageAnswer env i dev) = Throw e ->
  let r := App.handleGenerate env s in
  outcome r = Ok tt
  /\ In (ConsoleError (App.failureMessage dev i) e) (trace r)
  /\ (exists m,
        App.generatedMockups (finalState r) !! i = Some m
        /\ viewUrl dev m = None
        /\ status m = completed)
  /\ (forall j cj,
        j <> i -> concepts !! j = Some cj ->
        exists mj,
          App.generatedMockups (finalState r) !! j = Some mj
          /\ mobileImageUrl mj = urlOf (App.imageAnswer env j mobile)
          /\ desktopImageUrl mj = urlOf (App.imageAnswer env j desktop)
          /\ status mj = completed).
Proof.
  intros Hs Hr Ha Hl Hc Hf r.
  destruct (handleGenerate_success env s shot b concepts srcs logob
              Hs Hr Ha Hl) as (t & Run & _ & _ & _ & _ & Lg).
  subst r. rewrite Run.
  unfold outcome, finalState, trace. cbn [fst snd App.generatedMockups].
  split; [reflexivity | ].
  split.
  { apply in_or_app. right. apply in_or_app. right.
    exact (Lg i c dev e Hc Hf). }
  split.
  { exists (finished env i (initialMockup i c)).
    rewrite list_lookup_imap, Hc. split; [reflexivity | ].
    destruct (finished_fields env i c) as (_ & M & D & C).
    split; [ | exact C].
    destruct dev; cbn [viewUrl]; [rewrite M | rewrite D];
      unfold urlOf; now rewrite Hf. }
  intros j cj _ Hj. exists (finished env j (initialMockup j cj)).
  rewrite list_lookup_imap, Hj. split; [reflexivity | ].
  destruct (finished_fields env j cj) as (_ & M & D & C). auto.
Qed.

Lemma failed_request_is_logged_and_swallowed_witness :
  In (ConsoleError "Mobile generation failed for concept 0"
        (Error "503 Service Unavailable"))
     (trace (App.handleGenerate demoEnv demoState))
  /\ (status
        <$> App.generatedMockups
              (finalState (App.handleGenerate demoEnv demoState)) !! 0)
     = Some completed.
Proof.
  destruct (failed_request_is_logged_and_swallowed demoEnv demoState
              {| fileName := "home.png" |} "U0hPVA==" demoConcepts
              demoSources (Some "TE9HTw==") 0
              (DesignConcept.mk "Minimalist Tech" "Calm, airy, content first."
                 "A minimalist homepage with a large headline")
              mobile (Error "503 Service Unavailable")
              eq_refl eq_refl eq_refl eq_refl eq_refl eq_refl)
    as (_ & L & (m & E & _ & C) & _).
  split; [exact L | ]. rewrite E. cbn [fmap option_fmap option_map].
  now rewrite C.
Defined.

(** C2 as it is written fails: the mobile request of the first sample
    concept fails, and its slot ends completed, which is not failed. *)
Lemma failed_slot_ends_completed :
  imageResult (App.imageAnswer demoEnv 0 mobile)
  = Throw (Error "503 Service Unavailable")
  /\ (status
        <$> App.generatedMockups
              (finalState (App.handleGenerate demoEnv demoState)) !! 0)
     = Some completed
  /\ Status_eqb completed failed = false.
Proof. repeat split; vm_compute; reflexivity. Qed.

(** C3, as the code has it. In a run whose research call and file reads
    succeed, the statuses a mockup goes through, over the successive
    values of [generatedMockups], are generating then completed and
    nothing else, whatever the answers to its image requests: it is seeded
    as generating and is never pending. *)
Theorem status_goes_generating_then_completed
    (env : App.GenerateEnv) (s : App.State)
    (shot : File) (b : string) (concepts : list DesignConcept)
    (srcs : list GroundingSource) (logob : option string)
    (i : nat) (c : DesignConcept) :
  screenshot (App.input s) = Some shot ->
  App.screenshotRead env = Ok b ->
  App.researchAnswer env = Ok (concepts, srcs) ->
  logoResult (App.input s) (App.logoRead env) = Ok logob ->
  concepts !! i = Some c ->
  changes (statusTrace i (trace (App.handleGenerate env s)))
  = [generating; completed].
Proof.
  intros Hs Hr Ha Hl Hc.
  destruct (handleGenerate_success env s shot b concepts srcs logob
              Hs Hr Ha Hl) as (t & Run & _ & _ & _ & Tr & _).
  rewrite Run. unfold trace. cbn [snd].
  destruct (Tr i c Hc) as (a & n & Et).
  rewrite !statusTrace_app, Et.
  assert (L : statusTrace i (logoEvents (App.input s)) = []).
  { unfold logoEvents. now destruct (logo (App.input s)). }
  rewrite L. cbn [statusTrace app].
  rewrite list_lookup_imap, Hc.
  cbn [fmap option_fmap option_map initialMockup status].
  replace (@lookup nat GeneratedMockup (list GeneratedMockup) _ i [])
    with (@None GeneratedMockup) by now destruct i.
  apply (changes_two generating completed a n). reflexivity.
Qed.

Lemma status_goes_generating_then_completed_witness :
  changes (statusTrace 1 (trace (App.handleGenerate demoEnv demoState)))
  = [generating; completed].
Proof.
  exact (status_goes_generating_then_completed demoEnv demoState
           {| fileName := "home.png" |} "U0hPVA==" demoConcepts
           demoSources (Some "TE9HTw==") 1
           (DesignConcept.mk "Bold & Disruptive" "Loud colours, big type."
              "A bold homepage with oversized typography")
           eq_refl eq_refl eq_refl eq_refl eq_refl).
Defined.

(** C3 as it is written fails: the first mockup of the sample run is
    never pending. *)
Lemma status_is_never_pending :
  changes (statusTrace 0 (trace (App.handleGenerate demoEnv demoState)))
  = [generating; completed]
  /\ Status_list_eqb
       (changes (statusTrace 0 (trace (App.handleGenerate demoEnv demoState))))
       [pending; generating; completed] = false.
Proof. split; vm_compute; reflexivity. Qed.

(** C4. When the screenshot is read and [generateDesignConcepts] throws,
    the handler catches the exception and sets the one fixed message,
    whatever was thrown; [generatedMockups] is only ever given the empty
    list, so no placeholder is seeded, and the trace holds the file read,
    the research call and two log lines: no image request is sent. *)
Theorem research_failure_aborts_the_run (env : App.GenerateEnv)
    (s : App.State) (shot : File) (b : string) (e : JsError) :
  screenshot (App.input s) = Some shot ->
  App.screenshotRead env = Ok b ->
  App.researchAnswer env = Throw e ->
  let r := App.handleGenerate env s in
  outcome r = Ok tt
  /\ App.error (finalState r)
     = Some "Failed to analyze website. Please ensure the API key is valid and try again."
  /\ App.generatedMockups (finalState r) = []
  /\ App.sources (finalState r) = []
  /\ App.isAnalyzing (finalState r) = false
  /\ trace r
     = [SetGeneratedMockups [];
        ReadFile shot;
        ResearchCall (url (App.input s)) (companyInfo (App.input s)) b;
        ConsoleError "Error generating design concepts:" e;
        ConsoleError "Workflow failed:" e]
  /\ issued (trace r) = 0.
Proof.
  intros Hs Hr Ha r. subst r. run_handleGenerate. rewrite Hs, Hr, Ha.
  repeat split.
Qed.

Lemma research_failure_aborts_the_run_witness :
  App.error (finalState (App.handleGenerate demoEnvNoResearch demoState))
  = Some "Failed to analyze website. Please ensure the API key is valid and try again."
  /\ App.generatedMockups
       (finalState (App.handleGenerate demoEnvNoResearch demoState)) = []
  /\ issued (trace (App.handleGenerate demoEnvNoResearch demoState)) = 0.
Proof.
  destruct (research_failure_aborts_the_run demoEnvNoResearch demoState
              {| fileName := "home.png" |} "U0hPVA=="
              (Error "API key not valid") eq_refl eq_refl eq_refl)
    as (_ & E & M & _ & _ & _ & N).
  exact (conj E (conj M N)).
Defined.

(** C5. Without a screenshot the handler sets the error message and
    returns: its trace is empty (no file read, no call to the API, no new
    value of [generatedMockups]) and every other state cell, the mockups
    and the sources among them, is as it was. *)
Theorem no_screenshot_halts_the_run (env : App.GenerateEnv)
    (s : App.State) :
  screenshot (App.input s) = None ->
  let r := App.handleGenerate env s in
  outcome r = Ok tt
  /\ trace r = []
  /\ App.error (finalState r)
     = Some "Please upload a screenshot of the current website."
  /\ App.generatedMockups (finalState r) = App.generatedMockups s
  /\ App.sources (finalState r) = App.sources s
  /\ App.input (finalState r) = App.input s
  /\ App.isAnalyzing (finalState r) = App.isAnalyzing s
  /\ App.viewMode (finalState r) = App.viewMode s.
Proof.
  intros Hs r. subst r. unfold App.handleGenerate. rewrite Hs.
  repeat split.
Qed.

Lemma no_screenshot_halts_the_run_witness :
  trace (App.handleGenerate demoEnv demoStateNoScreenshot) = []
  /\ App.generatedMockups
       (finalState (App.handleGenerate demoEnv demoStateNoScreenshot))
     = [demoMockup]
  /\ App.sources
       (finalState (App.handleGenerate demoEnv demoStateNoScreenshot))
     = demoSources.
Proof.
  destruct (no_screenshot_halts_the_run demoEnv demoStateNoScreenshot
              eq_refl) as (_ & T & _ & M & S' & _).
  exact (conj T (conj M S')).
Defined.

(** C8. Cut the trace of any run of [handleGenerate] anywhere: among the
    events before the cut, the image requests sent exceed those settled by
    at most two. If the next event sends an image request, the settled
    ones are exactly those of the complete pairs sent so far: nothing is
    in flight when the first request of a concept is sent, only that first
    request when the second one is, so both requests of a concept have
    settled before those of the next concept are sent. *)
Theorem at_most_two_requests_in_flight (env : App.GenerateEnv)
    (s : App.State) (p q : list Event) :
  trace (App.handleGenerate env s) = p ++ q ->
  settled p <= issued p <= settled p + 2
  /\ (forall r q', q = ApiCall r :: q' -> isImageRequest r = true ->
        settled p = 2 * (issued p / 2)).
Proof.
  intros E. destruct (handleGenerate_gated env s) as [St Eq].
  rewrite E in St, Eq. destruct q as [| e q].
  - rewrite app_nil_r in Eq. split; [lia | ]. intros r q' H. discriminate H.
  - apply Steps_split in St. destruct St as [B G]. cbn [Nat.add] in B, G.
    split; [exact B | ]. intros r q' [= -> ->] Hr. apply G. exact Hr.
Qed.

(** The sample run cut just before the requests of its second concept:
    two requests sent, two settled. *)
Lemma at_most_two_requests_in_flight_witness :
  let t := trace (App.handleGenerate demoEnv demoState) in
  let p := firstn 13 t in
  isImageCall (nth 13 t (ReadFile {| fileName := "" |})) = true
  /\ settled p <= issued p <= settled p + 2
  /\ settled p = 2 * (issued p / 2)
  /\ issued p = 2.
Proof.
  intros t p.
  destruct (at_most_two_requests_in_flight demoEnv demoState
              p (skipn 13 t) (eq_sym (firstn_skipn 13 t))) as [B G].
  split; [reflexivity | ]. split; [exact B | ].
  split; [ | reflexivity].
  eapply G; [cbv; reflexivity | reflexivity].
Defined.

(** ** [refineAndRegenerateMockup] and [handleRegenerateView] *)

Lemma generateMockupImage_result (c : DesignConcept)
    (logo : option string) (dev : Device) (answer : Result GenResponse) :
  snd (Service.generateMockupImage c logo dev answer) = imageResult answer.
Proof.
  unfold Service.generateMockupImage, Service.generateMockupImage_settle,
    imageResult.
  destruct answer as [response | e]; [ | reflexivity].
  destruct (Service.extractImage response); reflexivity.
Qed.

Lemma generateMockupImage_calls (c : DesignConcept)
    (logo : option string) (dev : Device) (answer : Result GenResponse) :
  List.filter isApiCall (fst (Service.generateMockupImage c logo dev answer))
  = [ApiCall (Service.imageRequest c logo dev)].
Proof.
  unfold Service.generateMockupImage, Service.generateMockupImage_settle.
  destruct answer as [response | e]; [ | reflexivity].
  destruct (Service.extractImage response); reflexivity.
Qed.

Lemma refinePrompt_perSpec (c : DesignConcept) (info : string)
    (dev : Device) (answer : Result GenResponse) :
  snd (Service.refinePrompt c info dev answer) = promptPerSpec c answer.
Proof.
  unfold Service.refinePrompt, promptPerSpec.
  destruct answer as [response | e]; [ | reflexivity].
  destruct (responseText response) as [[| a txt] | ]; reflexivity.
Qed.

Lemma refineAndRegenerateMockup_result (c : DesignConcept) (info : string)
    (dev : Device) (logo : option string) (env : Service.RefineEnv) :
  snd (Service.refineAndRegenerateMockup c info dev logo env)
  = imageResult (Service.regenerateAnswer env).
Proof.
  unfold Service.refineAndRegenerateMockup.
  destruct (Service.refinePrompt c info dev (Service.refineAnswer env))
    as [t1 prompt].
  pose proof (generateMockupImage_result
                (DesignConcept.mk (DesignConcept.name c)
                   (DesignConcept.description c) prompt)
                logo dev (Service.regenerateAnswer env)) as R.
  destruct (Service.generateMockupImage _ logo dev _) as [t2 r].
  exact R.
Qed.

(** The request of [generateMockupImage], written out: the model, the
    prompt followed by the instructions of the view, the two logo parts
    when there is a logo, and the image configuration. *)
Lemma imageRequest_spelled (c : DesignConcept) (logo : option string)
    (dev : Device) :
  Service.imageRequest c logo dev
  = ImageRequest "gemini-3-pro-image-preview"
      ({| text :=
            Some (DesignConcept.imagePrompt c
                  ++ match dev with
                     | mobile =>
                         " . GENERATE A MOBILE MOCKUP: Vertical layout, hamburger menu, stacked content, optimized for smartphone screen (9:16). Show the full length of the mobile page."
                     | desktop =>
                         " . GENERATE A FULL-PAGE DESKTOP SCROLL MOCKUP: Vertical long-scrolling screenshot of the desktop website. Wide navigation bar at the top, multi-column grid layouts for content, small desktop-sized text. Show the Hero section, followed by Features/Services section, and ending with the Footer. Do NOT use mobile layout. High-fidelity desktop UI on a long vertical canvas."
                     end)%string;
          inlineData := None |}
       :: match logo with
          | Some (String a l) =>
              [ {| text := None;
                   inlineData :=
                     Some {| mimeType := "image/png"; data := String a l |} |};
                {| text :=
                     Some "Incorporate this logo naturally into the website header.";
                   inlineData := None |} ]
          | _ => []
          end)
      "9:16" "2K".
Proof.
  unfold Service.imageRequest, Service.mobileSuffix, Service.desktopSuffix,
    textPart, inlinePart.
  destruct dev, logo as [[| a l] | ]; reflexivity.
Qed.

(** The [for ... of] of [generateMockupImage] returns the data URI of the
    first part that has inline data. *)
Lemma firstInlineData_find (parts : list Part) :
  Service.firstInlineData parts
  = match List.find (fun p => match inlineData p with
                              | Some _ => true
                              | None => false
                              end) parts with
    | Some p =>
        Some ("data:image/png;base64,"
              ++ match inlineData p with
                 | Some d => data d
                 | None => ""
                 end)%string
    | None => None
    end.
Proof.
  induction parts as [| p parts IH]; [reflexivity | ].
  cbn [Service.firstInlineData List.find].
  destruct (inlineData p) eqn:E; [now rewrite E | exact IH].
Qed.

(** The events of [refineAndRegenerateMockup], in order. *)
Lemma refineAndRegenerateMockup_trace (c : DesignConcept) (info : string)
    (dev : Device) (logo : option string) (env : Service.RefineEnv) :
  let ask :=
    TextRequest "gemini-3-flash-preview"
      (Service.orchestratorPrompt c info dev) in
  let image :=
    Service.imageRequest
      (DesignConcept.mk (DesignConcept.name c) (DesignConcept.description c)
         (snd (Service.refinePrompt c info dev (Service.refineAnswer env))))
      logo dev in
  exists rest,
    fst (Service.refineAndRegenerateMockup c info dev logo env)
    = ApiCall ask
        :: ApiSettled ask (succeeded (Service.refineAnswer env))
        :: match Service.refineAnswer env with
           | Ok _ => []
           | Throw e =>
               [ConsoleWarn
                  "Orchestration step failed, falling back to original prompt"
                  e]
           end
        ++ ApiCall image :: rest
    /\ List.filter isApiCall rest = [].
Proof.
  intros ask image. subst ask image.
  unfold Service.refineAndRegenerateMockup, Service.refinePrompt,
    Service.generateMockupImage, Service.generateMockupImage_settle.
  destruct (Service.refineAnswer env) as [response | e];
    destruct (Service.regenerateAnswer env) as [image | e'];
    try destruct (Service.extractImage image);
    cbn [fst snd app succeeded];
    (eexists; split; [reflexivity | reflexivity]).
Qed.

(** C6. [refineAndRegenerateMockup] begins by sending the refinement
    request: the model [gemini-3-flash-preview] and the art-director brief
    that carries the company information, the concept's name, description
    and original image prompt, and the requested view. When that request
    fails the failure is only written as a warning. The prompt then used is
    the one the specification describes: the refined text when the request
    succeeds with a non-empty text, the original [imagePrompt] when it fails
    or returns no text. Whatever the refinement did, the requests of the
    call are that text request followed by exactly one image request, which
    carries that prompt followed by the instructions of the requested view,
    the logo when there is one, and the image configuration; and the call
    ends as that image generation ends (the data URI of the first inline
    part, or the exception), a failed refinement leaving no mark on the
    result. *)
Theorem refinement_falls_back_and_regenerates_once
    (c : DesignConcept) (info : string) (dev : Device)
    (logo : option string) (env : Service.RefineEnv) :
  let r := Service.refineAndRegenerateMockup c info dev logo env in
  let ask :=
    TextRequest "gemini-3-flash-preview"
      (String.concat (String "010"%char EmptyString)
         [ "";
           "        You are a Senior Art Director and UI/UX Specialist. ";
           "        We are refining a website mockup design.";
           "        ";
           "        Company Context: " ++ info;
           "        Concept Name: " ++ DesignConcept.name c;
           "        Concept Description: " ++ DesignConcept.description c;
           "        Original Image Prompt: " ++ DesignConcept.imagePrompt c;
           "        ";
           "        Task: ";
           "        Analyze the constraints and create a VASTLY IMPROVED, Version 2.0 image generation prompt for a "
             ++ match dev with mobile => "mobile" | desktop => "desktop" end
             ++ " layout.";
           "        The goal is to make it look even more professional, modern, and aligned with the brand.";
           "        Focus on:";
           "        - Better use of whitespace and typography.";
           "        - More impactful hero section.";
           "        - Clearer visual hierarchy.";
           "        - Trending UI elements (glassmorphism, bento grids, etc. if appropriate).";
           "        ";
           "        Output: JUST the new image prompt text. Do not explain.";
           "    " ]%string) in
  let image (prompt : string) :=
    ImageRequest "gemini-3-pro-image-preview"
      ({| text :=
            Some (prompt
                  ++ match dev with
                     | mobile =>
                         " . GENERATE A MOBILE MOCKUP: Vertical layout, hamburger menu, stacked content, optimized for smartphone screen (9:16). Show the full length of the mobile page."
                     | desktop =>
                         " . GENERATE A FULL-PAGE DESKTOP SCROLL MOCKUP: Vertical long-scrolling screenshot of the desktop website. Wide navigation bar at the top, multi-column grid layouts for content, small desktop-sized text. Show the Hero section, followed by Features/Services section, and ending with the Footer. Do NOT use mobile layout. High-fidelity desktop UI on a long vertical canvas."
                     end)%string;
          inlineData := None |}
       :: match logo with
          | Some (String a l) =>
              [ {| text := None;
                   inlineData :=
                     Some {| mimeType := "image/png"; data := String a l |} |};
                {| text :=
                     Some "Incorporate this logo naturally into the website header.";
                   inlineData := None |} ]
          | _ => []
          end)
      "9:16" "2K" in
  let prompt := promptPerSpec c (Service.refineAnswer env) in
  (exists rest,
     fst r
     = ApiCall ask
         :: ApiSettled ask (succeeded (Service.refineAnswer env))
         :: match Service.refineAnswer env with
            | Ok _ => []
            | Throw e =>
                [ConsoleWarn
                   "Orchestration step failed, falling back to original prompt"
                   e]
            end
         ++ ApiCall (image prompt) :: rest)
  /\ List.filter isApiCall (fst r) = [ApiCall ask; ApiCall (image prompt)]
  /\ issued (fst r) = 1
  /\ snd r
     = match Service.regenerateAnswer env with
       | Throw e => Throw e
       | Ok response =>
           match List.find (fun p => match inlineData p with
                                     | Some _ => true
                                     | None => false
                                     end)
                           (default [] (candidateParts response)) with
           | Some p =>
               Ok ("data:image/png;base64,"
                   ++ match inlineData p with
                      | Some d => data d
                      | None => ""
                      end)%string
           | None => Throw (Error "No image data found in response")
           end
       end
  /\ (succeeded (Service.refineAnswer env) = false ->
      List.filter isImageCall (fst r)
      = [ApiCall (image (DesignConcept.imagePrompt c))])
  /\ (forall response,
        Service.refineAnswer env = Ok response ->
        truthy (responseText response) = false ->
        List.filter isImageCall (fst r)
        = [ApiCall (image (DesignConcept.imagePrompt c))])
  /\ (forall response refinedText,
        Service.refineAnswer env = Ok response ->
        responseText response = Some refinedText ->
        truthy (responseText response) = true ->
        List.filter isImageCall (fst r) = [ApiCall (image refinedText)]).
Proof.
  intros r ask image prompt.
  destruct (refineAndRegenerateMockup_trace c info dev logo env)
    as (rest & Trace & Quiet).
  rewrite refinePrompt_perSpec, imageRequest_spelled in Trace.
  cbn [DesignConcept.imagePrompt] in Trace.
  change (Service.orchestratorPrompt c info dev)
    with (match ask with TextRequest _ contents => contents
                       | ImageRequest _ _ _ _ => "" end) in Trace.
  change (fst r
          = ApiCall ask
              :: ApiSettled ask (succeeded (Service.refineAnswer env))
              :: match Service.refineAnswer env with
                 | Ok _ => []
                 | Throw e =>
                     [ConsoleWarn
                        "Orchestration step failed, falling back to original prompt"
                        e]
                 end
              ++ ApiCall (image prompt) :: rest) in Trace.
  assert (Calls : List.filter isApiCall (fst r)
                  = [ApiCall ask; ApiCall (image prompt)]).
  { rewrite Trace. cbn [List.filter isApiCall].
    rewrite List.filter_app. cbn [List.filter isApiCall]. rewrite Quiet.
    destruct (Service.refineAnswer env); reflexivity. }
  assert (Images : List.filter isImageCall (fst r)
                   = [ApiCall (image prompt)]).
  { assert (F : forall t, List.filter isImageCall t
                          = List.filter isImageCall (List.filter isApiCall t)).
    { induction t as [| e t IH]; [reflexivity | ].
      destruct e; cbn; rewrite <- ?IH; reflexivity. }
    rewrite F, Calls. reflexivity. }
  split; [exists rest; exact Trace | ].
  split; [exact Calls | ].
  split; [unfold issued; now rewrite Images | ].
  split.
  { subst r. rewrite refineAndRegenerateMockup_result.
    unfold imageResult, Service.extractImage.
    destruct (Service.regenerateAnswer env) as [response | e];
      [ | reflexivity].
    rewrite firstInlineData_find.
    destruct (List.find _ _); reflexivity. }
  rewrite Images. subst prompt. unfold promptPerSpec.
  split; [ | split].
  - destruct (Service.refineAnswer env); [discriminate | reflexivity].
  - intros response -> T.
    destruct (responseText response) as [[| a txt] | ];
      (reflexivity || discriminate T).
  - intros response txt -> E T. rewrite E in *.
    destruct txt; [discriminate T | reflexivity].
Qed.

Lemma findIndex_Some {A} (p : A -> bool) (l : list A) :
  forall i, App.findIndex p l = Some i ->
            exists a, l !! i = Some a /\ p a = true.
Proof.
  induction l as [| a l IH]; intros i H; [discriminate H | ].
  cbn [App.findIndex] in H. destruct (p a) eqn:Pa.
  - injection H as <-. now exists a.
  - destruct (App.findIndex p l) as [j | ]; [ | discriminate H].
    injection H as <-. exact (IH j eq_refl).
Qed.

Lemma handleRegenerateView_run (mockupId : string)
    (env : App.RegenerateEnv) (s : App.State) (idx : nat) :
  App.findIndex (fun m => String.eqb (id m) mockupId)
                (App.generatedMockups s) = Some idx ->
  exists t,
    App.handleRegenerateView mockupId env s
    = (Ok tt,
       withMockups
         (match regenerationResult s env with
          | Ok newImageUrl =>
              App.mapAt idx (regenerated (App.viewMode s) newImageUrl)
                        (App.generatedMockups s)
          | Throw _ =>
              App.mapAt idx (with_regeneratingView (Some None))
                        (App.generatedMockups s)
          end) s,
       t)
    /\ (forall e, regenerationResult s env = Throw e ->
                  In (ConsoleError "Regeneration failed" e) t).
Proof.
  intros Hf. destruct (findIndex_Some _ _ _ Hf) as (m & Em & _).
  unfold App.handleRegenerateView. rewrite Hf.
  unfold regenerationResult, logoResult.
  unfold App.bind, App.tryCatch, App.await, App.setGeneratedMockups,
    App.ret, App.throw, App.consoleError, App.emit,
    Service.fileToGenerativePart.
  rewrite Em.
  assert (Clear : forall v,
            App.mapAt idx (with_regeneratingView (Some None))
              (App.mapAt idx (with_regeneratingView v)
                 (App.generatedMockups s))
            = App.mapAt idx (with_regeneratingView (Some None))
                (App.generatedMockups s)).
  { intros v. rewrite mapAt_mapAt. now apply mapAt_ext. }
  assert (Done : forall v u,
            App.mapAt idx (regenerated (App.viewMode s) u)
              (App.mapAt idx (with_regeneratingView v)
                 (App.generatedMockups s))
            = App.mapAt idx (regenerated (App.viewMode s) u)
                (App.generatedMockups s)).
  { intros v u. rewrite mapAt_mapAt. now apply mapAt_ext. }
  destruct (logo (App.input s)) as [l | ];
    [destruct (App.regenLogoRead env) as [lb | e0] | ];
    cbn [fst snd];
    rewrite ?refineAndRegenerateMockup_result;
    try destruct (imageResult (Service.regenerateAnswer (App.regenApi env)))
      as [u | e1];
    cbn [fst snd App.input App.isAnalyzing App.generatedMockups
           App.sources App.error App.viewMode];
    rewrite ?Clear, ?Done;
    (eexists; split; [reflexivity | ]);
    intros e He; try discriminate He; injection He as <-;
    rewrite !in_app_iff; cbn [In]; auto 10.
Qed.

(** The refinement of the second sample mockup fails: the image request is
    made from the original prompt followed by the desktop instructions,
    without logo parts, and its result is the result of the call. *)
Lemma refinement_falls_back_and_regenerates_once_witness :
  let c := DesignConcept.mk "Bold & Disruptive" "Loud colours, big type."
             "A bold homepage with oversized typography" in
  let r := Service.refineAndRegenerateMockup c "A bakery." desktop None
             (App.regenApi demoRegenEnv) in
  List.filter isImageCall (fst r)
  = [ApiCall
       (ImageRequest "gemini-3-pro-image-preview"
          [ {| text :=
                 Some "A bold homepage with oversized typography . GENERATE A FULL-PAGE DESKTOP SCROLL MOCKUP: Vertical long-scrolling screenshot of the desktop website. Wide navigation bar at the top, multi-column grid layouts for content, small desktop-sized text. Show the Hero section, followed by Features/Services section, and ending with the Footer. Do NOT use mobile layout. High-fidelity desktop UI on a long vertical canvas.";
               inlineData := None |} ]
          "9:16" "2K")]
  /\ snd r = Ok "data:image/png;base64,TkVX".
Proof.
  intros c r.
  destruct (refinement_falls_back_and_regenerates_once
              c "A bakery." desktop None (App.regenApi demoRegenEnv))
    as (_ & _ & _ & R & F & _).
  split; [exact (F eq_refl) | ]. fold r in R. rewrite R. reflexivity.
Defined.

(** C7. When the regeneration fails (the logo cannot be read, or the image
    generation of [refineAndRegenerateMockup] throws), the handler catches
    the exception and logs it; the targeted mockup is the one it was with
    [regeneratingView] set to [null], so its two image URLs are those it
    had, and every other mockup is untouched. *)
Theorem failed_regeneration_keeps_images (mockupId : string)
    (env : App.RegenerateEnv) (s : App.State) (idx : nat) (e : JsError) :
  App.findIndex (fun m => String.eqb (id m) mockupId)
                (App.generatedMockups s) = Some idx ->
  regenerationResult s env = Throw e ->
  let r := App.handleRegenerateView mockupId env s in
  outcome r = Ok tt
  /\ In (ConsoleError "Regeneration failed" e) (trace r)
  /\ (exists m m',
        App.generatedMockups s !! idx = Some m
        /\ id m = mockupId
        /\ App.generatedMockups (finalState r) !! idx = Some m'
        /\ m' = with_regeneratingView (Some None) m
        /\ mobileImageUrl m' = mobileImageUrl m
        /\ desktopImageUrl m' = desktopImageUrl m
        /\ regeneratingView m' = Some None)
  /\ (forall j, j <> idx ->
        App.generatedMockups (finalState r) !! j
        = App.generatedMockups s !! j)
  /\ length (App.generatedMockups (finalState r))
     = length (App.generatedMockups s).
Proof.
  intros Hf Hr r.
  destruct (handleRegenerateView_run mockupId env s idx Hf)
    as (t & Run & Lg).
  destruct (findIndex_Some _ _ _ Hf) as (m & Em & Idm).
  subst r. rewrite Run, Hr in *.
  unfold outcome, finalState, trace.
  cbn [fst snd withMockups App.generatedMockups].
  split; [reflexivity | ]. split; [exact (Lg e eq_refl) | ].
  split.
  { exists m, (with_regeneratingView (Some None) m).
    rewrite lookup_mapAt, Em, Nat.eqb_refl.
    apply String.eqb_eq in Idm. repeat split; assumption. }
  split.
  - intros j N. rewrite lookup_mapAt.
    replace (Nat.eqb j idx) with false
      by (symmetry; now apply Nat.eqb_neq).
    now destruct (App.generatedMockups s !! j).
  - unfold App.mapAt. apply length_imap.
Qed.

Lemma failed_regeneration_keeps_images_witness :
  let r := App.handleRegenerateView "mockup-1" demoRegenEnvFailing
             demoRegenState in
  (desktopImageUrl <$> App.generatedMockups (finalState r) !! 1)
  = Some (Some "data:image/png;base64,RDE=")
  /\ (regeneratingView <$> App.generatedMockups (finalState r) !! 1)
     = Some (Some None)
  /\ App.generatedMockups (finalState r) !! 0 = Some demoMockup.
Proof.
  intros r.
  destruct (failed_regeneration_keeps_images "mockup-1" demoRegenEnvFailing
              demoRegenState 1 (Error "429 Too Many Requests")
              eq_refl eq_refl)
    as (_ & _ & (m & m' & Em & _ & Em' & _ & _ & D & V) & O & _).
  fold r in Em', O. rewrite Em', (O 0 ltac:(discriminate)).
  cbn [fmap option_fmap option_map]. rewrite D, V.
  injection Em as <-. repeat split.
Defined.

(** C9. When the regeneration succeeds with [newImageUrl], the targeted
    mockup takes that URL in the view being shown and keeps the URL of the
    other view, its id, concept name, description, status and error;
    every other mockup is untouched and the list keeps its length. *)
Theorem regeneration_replaces_one_view (mockupId : string)
    (env : App.RegenerateEnv) (s : App.State) (idx : nat)
    (newImageUrl : string) :
  App.findIndex (fun m => String.eqb (id m) mockupId)
                (App.generatedMockups s) = Some idx ->
  regenerationResult s env = Ok newImageUrl ->
  let r := App.handleRegenerateView mockupId env s in
  outcome r = Ok tt
  /\ (exists m m',
        App.generatedMockups s !! idx = Some m
        /\ id m = mockupId
        /\ App.generatedMockups (finalState r) !! idx = Some m'
        /\ viewUrl (App.viewMode s) m' = Some newImageUrl
        /\ viewUrl (otherView (App.viewMode s)) m'
           = viewUrl (otherView (App.viewMode s)) m
        /\ id m' = id m
        /\ conceptName m' = conceptName m
        /\ description m' = description m
        /\ status m' = status m
        /\ error m' = error m)
  /\ (forall j, j <> idx ->
        App.generatedMockups (finalState r) !! j
        = App.generatedMockups s !! j)
  /\ length (App.generatedMockups (finalState r))
     = length (App.generatedMockups s).
Proof.
  intros Hf Hr r.
  destruct (handleRegenerateView_run mockupId env s idx Hf)
    as (t & Run & _).
  destruct (findIndex_Some _ _ _ Hf) as (m & Em & Idm).
  subst r. rewrite Run, Hr in *.
  unfold outcome, finalState, trace.
  cbn [fst snd withMockups App.generatedMockups].
  split; [reflexivity | ].
  split.
  { exists m, (regenerated (App.viewMode s) newImageUrl m).
    rewrite lookup_mapAt, Em, Nat.eqb_refl.
    apply String.eqb_eq in Idm.
    destruct (App.viewMode s); repeat split; assumption. }
  split.
  - intros j N. rewrite lookup_mapAt.
    replace (Nat.eqb j idx) with false
      by (symmetry; now apply Nat.eqb_neq).
    now destruct (App.generatedMockups s !! j).
  - unfold App.mapAt. apply length_imap.
Qed.

Lemma regeneration_replaces_one_view_witness :
  let r := App.handleRegenerateView "mockup-1" demoRegenEnv
             demoRegenState in
  (desktopImageUrl <$> App.generatedMockups (finalState r) !! 1)
  = Some (Some "data:image/png;base64,TkVX")
  /\ (mobileImageUrl <$> App.generatedMockups (finalState r) !! 1)
     = Some (Some "data:image/png;base64,TTE=")
  /\ App.generatedMockups (finalState r) !! 0 = Some demoMockup.
Proof.
  intros r.
  destruct (regeneration_replaces_one_view "mockup-1" demoRegenEnv
              demoRegenState 1 "data:image/png;base64,TkVX"
              eq_refl eq_refl)
    as (_ & (m & m' & Em & _ & Em' & V & W & _) & O & _).
  fold r in Em', O. rewrite Em', (O 0 ltac:(discriminate)).
  cbn [fmap option_fmap option_map].
  cbn [viewUrl otherView App.viewMode demoRegenState] in V, W.
  rewrite V, W. injection Em as <-. repeat split.
Defined.

(** * Further properties *)

(** ** [handleGenerate]: the runs that stop before the loop *)

Lemma handleGenerate_aborted (env : App.GenerateEnv) (s : App.State)
    (shot : File) :
  screenshot (App.input s) = Some shot ->
  reachesLoop env s = false ->
  exists ms srcs t,
    App.handleGenerate env s
    = (Ok tt,
       {| App.input := App.input s;
          App.isAnalyzing := false;
          App.generatedMockups := ms;
          App.sources := srcs;
          App.error :=
            Some "Failed to analyze website. Please ensure the API key is valid and try again.";
          App.viewMode := App.viewMode s |},
       t)
    /\ forallb isQuiet t = true
    /\ (exists rest, t = SetGeneratedMockups [] :: ReadFile shot :: rest)
    /\ ((ms = [] /\ srcs = []
         /\ succeeded (App.screenshotRead env)
            && succeeded (App.researchAnswer env) = false)
        \/ (exists concepts l e,
              App.researchAnswer env = Ok (concepts, srcs)
              /\ ms = imap initialMockup concepts
              /\ logo (App.input s) = Some l
              /\ App.logoRead env = Throw e
              /\ In (ReadFile l) t)).
Proof.
  intros Hs Hn. unfold reachesLoop in Hn. rewrite Hs in Hn.
  destruct (App.screenshotRead env) as [b | e] eqn:Hr.
  2: { exists [], [], [SetGeneratedMockups []; ReadFile shot;
                       ConsoleError "Workflow failed:" e].
       split; [ | split; [reflexivity | split;
         [eexists; reflexivity | left; repeat split]]].
       run_handleGenerate. rewrite Hs, Hr. reflexivity. }
  destruct (App.researchAnswer env) as [[concepts srcs] | e] eqn:Ha.
  2: { exists [], [], [SetGeneratedMockups []; ReadFile shot;
                       ResearchCall (url (App.input s))
                         (companyInfo (App.input s)) b;
                       ConsoleError "Error generating design concepts:" e;
                       ConsoleError "Workflow failed:" e].
       split; [ | split; [reflexivity | split;
         [eexists; reflexivity | left; repeat split]]].
       run_handleGenerate. rewrite Hs, Hr, Ha. reflexivity. }
  cbn [succeeded andb] in Hn. unfold logoResult in Hn.
  destruct (logo (App.input s)) as [l | ] eqn:Hl; [ | discriminate Hn].
  destruct (App.logoRead env) as [lb | e] eqn:Hlr; [discriminate Hn | ].
  exists (imap initialMockup concepts), srcs,
    [SetGeneratedMockups []; ReadFile shot;
     ResearchCall (url (App.input s)) (companyInfo (App.input s)) b;
     SetGeneratedMockups (imap initialMockup concepts);
     ReadFile l; ConsoleError "Workflow failed:" e].
  split; [ | split; [reflexivity | split; [eexists; reflexivity | right]]].
  - run_handleGenerate. rewrite Hs, Hr, Ha, Hl, Hlr. reflexivity.
  - exists concepts, l, e. repeat split. cbn. auto 10.
Qed.

(** X1. [handleGenerate] never throws and leaves [input] and [viewMode]
    alone. It ends with no error message exactly when every step before
    the loop succeeded, and only then are image requests sent: two for
    each concept. With a screenshot, [isAnalyzing] ends false whatever
    happened; without one it is not touched. *)
Theorem handleGenerate_always_returns (env : App.GenerateEnv)
    (s : App.State) :
  let r := App.handleGenerate env s in
  outcome r = Ok tt
  /\ App.input (finalState r) = App.input s
  /\ App.viewMode (finalState r) = App.viewMode s
  /\ isNone (App.error (finalState r)) = reachesLoop env s
  /\ issued (trace r)
     = (if reachesLoop env s then 2 * length (conceptsOf env) else 0)
  /\ App.isAnalyzing (finalState r)
     = (if hasScreenshot s then false else App.isAnalyzing s).
Proof.
  intros r. subst r. unfold hasScreenshot.
  destruct (screenshot (App.input s)) as [shot | ] eqn:Hs.
  2: { unfold reachesLoop, App.handleGenerate. rewrite Hs. repeat split. }
  destruct (reachesLoop env s) eqn:Hn.
  - unfold reachesLoop in Hn. rewrite Hs in Hn.
    destruct (App.screenshotRead env) as [b | ] eqn:Hr; [ | discriminate Hn].
    destruct (App.researchAnswer env) as [[concepts srcs] | ] eqn:Ha;
      [ | discriminate Hn].
    destruct (logoResult (App.input s) (App.logoRead env)) as [logob | ]
      eqn:Hl; [ | discriminate Hn].
    destruct (handleGenerate_success env s shot b concepts srcs logob
                Hs Hr Ha Hl) as (t & Run & Ni & _).
    rewrite Run. unfold outcome, finalState, trace, conceptsOf.
    rewrite Ha. cbn [fst snd App.input App.viewMode App.error
                       App.isAnalyzing isNone].
    repeat split.
    rewrite !issued_app, Ni.
    assert (Z : issued (logoEvents (App.input s)) = 0).
    { unfold logoEvents. now destruct (logo (App.input s)). }
    rewrite Z. reflexivity.
  - destruct (handleGenerate_aborted env s shot Hs Hn)
      as (ms & srcs & t & Run & Q & _).
    rewrite Run. unfold outcome, finalState, trace.
    cbn [fst snd App.input App.viewMode App.error App.isAnalyzing isNone].
    repeat split.
    apply issued_quiet. intros e In'.
    pose proof (proj1 (forallb_forall isQuiet t) Q e In') as F.
    destruct e; (reflexivity || discriminate F).
Qed.

(** X2. When the research call succeeds and the logo cannot be read, the
    run stops after seeding the placeholders: the message is set, no image
    request is sent, and the mockups stay as seeded, generating and
    without images, so every card keeps showing its spinner. *)
Theorem unreadable_logo_strands_placeholders (env : App.GenerateEnv)
    (s : App.State) (shot l : File) (b : string)
    (concepts : list DesignConcept) (srcs : list GroundingSource)
    (e : JsError) :
  screenshot (App.input s) = Some shot ->
  App.screenshotRead env = Ok b ->
  App.researchAnswer env = Ok (concepts, srcs) ->
  logo (App.input s) = Some l ->
  App.logoRead env = Throw e ->
  let r := App.handleGenerate env s in
  outcome r = Ok tt
  /\ App.error (finalState r)
     = Some "Failed to analyze website. Please ensure the API key is valid and try again."
  /\ App.generatedMockups (finalState r) = imap initialMockup concepts
  /\ App.sources (finalState r) = srcs
  /\ issued (trace r) = 0
  /\ In (ConsoleError "Workflow failed:" e) (trace r)
  /\ (forall i c, concepts !! i = Some c ->
        Card.render mobile (initialMockup i c)
        = Card.ShowSpinner "Rendering Mobile Design..."
            "App-like vertical layout"
        /\ Card.render desktop (initialMockup i c)
           = Card.ShowSpinner "Rendering Desktop Design..."
               "Long-scrolling layout").
Proof.
  intros Hs Hr Ha Hl Hlr r. subst r.
  run_handleGenerate. rewrite Hs, Hr, Ha, Hl, Hlr.
  unfold outcome, finalState, trace.
  cbn [fst snd App.input App.viewMode App.error App.isAnalyzing
         App.generatedMockups App.sources].
  split; [reflexivity | ]. split; [reflexivity | ].
  split; [reflexivity | ]. split; [reflexivity | ].
  split; [reflexivity | ].
  split; [cbn; auto 10 | ].
  intros i c _. split; reflexivity.
Qed.

Lemma unreadable_logo_strands_placeholders_witness :
  let r := App.handleGenerate demoEnvNoLogo demoState in
  (status <$> App.generatedMockups (finalState r) !! 0) = Some generating
  /\ issued (trace r) = 0
  /\ isNone (App.error (finalState r)) = false.
Proof.
  intros r.
  destruct (unreadable_logo_strands_placeholders demoEnvNoLogo demoState
              {| fileName := "home.png" |} {| fileName := "logo.png" |}
              "U0hPVA==" demoConcepts demoSources
              (Error "NotReadableError")
              eq_refl eq_refl eq_refl eq_refl eq_refl)
    as (_ & E & M & _ & N & _).
  fold r in E, M, N. rewrite E, M, N. repeat split.
Defined.

(** X3. When the screenshot cannot be read, the run stops there: the
    research call is not made, nothing is seeded, and the message is the
    same as for a failed analysis. *)
Theorem unreadable_screenshot_aborts_before_research
    (env : App.GenerateEnv) (s : App.State) (shot : File) (e : JsError) :
  screenshot (App.input s) = Some shot ->
  App.screenshotRead env = Throw e ->
  let r := App.handleGenerate env s in
  outcome r = Ok tt
  /\ trace r
     = [SetGeneratedMockups []; ReadFile shot;
        ConsoleError "Workflow failed:" e]
  /\ App.error (finalState r)
     = Some "Failed to analyze website. Please ensure the API key is valid and try again."
  /\ App.generatedMockups (finalState r) = []
  /\ App.sources (finalState r) = [].
Proof.
  intros Hs Hr r. subst r. run_handleGenerate. rewrite Hs, Hr.
  repeat split.
Qed.

Lemma unreadable_screenshot_aborts_before_research_witness :
  trace (App.handleGenerate demoEnvNoScreenshotRead demoState)
  = [SetGeneratedMockups []; ReadFile {| fileName := "home.png" |};
     ConsoleError "Workflow failed:" (Error "NotReadableError")].
Proof.
  exact (proj1 (proj2
           (unreadable_screenshot_aborts_before_research
              demoEnvNoScreenshotRead demoState {| fileName := "home.png" |}
              (Error "NotReadableError") eq_refl eq_refl))).
Defined.

(** ** [handleGenerate]: the runs that reach the loop *)

(** X4. A run that reaches the loop ends with no error, the sources of the
    research call, and one mockup for each concept, in the order of the
    concepts, carrying the name and description of its concept and no
    regeneration flag. *)
Theorem successful_run_fills_the_state (env : App.GenerateEnv)
    (s : App.State) (shot : File) (b : string)
    (concepts : list DesignConcept) (srcs : list GroundingSource)
    (logob : option string) :
  screenshot (App.input s) = Some shot ->
  App.screenshotRead env = Ok b ->
  App.researchAnswer env = Ok (concepts, srcs) ->
  logoResult (App.input s) (App.logoRead env) = Ok logob ->
  let r := App.handleGenerate env s in
  App.error (finalState r) = None
  /\ App.sources (finalState r) = srcs
  /\ length (App.generatedMockups (finalState r)) = length concepts
  /\ map conceptName (App.generatedMockups (finalState r))
     = map DesignConcept.name concepts
  /\ map description (App.generatedMockups (finalState r))
     = map DesignConcept.description concepts
  /\ map id (App.generatedMockups (finalState r))
     = map mockupId (seq 0 (length concepts))
  /\ forallb (fun m => isNone (regeneratingView m) && isNone (error m))
       (App.generatedMockups (finalState r)) = true.
Proof.
  intros Hs Hr Ha Hl r.
  destruct (handleGenerate_success env s shot b concepts srcs logob
              Hs Hr Ha Hl) as (t & Run & _).
  subst r. rewrite Run. unfold finalState.
  cbn [fst snd App.error App.sources App.generatedMockups].
  assert (F : forall j c,
            let m := finished env j (initialMockup j c) in
            conceptName m = DesignConcept.name c
            /\ description m = DesignConcept.description c
            /\ id m = mockupId j
            /\ regeneratingView m = None /\ error m = None).
  { intros j c. unfold finished, applyResult.
    destruct (imageResult (App.imageAnswer env j mobile)),
      (imageResult (App.imageAnswer env j desktop)); repeat split. }
  split; [reflexivity | ]. split; [reflexivity | ].
  split; [apply length_imap | ].
  split; [ | split; [ | split]].
  - apply list_eq. intros j.
    rewrite !lookup_map, list_lookup_imap.
    destruct (concepts !! j) as [c | ]; [ | reflexivity].
    cbn [fmap option_fmap option_map]. f_equal. apply (F j c).
  - apply list_eq. intros j.
    rewrite !lookup_map, list_lookup_imap.
    destruct (concepts !! j) as [c | ]; [ | reflexivity].
    cbn [fmap option_fmap option_map]. f_equal. apply (F j c).
  - apply list_eq. intros j.
    rewrite !lookup_map, list_lookup_imap.
    destruct (concepts !! j) as [c | ] eqn:E.
    + apply lookup_lt_Some in E.
      rewrite (lookup_seq_lt 0 (length concepts) j E).
      cbn [fmap option_fmap option_map Nat.add]. f_equal. apply (F j c).
    + apply lookup_ge_None in E.
      rewrite (lookup_seq_ge 0 (length concepts) j E). reflexivity.
  - apply forallb_forall. intros m In'.
    apply list_elem_of_In, list_elem_of_lookup in In'.
    destruct In' as [j Ej]. rewrite list_lookup_imap in Ej.
    destruct (concepts !! j) as [c | ]; [ | discriminate Ej].
    injection Ej as <-.
    destruct (F j c) as (_ & _ & _ & -> & ->). reflexivity.
Qed.

Lemma successful_run_fills_the_state_witness :
  let r := App.handleGenerate demoEnv demoState in
  map conceptName (App.generatedMockups (finalState r))
  = ["Minimalist Tech"; "Bold & Disruptive"]
  /\ map id (App.generatedMockups (finalState r))
     = ["mockup-0"; "mockup-1"]
  /\ App.sources (finalState r) = demoSources.
Proof.
  intros r.
  destruct (successful_run_fills_the_state demoEnv demoState
              {| fileName := "home.png" |} "U0hPVA==" demoConcepts
              demoSources (Some "TE9HTw==")
              eq_refl eq_refl eq_refl eq_refl)
    as (_ & S' & _ & N & _ & I' & _).
  fold r in S', N, I'. rewrite S', N, I'. repeat split.
Defined.

Lemma settleTrace_calls (k : nat) (c : DesignConcept)
    (logo : option string) (dev : Device) (answer : Result GenResponse)
    (ms : list GeneratedMockup) :
  List.filter isImageCall (settleTrace k c logo dev answer ms) = [].
Proof. unfold settleTrace. now destruct (imageResult answer). Qed.

Lemma turnTrace_calls (env : App.GenerateEnv) (logo : option string)
    (k : nat) (c : DesignConcept) (ms : list GeneratedMockup) :
  List.filter isImageCall (turnTrace env logo k c ms) = requestsOf logo c.
Proof.
  unfold turnTrace. rewrite !List.filter_app, !settleTrace_calls.
  reflexivity.
Qed.

Lemma forEachFrom_calls (env : App.GenerateEnv) (logo : option string)
    (rest : list DesignConcept) :
  forall (k : nat) (s : App.State),
    Progress k (App.generatedMockups s) ->
    List.filter isImageCall
      (trace (App.forEachFrom k rest (App.generateConcept env logo) s))
    = flat_map (requestsOf logo) rest.
Proof.
  induction rest as [| c rest IH]; intros k s P; [reflexivity | ].
  cbn [App.forEachFrom flat_map]. unfold App.bind.
  rewrite (generateConcept_turn env logo k c s (proj1 P)).
  specialize (IH (S k)
                (withMockups
                   (App.mapAt k (finished env k) (App.generatedMockups s)) s)
                (Progress_turn env k _ P)).
  destruct (App.forEachFrom (S k) rest (App.generateConcept env logo) _)
    as [[r s2] t].
  unfold trace in *. cbn [snd] in *.
  rewrite List.filter_app, turnTrace_calls, IH. reflexivity.
Qed.

(** X5. In a run that reaches the loop, the image requests are, in the
    order they are sent, the mobile then the desktop request of the first
    concept, then those of the second, and so on: two for each concept,
    whatever the answers. Each carries the concept's prompt followed by
    the instructions of its view, and all carry the same logo parts. *)
Theorem requests_follow_the_concepts (env : App.GenerateEnv)
    (s : App.State) (shot : File) (b : string)
    (concepts : list DesignConcept) (srcs : list GroundingSource)
    (logob : option string) :
  screenshot (App.input s) = Some shot ->
  App.screenshotRead env = Ok b ->
  App.researchAnswer env = Ok (concepts, srcs) ->
  logoResult (App.input s) (App.logoRead env) = Ok logob ->
  let request (c : DesignConcept) (view : string) :=
    ApiCall
      (ImageRequest "gemini-3-pro-image-preview"
         ({| text := Some (DesignConcept.imagePrompt c ++ view)%string;
             inlineData := None |}
          :: match logob with
             | Some (String a l) =>
                 [ {| text := None;
                      inlineData :=
                        Some {| mimeType := "image/png";
                                data := String a l |} |};
                   {| text :=
                        Some "Incorporate this logo naturally into the website header.";
                      inlineData := None |} ]
             | _ => []
             end)
         "9:16" "2K") in
  List.filter isImageCall (trace (App.handleGenerate env s))
  = flat_map
      (fun c =>
         [ request c
             " . GENERATE A MOBILE MOCKUP: Vertical layout, hamburger menu, stacked content, optimized for smartphone screen (9:16). Show the full length of the mobile page.";
           request c
             " . GENERATE A FULL-PAGE DESKTOP SCROLL MOCKUP: Vertical long-scrolling screenshot of the desktop website. Wide navigation bar at the top, multi-column grid layouts for content, small desktop-sized text. Show the Hero section, followed by Features/Services section, and ending with the Footer. Do NOT use mobile layout. High-fidelity desktop UI on a long vertical canvas." ])
      concepts.
Proof.
  intros Hs Hr Ha Hl request.
  assert (Spelled : flat_map (requestsOf logob) concepts
                    = flat_map
                        (fun c =>
                           [ request c
                               " . GENERATE A MOBILE MOCKUP: Vertical layout, hamburger menu, stacked content, optimized for smartphone screen (9:16). Show the full length of the mobile page.";
                             request c
                               " . GENERATE A FULL-PAGE DESKTOP SCROLL MOCKUP: Vertical long-scrolling screenshot of the desktop website. Wide navigation bar at the top, multi-column grid layouts for content, small desktop-sized text. Show the Hero section, followed by Features/Services section, and ending with the Footer. Do NOT use mobile layout. High-fidelity desktop UI on a long vertical canvas." ])
                        concepts).
  { apply flat_map_ext. intros c. unfold requestsOf.
    rewrite !imageRequest_spelled. reflexivity. }
  rewrite <- Spelled. clear Spelled request.
  set (seed := {| App.input := App.input s;
                  App.isAnalyzing := false;
                  App.generatedMockups := imap initialMockup concepts;
                  App.sources := srcs;
                  App.error := None;
                  App.viewMode := App.viewMode s |}).
  pose proof (forEachFrom_calls env logob concepts 0 seed
                (Progress_initial concepts)) as Calls.
  destruct (forEachFrom_run env logob concepts 0 seed
              (Progress_initial concepts)) as (t & Run & _).
  rewrite Run in Calls. unfold trace in Calls. cbn [snd] in Calls.
  run_handleGenerate. rewrite Hs, Hr, Ha.
  cbv beta iota zeta.
  cbn [fst snd App.input App.isAnalyzing App.generatedMockups
         App.sources App.error App.viewMode].
  fold seed. unfold logoResult in Hl.
  destruct (logo (App.input s)) as [l | ].
  - destruct (App.logoRead env) as [lb | e]; [ | discriminate Hl].
    injection Hl as <-. rewrite Run.
    unfold trace. cbn [snd app List.filter isImageCall]. exact Calls.
  - injection Hl as <-. rewrite Run.
    unfold trace. cbn [snd app List.filter isImageCall]. exact Calls.
Qed.

(** The four requests of the sample run, each with the logo. *)
Lemma requests_follow_the_concepts_witness :
  let request (prompt : string) :=
    ApiCall
      (ImageRequest "gemini-3-pro-image-preview"
         [ {| text := Some prompt; inlineData := None |};
           {| text := None;
              inlineData :=
                Some {| mimeType := "image/png"; data := "TE9HTw==" |} |};
           {| text :=
                Some "Incorporate this logo naturally into the website header.";
              inlineData := None |} ]
         "9:16" "2K") in
  List.filter isImageCall (trace (App.handleGenerate demoEnv demoState))
  = [ request
        "A minimalist homepage with a large headline . GENERATE A MOBILE MOCKUP: Vertical layout, hamburger menu, stacked content, optimized for smartphone screen (9:16). Show the full length of the mobile page.";
      request
        "A minimalist homepage with a large headline . GENERATE A FULL-PAGE DESKTOP SCROLL MOCKUP: Vertical long-scrolling screenshot of the desktop website. Wide navigation bar at the top, multi-column grid layouts for content, small desktop-sized text. Show the Hero section, followed by Features/Services section, and ending with the Footer. Do NOT use mobile layout. High-fidelity desktop UI on a long vertical canvas.";
      request
        "A bold homepage with oversized typography . GENERATE A MOBILE MOCKUP: Vertical layout, hamburger menu, stacked content, optimized for smartphone screen (9:16). Show the full length of the mobile page.";
      request
        "A bold homepage with oversized typography . GENERATE A FULL-PAGE DESKTOP SCROLL MOCKUP: Vertical long-scrolling screenshot of the desktop website. Wide navigation bar at the top, multi-column grid layouts for content, small desktop-sized text. Show the Hero section, followed by Features/Services section, and ending with the Footer. Do NOT use mobile layout. High-fidelity desktop UI on a long vertical canvas." ].
Proof.
  exact (requests_follow_the_concepts demoEnv demoState
           {| fileName := "home.png" |} "U0hPVA==" demoConcepts
           demoSources (Some "TE9HTw==") eq_refl eq_refl eq_refl eq_refl).
Defined.

Lemma mockupId_inj (a b : nat) : mockupId a = mockupId b -> a = b.
Proof.
  intros H. apply Nat.eqb_eq. rewrite <- mockupId_eqb, H.
  apply String.eqb_refl.
Qed.

Lemma findIndex_seeded (ms : list GeneratedMockup) :
  forall k i,
    (forall j m, ms !! j = Some m -> id m = mockupId (k + j)) ->
    i < length ms ->
    App.findIndex (fun m => String.eqb (id m) (mockupId (k + i))) ms
    = Some i.
Proof.
  induction ms as [| m ms IH]; intros k i HS Hi; [cbn in Hi; lia | ].
  cbn [App.findIndex]. rewrite (HS 0 m eq_refl), mockupId_eqb.
  destruct i as [| i].
  - now rewrite Nat.add_0_r, Nat.eqb_refl.
  - replace (Nat.eqb (k + 0) (k + S i)) with false
      by (symmetry; apply Nat.eqb_neq; lia).
    replace (k + S i) with (S k + i) by lia.
    rewrite (IH (S k) i); [reflexivity | | cbn in Hi; lia].
    intros j m' E. rewrite (HS (S j) m' E). f_equal. lia.
Qed.

(** X6. After a run that reaches the loop, the ids of the mockups are
    pairwise distinct, and looking up the id [`mockup-${i}`] as
    [handleRegenerateView] does finds position [i]: the mockup of the
    concept at that position. *)
Theorem generated_ids_find_their_mockup (env : App.GenerateEnv)
    (s : App.State) (shot : File) (b : string)
    (concepts : list DesignConcept) (srcs : list GroundingSource)
    (logob : option string) (i : nat) (c : DesignConcept) :
  screenshot (App.input s) = Some shot ->
  App.screenshotRead env = Ok b ->
  App.researchAnswer env = Ok (concepts, srcs) ->
  logoResult (App.input s) (App.logoRead env) = Ok logob ->
  concepts !! i = Some c ->
  let ms := App.generatedMockups (finalState (App.handleGenerate env s)) in
  App.findIndex (fun m => String.eqb (id m) (mockupId i)) ms = Some i
  /\ (conceptName <$> ms !! i) = Some (DesignConcept.name c)
  /\ NoDup (map id ms).
Proof.
  intros Hs Hr Ha Hl Hc ms.
  destruct (handleGenerate_success env s shot b concepts srcs logob
              Hs Hr Ha Hl) as (t & Run & _).
  subst ms. rewrite Run. unfold finalState.
  cbn [fst snd App.generatedMockups].
  assert (Ids : forall j m,
            imap (fun j c => finished env j (initialMockup j c)) concepts
              !! j = Some m -> id m = mockupId j).
  { intros j m. rewrite list_lookup_imap.
    destruct (concepts !! j) as [cj | ]; [ | discriminate].
    intros [= <-]. apply finished_fields. }
  split; [ | split].
  - apply (findIndex_seeded _ 0 i).
    + intros j m E. now apply Ids.
    + rewrite length_imap. now apply lookup_lt_Some in Hc.
  - rewrite list_lookup_imap, Hc. cbn [fmap option_fmap option_map].
    f_equal. unfold finished, applyResult.
    destruct (imageResult (App.imageAnswer env i mobile)),
      (imageResult (App.imageAnswer env i desktop)); reflexivity.
  - replace (map id (imap (fun j c => finished env j (initialMockup j c))
                       concepts))
      with (map mockupId (seq 0 (length concepts))).
    + change (NoDup (mockupId <$> seq 0 (length concepts))).
      apply NoDup_fmap_2; [ | apply NoDup_seq].
      intros x y. apply mockupId_inj.
    + apply list_eq. intros j. rewrite !lookup_map, list_lookup_imap.
      destruct (concepts !! j) as [cj | ] eqn:E.
      * pose proof (lookup_lt_Some _ _ _ E) as Lt.
        rewrite (lookup_seq_lt 0 (length concepts) j Lt).
        cbn [fmap option_fmap option_map Nat.add]. f_equal.
        symmetry. apply finished_fields.
      * apply lookup_ge_None in E.
        now rewrite (lookup_seq_ge 0 (length concepts) j E).
Qed.

Lemma generated_ids_find_their_mockup_witness :
  App.findIndex (fun m => String.eqb (id m) "mockup-1")
    (App.generatedMockups (finalState (App.handleGenerate demoEnv demoState)))
  = Some 1.
Proof.
  exact (proj1
           (generated_ids_find_their_mockup demoEnv demoState
              {| fileName := "home.png" |} "U0hPVA==" demoConcepts
              demoSources (Some "TE9HTw==") 1
              (DesignConcept.mk "Bold & Disruptive" "Loud colours, big type."
                 "A bold homepage with oversized typography")
              eq_refl eq_refl eq_refl eq_refl eq_refl)).
Defined.

(** X7. With a screenshot, a run owes nothing to the results of an earlier
    one: two states with the same form input and view mode give the same
    outcome, final state and trace, whatever their mockups, sources, error
    message and analysing flag were. *)
Theorem run_forgets_earlier_results (env : App.GenerateEnv)
    (s s' : App.State) (shot : File) :
  screenshot (App.input s) = Some shot ->
  App.input s' = App.input s ->
  App.viewMode s' = App.viewMode s ->
  App.handleGenerate env s' = App.handleGenerate env s.
Proof.
  intros Hs Hi Hv. run_handleGenerate. rewrite Hi, Hs.
  cbv beta iota zeta.
  cbn [fst snd App.input App.isAnalyzing App.generatedMockups
         App.sources App.error App.viewMode].
  rewrite Hv. reflexivity.
Qed.

Lemma run_forgets_earlier_results_witness :
  App.handleGenerate demoEnv
    {| App.input := App.input demoState;
       App.isAnalyzing := false;
       App.generatedMockups := [demoMockup];
       App.sources := demoSources;
       App.error := Some "Please upload a screenshot of the current website.";
       App.viewMode := mobile |}
  = App.handleGenerate demoEnv demoState.
Proof.
  exact (run_forgets_earlier_results demoEnv demoState _
           {| fileName := "home.png" |} eq_refl eq_refl eq_refl).
Defined.

(** ** [handleRegenerateView] and the cards *)

Lemma findIndex_None {A} (p : A -> bool) (l : list A) :
  forallb (fun a => negb (p a)) l = true -> App.findIndex p l = None.
Proof.
  induction l as [| a l IH]; [reflexivity | ].
  cbn [forallb App.findIndex]. intros H.
  apply andb_true_iff in H. destruct H as [Ha Hl].
  destruct (p a); [discriminate Ha | ]. now rewrite (IH Hl).
Qed.

(** X8. Asked to regenerate a mockup whose id is not in the list,
    [handleRegenerateView] returns at once: no request, no log, no new
    value of [generatedMockups], the state as it was. *)
Theorem unknown_id_is_ignored (mockupId : string)
    (env : App.RegenerateEnv) (s : App.State) :
  forallb (fun m => negb (String.eqb (id m) mockupId))
          (App.generatedMockups s) = true ->
  App.handleRegenerateView mockupId env s = (Ok tt, s, []).
Proof.
  intros H. unfold App.handleRegenerateView.
  now rewrite (findIndex_None _ _ H).
Qed.

Lemma unknown_id_is_ignored_witness :
  App.handleRegenerateView "mockup-7" demoRegenEnv demoRegenState
  = (Ok tt, demoRegenState, []).
Proof.
  exact (unknown_id_is_ignored "mockup-7" demoRegenEnv demoRegenState
           eq_refl).
Defined.

Lemma handleRegenerateView_starts (mockupId : string)
    (env : App.RegenerateEnv) (s : App.State) (idx : nat) :
  App.findIndex (fun m => String.eqb (id m) mockupId)
                (App.generatedMockups s) = Some idx ->
  exists rest,
    trace (App.handleRegenerateView mockupId env s)
    = SetGeneratedMockups
        (App.mapAt idx (with_regeneratingView (Some (Some (App.viewMode s))))
           (App.generatedMockups s)) :: rest.
Proof.
  intros Hf. destruct (findIndex_Some _ _ _ Hf) as (m & Em & _).
  unfold App.handleRegenerateView. rewrite Hf.
  unfold App.bind, App.setGeneratedMockups at 1.
  cbv beta iota zeta.
  match goal with
  | |- context [App.tryCatch ?b ?h ?st] =>
      destruct (App.tryCatch b h st) as [[r0 s2] t2]
  end.
  unfold trace. cbn [snd app]. eexists. reflexivity.
Qed.

(** X9. A regeneration first writes the mockups with the targeted one
    flagged as regenerating the view being shown, so that its card hides
    the image and its buttons behind the "Improving Design..." spinner;
    and however the regeneration ends, the flag of the targeted mockup is
    [null] afterwards, for neither view is it shown as regenerating. *)
Theorem regeneration_shows_then_clears_the_flag (mockupId : string)
    (env : App.RegenerateEnv) (s : App.State) (idx : nat) :
  App.findIndex (fun m => String.eqb (id m) mockupId)
                (App.generatedMockups s) = Some idx ->
  let r := App.handleRegenerateView mockupId env s in
  let vm := App.viewMode s in
  let marked :=
    App.mapAt idx (with_regeneratingView (Some (Some vm)))
              (App.generatedMockups s) in
  (exists rest, trace r = SetGeneratedMockups marked :: rest)
  /\ (exists m0,
        marked !! idx = Some m0
        /\ Card.render vm m0
           = Card.ShowSpinner "Improving Design..."
               (match vm with
                | desktop => "Long-scrolling layout"
                | mobile => "App-like vertical layout"
                end)
        /\ Card.hasActions vm m0 = false)
  /\ (exists m',
        App.generatedMockups (finalState r) !! idx = Some m'
        /\ regeneratingView m' = Some None
        /\ Card.isRegeneratingThisView mobile m' = false
        /\ Card.isRegeneratingThisView desktop m' = false).
Proof.
  intros Hf r vm marked.
  destruct (findIndex_Some _ _ _ Hf) as (m & Em & _).
  split; [exact (handleRegenerateView_starts mockupId env s idx Hf) | ].
  split.
  { exists (with_regeneratingView (Some (Some vm)) m).
    subst marked. rewrite lookup_mapAt, Em, Nat.eqb_refl.
    split; [reflexivity | ].
    unfold Card.render, Card.hasActions, Card.isImageReady,
      Card.isRegeneratingThisView.
    cbn [regeneratingView with_regeneratingView].
    replace (Device_eqb vm vm) with true by now destruct vm.
    rewrite !andb_false_r. split; reflexivity. }
  destruct (handleRegenerateView_run mockupId env s idx Hf)
    as (t & Run & _).
  subst r. rewrite Run. unfold finalState.
  cbn [fst snd withMockups App.generatedMockups].
  destruct (regenerationResult s env) as [u | e];
    rewrite lookup_mapAt, Em, Nat.eqb_refl;
    eexists; (split; [reflexivity | repeat split]).
Qed.

Lemma regeneration_shows_then_clears_the_flag_witness :
  (exists rest,
     trace (App.handleRegenerateView "mockup-1" demoRegenEnvFailing
              demoRegenState)
     = SetGeneratedMockups
         (App.mapAt 1 (with_regeneratingView (Some (Some desktop)))
            (App.generatedMockups demoRegenState)) :: rest)
  /\ (regeneratingView
        <$> App.generatedMockups
              (finalState (App.handleRegenerateView "mockup-1"
                             demoRegenEnvFailing demoRegenState)) !! 1)
     = Some (Some None).
Proof.
  destruct (regeneration_shows_then_clears_the_flag "mockup-1"
              demoRegenEnvFailing demoRegenState 1 eq_refl)
    as (T & _ & (m' & E & F & _)).
  split; [exact T | ]. rewrite E. cbn [fmap option_fmap option_map].
  now rewrite F.
Defined.

Lemma extractImage_data_uri (response : GenResponse) (u : string) :
  Service.extractImage response = Ok u -> truthy (Some u) = true.
Proof.
  unfold Service.extractImage.
  destruct (Service.firstInlineData _) as [d | ] eqn:E; [ | discriminate].
  intros [= <-].
  assert (P : forall parts d, Service.firstInlineData parts = Some d ->
                              truthy (Some d) = true).
  { clear. induction parts as [| p parts IH]; intros d H; [discriminate H | ].
    cbn [Service.firstInlineData] in H.
    destruct (inlineData p); [ | now apply IH].
    injection H as <-. reflexivity. }
  exact (P _ _ E).
Qed.

(** X10. After a run that reaches the loop, the card of a view whose image
    request failed shows the "Rendering ... Design..." spinner, not the
    failure notice, and none of the buttons (download, fullscreen,
    regenerate): from the card, the view cannot be retried. *)
Theorem failed_view_keeps_spinning (env : App.GenerateEnv) (s : App.State)
    (shot : File) (b : string) (concepts : list DesignConcept)
    (srcs : list GroundingSource) (logob : option string)
    (i : nat) (c : DesignConcept) (dev : Device) (e : JsError) :
  screenshot (App.input s) = Some shot ->
  App.screenshotRead env = Ok b ->
  App.researchAnswer env = Ok (concepts, srcs) ->
  logoResult (App.input s) (App.logoRead env) = Ok logob ->
  concepts !! i = Some c ->
  imageResult (App.imageAnswer env i dev) = Throw e ->
  exists m,
    App.generatedMockups (finalState (App.handleGenerate env s)) !! i
    = Some m
    /\ Card.render dev m
       = Card.ShowSpinner
           (match dev with
            | mobile => "Rendering Mobile Design..."
            | desktop => "Rendering Desktop Design..."
            end)
           (match dev with
            | desktop => "Long-scrolling layout"
            | mobile => "App-like vertical layout"
            end)
    /\ Card.hasActions dev m = false.
Proof.
  intros Hs Hr Ha Hl Hc Hf.
  destruct (handleGenerate_success env s shot b concepts srcs logob
              Hs Hr Ha Hl) as (t & Run & _).
  rewrite Run. unfold finalState. cbn [fst snd App.generatedMockups].
  exists (finished env i (initialMockup i c)).
  rewrite list_lookup_imap, Hc. split; [reflexivity | ].
  unfold Card.render, Card.hasActions, Card.isImageReady,
    Card.isRegeneratingThisView, Card.activeImage, finished, applyResult.
  destruct dev; rewrite Hf;
    [destruct (imageResult (App.imageAnswer env i desktop))
    |destruct (imageResult (App.imageAnswer env i mobile))];
    split; reflexivity.
Qed.

Lemma failed_view_keeps_spinning_witness :
  (Card.render mobile
     <$> App.generatedMockups
           (finalState (App.handleGenerate demoEnv demoState)) !! 0)
  = Some (Card.ShowSpinner "Rendering Mobile Design..."
            "App-like vertical layout").
Proof.
  destruct (failed_view_keeps_spinning demoEnv demoState
              {| fileName := "home.png" |} "U0hPVA==" demoConcepts
              demoSources (Some "TE9HTw==") 0
              (DesignConcept.mk "Minimalist Tech" "Calm, airy, content first."
                 "A minimalist homepage with a large headline")
              mobile (Error "503 Service Unavailable")
              eq_refl eq_refl eq_refl eq_refl eq_refl eq_refl)
    as (m & E & R & _).
  rewrite E. cbn [fmap option_fmap option_map]. now rewrite R.
Defined.

(** X11. After a run that reaches the loop, the card of a view whose
    image request produced an image shows that image, with its buttons. *)
Theorem generated_view_shows_its_image (env : App.GenerateEnv)
    (s : App.State) (shot : File) (b : string)
    (concepts : list DesignConcept) (srcs : list GroundingSource)
    (logob : option string) (i : nat) (c : DesignConcept) (dev : Device)
    (u : string) :
  screenshot (App.input s) = Some shot ->
  App.screenshotRead env = Ok b ->
  App.researchAnswer env = Ok (concepts, srcs) ->
  logoResult (App.input s) (App.logoRead env) = Ok logob ->
  concepts !! i = Some c ->
  imageResult (App.imageAnswer env i dev) = Ok u ->
  exists m,
    App.generatedMockups (finalState (App.handleGenerate env s)) !! i
    = Some m
    /\ Card.render dev m = Card.ShowImage u
    /\ Card.hasActions dev m = true.
Proof.
  intros Hs Hr Ha Hl Hc Hu.
  destruct (handleGenerate_success env s shot b concepts srcs logob
              Hs Hr Ha Hl) as (t & Run & _).
  rewrite Run. unfold finalState. cbn [fst snd App.generatedMockups].
  exists (finished env i (initialMockup i c)).
  rewrite list_lookup_imap, Hc. split; [reflexivity | ].
  assert (T : truthy (Some u) = true).
  { unfold imageResult in Hu.
    destruct (App.imageAnswer env i dev) as [response | ];
      [ | discriminate Hu].
    exact (extractImage_data_uri response u Hu). }
  unfold Card.render, Card.hasActions, Card.isImageReady,
    Card.isRegeneratingThisView, Card.activeImage, finished, applyResult.
  destruct dev; rewrite Hu;
    [destruct (imageResult (App.imageAnswer env i desktop))
    |destruct (imageResult (App.imageAnswer env i mobile))];
    cbn [with_status App.setImageUrl with_mobileImageUrl
           with_desktopImageUrl initialMockup mobileImageUrl
           desktopImageUrl regeneratingView negb andb];
    rewrite T; split; reflexivity.
Qed.

Lemma generated_view_shows_its_image_witness :
  (Card.render desktop
     <$> App.generatedMockups
           (finalState (App.handleGenerate demoEnv demoState)) !! 0)
  = Some (Card.ShowImage "data:image/png;base64,RDA=").
Proof.
  destruct (generated_view_shows_its_image demoEnv demoState
              {| fileName := "home.png" |} "U0hPVA==" demoConcepts
              demoSources (Some "TE9HTw==") 0
              (DesignConcept.mk "Minimalist Tech" "Calm, airy, content first."
                 "A minimalist homepage with a large headline")
              desktop "data:image/png;base64,RDA="
              eq_refl eq_refl eq_refl eq_refl eq_refl eq_refl)
    as (m & E & R & _).
  rewrite E. cbn [fmap option_fmap option_map]. now rewrite R.
Defined.

(** ** What no sequence of handlers does *)

Lemma forallb_lookup {A} (p : A -> bool) (l : list A) :
  forallb p l = true <-> (forall j a, l !! j = Some a -> p a = true).
Proof.
  rewrite forallb_forall. split.
  - intros H j a E. apply H. apply list_elem_of_In.
    apply list_elem_of_lookup. now exists j.
  - intros H a In'. apply list_elem_of_In, list_elem_of_lookup in In'.
    destruct In' as [j E]. exact (H j a E).
Qed.

Lemma statuses_mapAt (k : nat) (f : GeneratedMockup -> GeneratedMockup)
    (ms : list GeneratedMockup) :
  (forall m, status (f m) = status m) ->
  forallb statusInUse ms = true ->
  forallb statusInUse (App.mapAt k f ms) = true.
Proof.
  intros P H. apply forallb_lookup. intros j m E.
  rewrite lookup_mapAt in E.
  destruct (ms !! j) as [m0 | ] eqn:E0; [ | discriminate E].
  injection E as <-.
  pose proof (proj1 (forallb_lookup _ _) H j m0 E0) as S0.
  unfold statusInUse in *. destruct (Nat.eqb j k); now rewrite ?P.
Qed.

Lemma handleGenerate_statuses (env : App.GenerateEnv) (s : App.State) :
  forallb statusInUse (App.generatedMockups s) = true ->
  forallb statusInUse
    (App.generatedMockups (finalState (App.handleGenerate env s))) = true.
Proof.
  intros H.
  destruct (screenshot (App.input s)) as [shot | ] eqn:Hs.
  2: { unfold App.handleGenerate. rewrite Hs. exact H. }
  destruct (reachesLoop env s) eqn:Hn.
  - unfold reachesLoop in Hn. rewrite Hs in Hn.
    destruct (App.screenshotRead env) as [b | ] eqn:Hr; [ | discriminate Hn].
    destruct (App.researchAnswer env) as [[concepts srcs] | ] eqn:Ha;
      [ | discriminate Hn].
    destruct (logoResult (App.input s) (App.logoRead env)) as [logob | ]
      eqn:Hl; [ | discriminate Hn].
    destruct (handleGenerate_success env s shot b concepts srcs logob
                Hs Hr Ha Hl) as (t & Run & _).
    rewrite Run. unfold finalState. cbn [fst snd App.generatedMockups].
    apply forallb_lookup. intros j m E. rewrite list_lookup_imap in E.
    destruct (concepts !! j) as [c | ]; [ | discriminate E].
    injection E as <-. reflexivity.
  - destruct (handleGenerate_aborted env s shot Hs Hn)
      as (ms & srcs & t & Run & _ & _
          & [(-> & _) | (cs & l & e & _ & -> & _)]);
      rewrite Run; unfold finalState; cbn [fst snd App.generatedMockups];
      [reflexivity | ].
    apply forallb_lookup. intros j m E. rewrite list_lookup_imap in E.
    destruct (cs !! j) as [c | ]; [ | discriminate E].
    injection E as <-. reflexivity.
Qed.

Lemma handleRegenerateView_statuses (mockupId : string)
    (env : App.RegenerateEnv) (s : App.State) :
  forallb statusInUse (App.generatedMockups s) = true ->
  forallb statusInUse
    (App.generatedMockups
       (finalState (App.handleRegenerateView mockupId env s))) = true.
Proof.
  intros H.
  destruct (App.findIndex (fun m => String.eqb (id m) mockupId)
              (App.generatedMockups s)) as [idx | ] eqn:Hf.
  - destruct (handleRegenerateView_run mockupId env s idx Hf)
      as (t & Run & _).
    rewrite Run. unfold finalState.
    cbn [fst snd withMockups App.generatedMockups].
    destruct (regenerationResult s env);
      apply statuses_mapAt; try exact H; reflexivity.
  - unfold App.handleRegenerateView. rewrite Hf. exact H.
Qed.

Lemma apply_statuses (s : App.State) (op : Form.Op) :
  forallb statusInUse (App.generatedMockups s) = true ->
  forallb statusInUse (App.generatedMockups (Form.apply s op)) = true.
Proof.
  intros H. destruct op; cbn [Form.apply].
  - now apply handleGenerate_statuses.
  - now apply handleRegenerateView_statuses.
  - exact H.
  - unfold Form.deliver. now destruct (FileUpload.handleDrop files).
  - exact H.
  - unfold Form.deliver. now destruct (FileUpload.handleDrop files).
  - exact H.
Qed.

Lemma run_statuses (ops : list Form.Op) :
  forall s,
    forallb statusInUse (App.generatedMockups s) = true ->
    forallb statusInUse (App.generatedMockups (Form.run ops s)) = true.
Proof.
  induction ops as [| op ops IH]; intros s H; [exact H | ].
  cbn [Form.run fold_left]. apply IH, apply_statuses, H.
Qed.

(** X12. Starting from the mounted component, whatever handlers run one
    after the other (generations and regenerations with any answers of
    the environment, view switches, uploads), every mockup is generating
    or completed, never pending nor failed; so in neither view does any
    card show the "Generation Failed" notice. *)
Theorem failure_notice_is_never_shown (ops : list Form.Op) :
  let ms := App.generatedMockups (Form.run ops Form.initial) in
  forallb statusInUse ms = true
  /\ forallb (fun m => negb (Card.isShowFailed (Card.render mobile m))
                       && negb (Card.isShowFailed (Card.render desktop m)))
       ms = true.
Proof.
  intros ms.
  assert (H : forallb statusInUse ms = true)
    by (apply run_statuses; reflexivity).
  split; [exact H | ].
  apply forallb_forall. intros m In'.
  pose proof (proj1 (forallb_forall _ _) H m In') as S0.
  unfold statusInUse in S0. unfold Card.render.
  destruct (status m); try discriminate S0;
    destruct (Card.isImageReady mobile m), (Card.isImageReady desktop m);
    reflexivity.
Qed.

(** ** The viewer and its toolbar *)

Ltac zoom_levels H :=
  unfold zoomLevels in H; simpl in H;
  repeat (destruct H as [H | H]; [symmetry in H | ]);
  [ .. | destruct H ].

Lemma reachable_zoom_level (acts : list Viewer.Action) :
  In (Viewer.zoom (Viewer.run acts Viewer.initial)) zoomLevels.
Proof. apply run_level, one_is_a_level. Qed.

(** X13. In every state the viewer can be in, the zoom-out button is
    disabled exactly when zooming out would leave the zoom as it is, and
    the zoom-in button exactly when zooming in would. *)
Theorem zoom_buttons_are_disabled_when_idle (acts : list Viewer.Action) :
  let s := Viewer.run acts Viewer.initial in
  Toolbar.zoomOutDisabled s
  = PrimFloat.eqb (Viewer.zoom (Viewer.handleZoomOut s)) (Viewer.zoom s)
  /\ Toolbar.zoomInDisabled s
     = PrimFloat.eqb (Viewer.zoom (Viewer.handleZoomIn s)) (Viewer.zoom s).
Proof.
  intros s. pose proof (reachable_zoom_level acts) as L. fold s in L.
  unfold Toolbar.zoomOutDisabled, Toolbar.zoomInDisabled,
    Viewer.handleZoomOut, Viewer.handleZoomIn, Viewer.setZoom.
  cbn [Viewer.zoom].
  zoom_levels L; rewrite L; split; reflexivity.
Qed.

(** X14. In every state the viewer can be in, zooming in then out gives
    back the zoom, unless it was at the maximum (then 3.5 results), and
    zooming out then in gives it back unless it was at the minimum (then 1
    results). *)
Theorem zoom_steps_undo_each_other (acts : list Viewer.Action) :
  let s := Viewer.run acts Viewer.initial in
  Viewer.zoom (Viewer.handleZoomOut (Viewer.handleZoomIn s))
  = (if Toolbar.zoomInDisabled s then 3.5%float else Viewer.zoom s)
  /\ Viewer.zoom (Viewer.handleZoomIn (Viewer.handleZoomOut s))
     = (if Toolbar.zoomOutDisabled s then 1%float else Viewer.zoom s).
Proof.
  intros s. pose proof (reachable_zoom_level acts) as L. fold s in L.
  unfold Toolbar.zoomOutDisabled, Toolbar.zoomInDisabled,
    Viewer.handleZoomOut, Viewer.handleZoomIn, Viewer.setZoom.
  cbn [Viewer.zoom].
  zoom_levels L; rewrite L; split; reflexivity.
Qed.

Lemma run_app (a b : list Viewer.Action) (s : Viewer.State) :
  Viewer.run (a ++ b) s = Viewer.run b (Viewer.run a s).
Proof. unfold Viewer.run. apply fold_left_app. Qed.

Lemma zoomIn_stays_at_max (n : nat) :
  forall s, Viewer.zoom s = 4%float ->
            Viewer.zoom (Viewer.run (repeat Viewer.ZoomIn n) s) = 4%float.
Proof.
  induction n as [| n IH]; intros s H; [exact H | ].
  cbn [repeat Viewer.run fold_left]. apply IH.
  cbn [Viewer.step]. unfold Viewer.handleZoomIn, Viewer.setZoom.
  cbn [Viewer.zoom]. now rewrite H.
Qed.

Lemma zoomOut_stays_at_min (n : nat) :
  forall s, Viewer.zoom s = 0.5%float ->
            Viewer.zoom (Viewer.run (repeat Viewer.ZoomOut n) s) = 0.5%float.
Proof.
  induction n as [| n IH]; intros s H; [exact H | ].
  cbn [repeat Viewer.run fold_left]. apply IH.
  cbn [Viewer.step]. unfold Viewer.handleZoomOut, Viewer.setZoom.
  cbn [Viewer.zoom]. now rewrite H.
Qed.

(** X15. From any state the viewer can be in, seven clicks on zoom-in
    reach the maximum 4 and seven clicks on zoom-out the minimum 0.5, and
    further clicks stay there. *)
Theorem seven_clicks_reach_the_bounds (acts : list Viewer.Action)
    (n : nat) :
  let s := Viewer.run acts Viewer.initial in
  Viewer.zoom (Viewer.run (repeat Viewer.ZoomIn (7 + n)) s) = 4%float
  /\ Viewer.zoom (Viewer.run (repeat Viewer.ZoomOut (7 + n)) s) = 0.5%float.
Proof.
  intros s. pose proof (reachable_zoom_level acts) as L. fold s in L.
  rewrite !repeat_app, !run_app. split.
  - apply zoomIn_stays_at_max.
    cbn [repeat Viewer.run fold_left Viewer.step].
    unfold Viewer.handleZoomIn, Viewer.setZoom. cbn [Viewer.zoom].
    zoom_levels L; rewrite L; reflexivity.
  - apply zoomOut_stays_at_min.
    cbn [repeat Viewer.run fold_left Viewer.step].
    unfold Viewer.handleZoomOut, Viewer.setZoom. cbn [Viewer.zoom].
    zoom_levels L; rewrite L; reflexivity.
Qed.

(** X16. Once the mouse button is released (or the pointer has left the
    image), mouse moves do nothing: whatever the positions, the state
    after them is the state right after the release, pan included. *)
Theorem moves_after_release_do_nothing (s : Viewer.State)
    (positions : list (float * float)) :
  Viewer.run
    (Viewer.MouseUp
     :: map (fun p => Viewer.MouseMove (fst p) (snd p)) positions) s
  = Viewer.handleMouseUp s
  /\ Viewer.pan
       (Viewer.run
          (Viewer.MouseUp
           :: map (fun p => Viewer.MouseMove (fst p) (snd p)) positions) s)
     = Viewer.pan s.
Proof.
  assert (Idle : forall s0, Viewer.isDragging s0 = false ->
            Viewer.run
              (map (fun p => Viewer.MouseMove (fst p) (snd p)) positions) s0
            = s0).
  { induction positions as [| p ps IH]; intros s0 D; [reflexivity | ].
    cbn [map Viewer.run fold_left Viewer.step].
    unfold Viewer.handleMouseMove. rewrite D. cbn [negb]. now apply IH. }
  cbn [Viewer.run fold_left Viewer.step].
  change (fold_left Viewer.step ?l ?x) with (Viewer.run l x).
  rewrite (Idle (Viewer.handleMouseUp s) eq_refl). split; reflexivity.
Qed.

(** X17. Closing the viewer keeps zoom and pan, and opening an image after
    closing always starts at zoom 1 and pan (0, 0), even the image that
    was open before. *)
Theorem reopening_resets_the_view (s : Viewer.State) (img : string) :
  truthy (Some img) = true ->
  let closed := Viewer.setFullscreenImage None s in
  let reopened := Viewer.setFullscreenImage (Some img) closed in
  Viewer.zoom closed = Viewer.zoom s
  /\ Viewer.pan closed = Viewer.pan s
  /\ Viewer.zoom reopened = 1%float
  /\ Viewer.pan reopened = Viewer.origin
  /\ Viewer.fullscreenImage reopened = Some img.
Proof.
  intros T closed reopened. subst reopened closed.
  destruct img as [| a img]; [discriminate T | ].
  destruct s as [[shown | ] z p d ds]; repeat split.
Qed.

Lemma reopening_resets_the_view_witness :
  let s := Viewer.run [Viewer.SetFullscreenImage (Some "data:image/png;base64,AAAA");
                       Viewer.ZoomIn; Viewer.ZoomIn] Viewer.initial in
  Viewer.zoom s = 2%float
  /\ Viewer.zoom
       (Viewer.setFullscreenImage (Some "data:image/png;base64,AAAA")
          (Viewer.setFullscreenImage None s)) = 1%float.
Proof.
  intros s.
  destruct (reopening_resets_the_view s "data:image/png;base64,AAAA"
              eq_refl) as (_ & _ & Z & _).
  split; [reflexivity | exact Z].
Defined.

(** ** geminiService.ts: images and files *)

Lemma firstInlineData_skips (before : list Part) :
  forallb (fun q => isNone (inlineData q)) before = true ->
  forall rest,
    Service.firstInlineData (before ++ rest) = Service.firstInlineData rest.
Proof.
  induction before as [| q before IH]; intros H rest; [reflexivity | ].
  cbn [forallb] in H. apply andb_true_iff in H. destruct H as [Hq Hb].
  cbn [app Service.firstInlineData].
  destruct (inlineData q); [discriminate Hq | ]. now apply IH.
Qed.

(** X18. [generateMockupImage] takes the image of the first part that has
    inline data, skipping the text parts before it and ignoring whatever
    follows, and always labels it [image/png], whatever MIME type the part
    declares; a response whose parts have no inline data ends in the
    exception "No image data found in response". *)
Theorem first_inline_part_is_the_image (txt : option string)
    (before after : list Part) (p : Part) (d : InlineData) :
  forallb (fun q => isNone (inlineData q)) before = true ->
  inlineData p = Some d ->
  Service.extractImage
    {| responseText := txt; candidateParts := Some (before ++ p :: after) |}
  = Ok ("data:image/png;base64," ++ data d)%string
  /\ Service.extractImage
       {| responseText := txt; candidateParts := Some before |}
     = Throw (Error "No image data found in response")
  /\ Service.extractImage {| responseText := txt; candidateParts := None |}
     = Throw (Error "No image data found in response").
Proof.
  intros Hb Hp. unfold Service.extractImage.
  cbn [candidateParts from_option]. unfold Datatypes.id.
  rewrite (firstInlineData_skips before Hb (p :: after)).
  cbn [Service.firstInlineData]. rewrite Hp.
  split; [reflexivity | ]. split; [ | reflexivity].
  rewrite <- (app_nil_r before), (firstInlineData_skips before Hb []).
  reflexivity.
Qed.

Lemma first_inline_part_is_the_image_witness :
  Service.extractImage
    {| responseText := None;
       candidateParts :=
         Some ([textPart "Here is the mockup."]
               ++ inlinePart "image/jpeg" "SlBH"
               :: [inlinePart "image/png" "UE5H"]) |}
  = Ok "data:image/png;base64,SlBH".
Proof.
  exact (proj1 (first_inline_part_is_the_image None
                  [textPart "Here is the mockup."]
                  [inlinePart "image/png" "UE5H"]
                  (inlinePart "image/jpeg" "SlBH")
                  {| mimeType := "image/jpeg"; data := "SlBH" |}
                  eq_refl eq_refl)).
Defined.

Lemma split_nonempty (sep : ascii) (s : string) :
  exists piece pieces, FileRead.split sep s = piece :: pieces.
Proof.
  induction s as [| c s IH]; [now exists EmptyString, [] | ].
  cbn [FileRead.split]. destruct (Ascii.eqb c sep); [eauto | ].
  destruct IH as (piece & pieces & ->). eauto.
Qed.

Lemma split_without (sep : ascii) (s : string) :
  FileRead.includes sep s = false -> FileRead.split sep s = [s].
Proof.
  induction s as [| c s IH]; [reflexivity | ].
  cbn [FileRead.includes FileRead.split]. intros H.
  apply orb_false_iff in H. destruct H as [Hc Hs].
  rewrite Hc, (IH Hs). reflexivity.
Qed.

Lemma split_at_first (sep : ascii) (header rest : string) :
  FileRead.includes sep header = false ->
  FileRead.split sep (header ++ String sep rest)%string
  = header :: FileRead.split sep rest.
Proof.
  induction header as [| c header IH]; intros H.
  - cbn [String.append FileRead.split]. now rewrite Ascii.eqb_refl.
  - cbn [FileRead.includes] in H. apply orb_false_iff in H.
    destruct H as [Hc Hh].
    cbn [String.append FileRead.split]. rewrite Hc, (IH Hh). reflexivity.
Qed.

Lemma split_pieces_without (sep : ascii) (s : string) :
  Forall (fun piece => FileRead.includes sep piece = false)
         (FileRead.split sep s).
Proof.
  induction s as [| c s IH]; [repeat constructor | ].
  cbn [FileRead.split]. destruct (Ascii.eqb c sep) eqn:E.
  - constructor; [reflexivity | exact IH].
  - destruct (FileRead.split sep s) as [| piece pieces];
      [repeat constructor; cbn; now rewrite E | ].
    inversion IH as [| ? ? Hp Hps]; subst.
    constructor; [cbn; now rewrite E, Hp | exact Hps].
Qed.

Lemma split_one_piece (sep : ascii) (s : string) :
  isNone (nth_error (FileRead.split sep s) 1)
  = negb (FileRead.includes sep s).
Proof.
  induction s as [| c s IH]; [reflexivity | ].
  cbn [FileRead.split FileRead.includes].
  destruct (split_nonempty sep s) as (piece & pieces & E).
  destruct (Ascii.eqb c sep); [now rewrite E | ].
  rewrite E in *. exact IH.
Qed.

(** X19. What [fileToGenerativePart] keeps of the data URL of a file is
    the text between its first and its second comma: of a header and a
    payload without commas joined by a comma, the payload; it is
    [undefined] exactly when the string has no comma, and it never holds a
    comma. *)
Theorem base64Data_is_the_payload (header payload : string) :
  FileRead.includes "," header = false ->
  FileRead.includes "," payload = false ->
  FileRead.base64Data (header ++ "," ++ payload)%string = Some payload
  /\ (forall s,
        isNone (FileRead.base64Data s) = negb (FileRead.includes "," s))
  /\ (forall s kept,
        FileRead.base64Data s = Some kept ->
        FileRead.includes "," kept = false).
Proof.
  intros Hh Hp. split; [ | split].
  - unfold FileRead.base64Data.
    change ("," ++ payload)%string with (String "," payload).
    rewrite (split_at_first _ _ _ Hh), (split_without _ _ Hp). reflexivity.
  - intros s. apply split_one_piece.
  - intros s kept E. unfold FileRead.base64Data in E.
    pose proof (split_pieces_without "," s) as F.
    apply nth_error_In in E. rewrite Forall_forall in F.
    apply F. now apply list_elem_of_In.
Qed.

Lemma base64Data_is_the_payload_witness :
  FileRead.base64Data "data:image/png;base64,iVBORw0KGgo=" = Some "iVBORw0KGgo="
  /\ FileRead.base64Data "not a data url" = None.
Proof.
  destruct (base64Data_is_the_payload "data:image/png;base64"
              "iVBORw0KGgo=" eq_refl eq_refl) as (P & N & _).
  split; [exact P | ].
  specialize (N "not a data url").
  now destruct (FileRead.base64Data "not a data url").
Defined.

(** ** geminiService.ts: the sources of [generateDesignConcepts] *)

Section ResearchFacts.

Variable hostname : string -> Result string.
Variable parse : string -> Result (list DesignConcept).

Lemma collect_app (a b : list Research.GroundingChunk) :
  forall acc,
    Research.collect hostname (a ++ b) acc
    = match Research.collect hostname a acc with
      | Ok acc' => Research.collect hostname b acc'
      | Throw e => Throw e
      end.
Proof.
  induction a as [| chunk a IH]; intros acc; [reflexivity | ].
  cbn [app Research.collect].
  destruct (Research.web chunk) as [w | ]; [ | apply IH].
  destruct (truthy (Research.webUri w)); [ | apply IH].
  destruct (truthy (Research.webTitle w)); [apply IH | ].
  destruct (hostname _); [apply IH | reflexivity].
Qed.

Lemma collect_cites (chunks : list Research.GroundingChunk) :
  forall acc out,
    Research.collect hostname chunks acc = Ok out ->
    exists new,
      out = acc ++ new
      /\ Forall2 (Cites hostname) (omap Research.cited chunks) new.
Proof.
  induction chunks as [| chunk chunks IH]; intros acc out H.
  - cbn in H. injection H as <-. exists []. rewrite app_nil_r.
    split; [reflexivity | constructor].
  - cbn [Research.collect] in H.
    change (omap Research.cited (chunk :: chunks))
      with (match Research.cited chunk with
            | Some w => w :: omap Research.cited chunks
            | None => omap Research.cited chunks
            end).
    unfold Research.cited.
    destruct (Research.web chunk) as [w | ]; [ | now apply IH].
    destruct (truthy (Research.webUri w)); [ | now apply IH].
    destruct (truthy (Research.webTitle w)) eqn:T.
    + destruct (IH _ _ H) as (new & -> & F).
      eexists (_ :: new). rewrite <- app_assoc. split; [reflexivity | ].
      constructor; [ | exact F]. unfold Cites, titled. rewrite T.
      split; reflexivity.
    + destruct (hostname (default "" (Research.webUri w))) as [host | ]
        eqn:Eh; [ | discriminate H].
      destruct (IH _ _ H) as (new & -> & F).
      eexists (_ :: new). rewrite <- app_assoc. split; [reflexivity | ].
      constructor; [ | exact F]. unfold Cites, titled. rewrite T.
      split; [reflexivity | exact Eh].
Qed.

(** X20. When [generateDesignConcepts] succeeds, its sources are the
    citations of the response, one for each chunk that has a non-empty
    [web.uri], in the order of the chunks, the others being skipped: each
    source has the URI of its citation and, as title, the title of the
    citation or, when that is missing or empty, the host name of the URI;
    and the concepts are the parsed text of the response, which is not
    empty. *)
Theorem sources_follow_the_citations (r : Research.Response)
    (concepts : list DesignConcept) (sources : list GroundingSource) :
  Research.designAnswer hostname parse (Ok r) = Ok (concepts, sources) ->
  Forall2 (Cites hostname) (citations r) sources
  /\ map uri sources
     = map (fun w => default "" (Research.webUri w)) (citations r)
  /\ truthy (Research.text r) = true
  /\ parse (default "" (Research.text r)) = Ok concepts.
Proof.
  unfold Research.designAnswer, citations. intros H.
  destruct (Research.collect hostname _ []) as [out | ] eqn:C;
    [ | discriminate H].
  destruct (truthy (Research.text r)); [ | discriminate H].
  destruct (parse _) as [cs | ]; [ | discriminate H].
  injection H as <- <-.
  destruct (collect_cites _ _ _ C) as (new & -> & F). cbn [app].
  split; [exact F | ]. split; [ | split; reflexivity].
  clear C. induction F as [| w src ws srcs Hc F IH]; [reflexivity | ].
  cbn [map]. rewrite IH. f_equal. exact (proj1 Hc).
Qed.

Lemma collect_throws (chunks : list Research.GroundingChunk) :
  forall acc e,
    Research.collect hostname chunks acc = Throw e ->
    exists w,
      In w (omap Research.cited chunks)
      /\ titled w = false
      /\ hostname (default "" (Research.webUri w)) = Throw e.
Proof.
  induction chunks as [| chunk chunks IH]; intros acc e H;
    [discriminate H | ].
  cbn [Research.collect] in H.
  change (omap Research.cited (chunk :: chunks))
    with (match Research.cited chunk with
          | Some w => w :: omap Research.cited chunks
          | None => omap Research.cited chunks
          end).
  unfold Research.cited.
  destruct (Research.web chunk) as [w | ]; [ | exact (IH _ _ H)].
  destruct (truthy (Research.webUri w)); [ | exact (IH _ _ H)].
  destruct (truthy (Research.webTitle w)) eqn:T.
  - destruct (IH _ _ H) as (w' & I & R). exists w'. split; [now right | exact R].
  - destruct (hostname (default "" (Research.webUri w))) as [host | e0]
      eqn:Eh.
    + destruct (IH _ _ H) as (w' & I & R). exists w'.
      split; [now right | exact R].
    + injection H as <-. exists w. split; [now left | ]. now split.
Qed.

Lemma collect_returns (chunks : list Research.GroundingChunk) :
  (forall w, In w (omap Research.cited chunks) ->
             titled w = true
             \/ succeeded (hostname (default "" (Research.webUri w))) = true) ->
  forall acc, succeeded (Research.collect hostname chunks acc) = true.
Proof.
  induction chunks as [| chunk chunks IH]; intros F acc; [reflexivity | ].
  cbn [Research.collect].
  change (omap Research.cited (chunk :: chunks))
    with (match Research.cited chunk with
          | Some w => w :: omap Research.cited chunks
          | None => omap Research.cited chunks
          end) in F.
  unfold Research.cited in F.
  destruct (Research.web chunk) as [w | ]; [ | now apply IH].
  destruct (truthy (Research.webUri w)); [ | now apply IH].
  destruct (F w (or_introl eq_refl)) as [T | Hh].
  - unfold titled in T. rewrite T. apply IH. intros w' I. apply F. now right.
  - destruct (truthy (Research.webTitle w));
      [apply IH; intros w' I; apply F; now right | ].
    destruct (hostname (default "" (Research.webUri w)));
      [ | discriminate Hh].
    apply IH. intros w' I. apply F. now right.
Qed.

(** X21. A citation without a title whose URI is not a URL makes the whole
    analysis fail, whatever the text and the other chunks of the response:
    [generateDesignConcepts] logs and rethrows the exception the URL parser
    threw on a citation of that kind, which is that of the first one. *)
Theorem one_bad_citation_fails_the_analysis (r : Research.Response)
    (before after : list Research.GroundingChunk)
    (chunk : Research.GroundingChunk) (w : Research.Web) (e : JsError)
    (url companyInfo screenshotBase64 : string) :
  Research.groundingChunks r = Some (before ++ chunk :: after) ->
  Research.cited chunk = Some w ->
  titled w = false ->
  hostname (default "" (Research.webUri w)) = Throw e ->
  exists thrown,
    Research.designAnswer hostname parse (Ok r) = Throw thrown
    /\ Research.generateDesignConcepts hostname parse
         url companyInfo screenshotBase64 (Ok r)
       = ([ResearchCall url companyInfo screenshotBase64;
           ConsoleError "Error generating design concepts:" thrown],
          Throw thrown)
    /\ (exists first,
          In first (citations r)
          /\ titled first = false
          /\ hostname (default "" (Research.webUri first)) = Throw thrown)
    /\ ((forall earlier,
           In earlier (omap Research.cited before) ->
           titled earlier = true
           \/ succeeded (hostname (default "" (Research.webUri earlier)))
              = true) ->
        thrown = e).
Proof.
  intros Hg Hc Ht Hh.
  assert (Here : forall acc,
            Research.collect hostname (chunk :: after) acc = Throw e).
  { intros acc. cbn [Research.collect]. unfold Research.cited, titled in *.
    destruct (Research.web chunk) as [w0 | ]; [ | discriminate Hc].
    destruct (truthy (Research.webUri w0)); [ | discriminate Hc].
    injection Hc as ->. now rewrite Ht, Hh. }
  assert (C : exists thrown,
            Research.collect hostname (before ++ chunk :: after) []
            = Throw thrown
            /\ (succeeded (Research.collect hostname before []) = true ->
                thrown = e)).
  { rewrite collect_app.
    destruct (Research.collect hostname before []) as [acc | e0].
    - exists e. split; [apply Here | reflexivity].
    - exists e0. split; [reflexivity | discriminate]. }
  destruct C as (thrown & C & First).
  assert (A : Research.designAnswer hostname parse (Ok r) = Throw thrown).
  { unfold Research.designAnswer. rewrite Hg. cbn [from_option].
    unfold Datatypes.id. now rewrite C. }
  exists thrown. split; [exact A | ]. split.
  { unfold Research.generateDesignConcepts, Service.generateDesignConcepts.
    now rewrite A. }
  split.
  - unfold citations. rewrite Hg. cbn [from_option]. unfold Datatypes.id.
    exact (collect_throws _ _ _ C).
  - intros Fine. apply First. now apply collect_returns.
Qed.

Lemma collect_titled (chunks : list Research.GroundingChunk) :
  forallb titled (omap Research.cited chunks) = true ->
  forall acc,
    Research.collect hostname chunks acc
    = Ok (acc ++ map sourceOfTitled (omap Research.cited chunks)).
Proof.
  induction chunks as [| chunk chunks IH]; intros H acc.
  - cbn. now rewrite app_nil_r.
  - cbn [Research.collect].
    change (omap Research.cited (chunk :: chunks))
      with (match Research.cited chunk with
            | Some w => w :: omap Research.cited chunks
            | None => omap Research.cited chunks
            end) in *.
    unfold Research.cited in *.
    destruct (Research.web chunk) as [w | ]; [ | now apply IH].
    destruct (truthy (Research.webUri w)); [ | now apply IH].
    cbn [forallb] in H. apply andb_true_iff in H. destruct H as [Hw H].
    unfold titled in Hw. rewrite Hw, (IH H). cbn [map].
    now rewrite <- app_assoc.
Qed.

(** X22. When every citation of the response carries a title, no URI is
    parsed as a URL: the result does not depend on the URL parser, the
    sources are the citations with their own titles, and the call fails
    only for a missing or empty text ("No JSON response received from
    design analysis.") or a text that does not parse. *)
Theorem titled_citations_are_not_parsed (r : Research.Response) :
  forallb titled (citations r) = true ->
  Research.designAnswer hostname parse (Ok r)
  = (if truthy (Research.text r)
     then match parse (default "" (Research.text r)) with
          | Ok concepts => Ok (concepts, map sourceOfTitled (citations r))
          | Throw e => Throw e
          end
     else Throw (Error "No JSON response received from design analysis.")).
Proof.
  intros H. unfold Research.designAnswer, citations in *.
  now rewrite (collect_titled _ H []).
Qed.

End ResearchFacts.

Lemma sources_follow_the_citations_witness :
  Research.designAnswer demoHostname demoParse (Ok demoResponse)
  = Ok (demoConcepts,
        [{| title := "About us"; uri := "https://example.com/about" |};
         {| title := "bakers.example.org";
            uri := "https://bakers.example.org/" |}])
  /\ map (fun w => default "" (Research.webUri w)) (citations demoResponse)
     = ["https://example.com/about"; "https://bakers.example.org/"].
Proof.
  destruct (sources_follow_the_citations demoHostname demoParse
              demoResponse demoConcepts
              [{| title := "About us"; uri := "https://example.com/about" |};
               {| title := "bakers.example.org";
                  uri := "https://bakers.example.org/" |}]
              eq_refl) as (_ & U & _).
  split; [reflexivity | ]. rewrite <- U. reflexivity.
Defined.

(** Two citations that are no URL: the exception is that of the first. *)
Lemma one_bad_citation_fails_the_analysis_witness :
  let bad (u : string) :=
    {| Research.web :=
         Some {| Research.webUri := Some u; Research.webTitle := None |} |} in
  let r :=
    {| Research.text := Some "[...]";
       Research.groundingChunks :=
         Some (default [] (Research.groundingChunks demoResponse)
               ++ [bad "bakers dot org"; bad "millers dot org"]) |} in
  let hostname (u : string) :=
    match demoHostname u with
    | Ok host => Ok host
    | Throw _ => Throw (Error ("Invalid URL: " ++ u))
    end in
  Research.designAnswer hostname demoParse (Ok r)
  = Throw (Error "Invalid URL: bakers dot org").
Proof.
  intros bad r hostname.
  destruct (one_bad_citation_fails_the_analysis hostname demoParse r
              (default [] (Research.groundingChunks demoResponse))
              [bad "millers dot org"] (bad "bakers dot org")
              {| Research.webUri := Some "bakers dot org";
                 Research.webTitle := None |}
              (Error "Invalid URL: bakers dot org")
              "https://example.com" "A bakery." "U0hPVA=="
              eq_refl eq_refl eq_refl eq_refl)
    as (thrown & A & _ & _ & First).
  rewrite A. f_equal. apply First.
  intros earlier [<- | [<- | []]]; [left | right]; reflexivity.
Defined.

Lemma titled_citations_are_not_parsed_witness :
  Research.designAnswer demoHostname demoParse (Ok demoResponseNoText)
  = Throw (Error "No JSON response received from design analysis.").
Proof.
  exact (titled_citations_are_not_parsed demoHostname demoParse
           demoResponseNoText eq_refl).
Defined.

(** ** The auto-fill of the company brief *)

Lemma long_is_truthy (u : string) :
  Nat.ltb 4 (String_length u) = true -> truthy (Some u) = true.
Proof. destruct u; [discriminate | reflexivity]. Qed.

(** [length] counts UTF-16 code units: one for a character of up to three
    bytes, two for one of four, as in "example.com", in a URL that starts
    with U+65E5 and in one that starts with U+1F600. *)
Lemma String_length_code_units :
  String_length "example.com" = 11
  /\ String_length (String "230" (String "151" (String "165" ".co"))) = 4
  /\ String_length
       (String "240" (String "159" (String "152" (String "128" ".co"))))
     = 5.
Proof. repeat split. Qed.

(** X23. The auto-fill sends its request exactly when the key is present,
    the URL contains a dot and is longer than 4 code units; then it ends
    with [isFetchingInfo] false whatever the answer. It replaces the
    company brief only by a non-empty answer: a failed request, or an
    answer without text, leaves what the user typed. It never touches the
    URL, the screenshot or the logo, and its own [catch] never runs,
    because [getCompanyInfoFromUrl] turns every failure into the empty
    string. The request is the research brief for that URL, with the
    search tool. *)
Theorem autofill_never_erases_the_brief (answer : Result GenResponse)
    (s : AutoFill.State) :
  let s' := fst (AutoFill.onTimer answer s) in
  let t := snd (AutoFill.onTimer answer s) in
  let u := url (AutoFill.input s) in
  let sends :=
    AutoFill.hasApiKey s && FileRead.includes "." u
    && Nat.ltb 4 (String_length u) in
  length (List.filter isGenerateContent t) = (if sends then 1 else 0)
  /\ List.filter isGenerateContent t
     = (if sends
        then [AutoFill.GenerateContent "gemini-3-flash-preview"
                (String.concat (String "010"%char EmptyString)
                   [ "";
                     "    You are an expert web design strategist.";
                     "    Research the website at this URL: " ++ u;
                     "    ";
                     "    Write a concise design brief summary (approx 50-80 words) covering:";
                     "    1. What the company does.";
                     "    2. The target audience.";
                     "    3. The existing brand vibe (e.g. corporate, playful, minimalist).";
                     "    ";
                     "    Do not use markdown formatting, just plain text suitable for a form field.";
                     "  " ]%string)
                ["googleSearch"]]
        else [])
  /\ companyInfo (AutoFill.input s')
     = (if sends && truthy (textOf answer) then default "" (textOf answer)
        else companyInfo (AutoFill.input s))
  /\ AutoFill.isFetchingInfo s'
     = (if sends then false else AutoFill.isFetchingInfo s)
  /\ url (AutoFill.input s') = u
  /\ screenshot (AutoFill.input s') = screenshot (AutoFill.input s)
  /\ logo (AutoFill.input s') = logo (AutoFill.input s)
  /\ AutoFill.hasApiKey s' = AutoFill.hasApiKey s
  /\ forallb (fun e => negb (isAutoFillLog e)) t = true.
Proof.
  intros s' t u sends. subst s' t.
  assert (G : AutoFill.shouldFetch s = sends).
  { subst sends u. unfold AutoFill.shouldFetch.
    destruct (AutoFill.hasApiKey s); [ | reflexivity].
    destruct (Nat.ltb 4 (String_length (url (AutoFill.input s)))) eqn:L.
    - now rewrite (long_is_truthy _ L).
    - now rewrite !andb_false_r. }
  unfold AutoFill.onTimer. rewrite G.
  destruct sends; [ | repeat split].
  unfold AutoFill.getCompanyInfoFromUrl, textOf.
  destruct answer as [response | e]; cbn [fst snd andb].
  - destruct (responseText response) as [[| a txt] | ]; repeat split.
  - repeat split.
Qed.

(** ** The API key screen *)

Lemma trimEnd_empty (s : ApiKeySelector.CodeUnits) :
  ApiKeySelector.nonEmpty (ApiKeySelector.trimEnd s)
  = existsb (fun c => negb (ApiKeySelector.isWhiteSpace c)) s.
Proof.
  induction s as [| c s IH]; [reflexivity | ].
  cbn [ApiKeySelector.trimEnd existsb].
  destruct (ApiKeySelector.trimEnd s) as [| k kept].
  - cbn in IH. rewrite <- IH.
    now destruct (ApiKeySelector.isWhiteSpace c).
  - cbn in IH. rewrite <- IH. now rewrite orb_true_r.
Qed.

Lemma trimStart_keeps (s : ApiKeySelector.CodeUnits) :
  existsb (fun c => negb (ApiKeySelector.isWhiteSpace c))
          (ApiKeySelector.trimStart s)
  = existsb (fun c => negb (ApiKeySelector.isWhiteSpace c)) s.
Proof.
  induction s as [| c s IH]; [reflexivity | ].
  cbn [ApiKeySelector.trimStart existsb].
  destruct (ApiKeySelector.isWhiteSpace c) eqn:E; [exact IH | ].
  cbn [existsb]. now rewrite E.
Qed.

Lemma nonblank_is_truthy (k : ApiKeySelector.CodeUnits) :
  existsb (fun c => negb (ApiKeySelector.isWhiteSpace c)) k = true ->
  ApiKeySelector.truthy (Some k) = true.
Proof. destruct k; [discriminate | reflexivity]. Qed.

(** [trim] strips exactly the white space of ECMAScript: among the code
    units, those listed and no other. *)
Lemma isWhiteSpace_listed (c : N) :
  ApiKeySelector.isWhiteSpace c = true <->
  In c [0x0009; 0x000A; 0x000B; 0x000C; 0x000D; 0x0020; 0x00A0; 0x1680;
        0x2000; 0x2001; 0x2002; 0x2003; 0x2004; 0x2005; 0x2006; 0x2007;
        0x2008; 0x2009; 0x200A; 0x2028; 0x2029; 0x202F; 0x205F; 0x3000;
        0xFEFF]%N.
Proof.
  unfold ApiKeySelector.isWhiteSpace. cbn [In].
  rewrite !orb_true_iff, !andb_true_iff, !N.leb_le, !N.eqb_eq. lia.
Qed.

(** X24. After [checkKey] the selector is no longer loading, and the key
    counts as present exactly when the environment variable is defined
    and has a code unit that is not white space (or was present already):
    the "API Key Missing" screen shows for a missing, empty or blank
    key and never otherwise. A key made of a no-break space, a byte-order
    mark and a line separator is blank. *)
Theorem missing_key_screen_shows_for_blank_keys
    (apiKey : option ApiKeySelector.CodeUnits) (s : ApiKeySelector.State) :
  let s' := ApiKeySelector.checkKey apiKey s in
  ApiKeySelector.loading s' = false
  /\ ApiKeySelector.hasApiKey s'
     = ApiKeySelector.hasApiKey s || usableKey apiKey
  /\ ApiKeySelector.showsMissingKey
       (ApiKeySelector.checkKey apiKey ApiKeySelector.initial)
     = negb (usableKey apiKey)
  /\ ApiKeySelector.showsMissingKey
       (ApiKeySelector.checkKey (Some [0x00A0; 0xFEFF; 0x2028; 0x0020]%N)
          ApiKeySelector.initial)
     = true
  /\ ApiKeySelector.showsMissingKey
       (ApiKeySelector.checkKey (Some (unitsOfAscii " AIzaSy-demo "))
          ApiKeySelector.initial)
     = false.
Proof.
  assert (K : ApiKeySelector.truthy apiKey
              && ApiKeySelector.nonEmpty
                   (ApiKeySelector.trim (default [] apiKey))
              = usableKey apiKey).
  { unfold ApiKeySelector.trim, usableKey.
    destruct apiKey as [k | ]; [ | reflexivity].
    cbn [from_option]. unfold Datatypes.id.
    rewrite trimEnd_empty, trimStart_keeps.
    destruct (existsb _ k) eqn:A; [ | apply andb_false_r].
    now rewrite (nonblank_is_truthy k A). }
  intros s'. subst s'. unfold ApiKeySelector.checkKey,
    ApiKeySelector.showsMissingKey.
  cbn [ApiKeySelector.loading ApiKeySelector.hasApiKey
         ApiKeySelector.initial].
  rewrite K.
  split; [reflexivity | ]. split.
  { now destruct (usableKey apiKey), (ApiKeySelector.hasApiKey s). }
  split.
  { now destruct (usableKey apiKey). }
  split; vm_compute; reflexivity.
Qed.

(** ** The upload zones and the Generate button *)

Lemma handleGenerate_starts (env : App.GenerateEnv) (s : App.State)
    (shot : File) :
  screenshot (App.input s) = Some shot ->
  exists rest,
    trace (App.handleGenerate env s)
    = SetGeneratedMockups [] :: ReadFile shot :: rest.
Proof.
  intros Hs. destruct (reachesLoop env s) eqn:Hn.
  - unfold reachesLoop in Hn. rewrite Hs in Hn.
    destruct (App.screenshotRead env) as [b | ] eqn:Hr; [ | discriminate Hn].
    destruct (App.researchAnswer env) as [[concepts srcs] | ] eqn:Ha;
      [ | discriminate Hn].
    destruct (logoResult (App.input s) (App.logoRead env)) as [logob | ]
      eqn:Hl; [ | discriminate Hn].
    destruct (handleGenerate_success env s shot b concepts srcs logob
                Hs Hr Ha Hl) as (t & Run & _).
    rewrite Run. unfold trace. cbn [snd app]. eexists. reflexivity.
  - destruct (handleGenerate_aborted env s shot Hs Hn)
      as (ms & srcs & t & Run & _ & (rest & ->) & _).
    rewrite Run. unfold trace. cbn [snd]. eexists. reflexivity.
Qed.

(** X25. Dropping files on the screenshot zone keeps the first one and
    ignores the others; a drop without a file changes nothing. If no
    analysis is running, the Generate button is then enabled, and the run
    it starts begins by clearing the mockups and reading that very file;
    the rest of the form is as it was. *)
Theorem dropped_screenshot_is_the_one_read (env : App.GenerateEnv)
    (s : App.State) (f : File) (others : list File) :
  App.isAnalyzing s = false ->
  let s' := Form.deliver (FileUpload.handleDrop (Some (f :: others)))
              Form.onScreenshotChange s in
  screenshot (App.input s') = Some f
  /\ logo (App.input s') = logo (App.input s)
  /\ url (App.input s') = url (App.input s)
  /\ companyInfo (App.input s') = companyInfo (App.input s)
  /\ Form.generateDisabled s' = false
  /\ (exists rest,
        trace (App.handleGenerate env s')
        = SetGeneratedMockups [] :: ReadFile f :: rest)
  /\ Form.deliver (FileUpload.handleDrop (Some []))
       Form.onScreenshotChange s = s
  /\ Form.deliver (FileUpload.handleDrop None)
       Form.onScreenshotChange s = s.
Proof.
  intros Ha s'. subst s'. cbn [FileUpload.handleDrop Form.deliver].
  unfold Form.generateDisabled.
  cbn [Form.onScreenshotChange App.input App.isAnalyzing screenshot logo
         url companyInfo].
  rewrite Ha.
  repeat split.
  apply handleGenerate_starts. reflexivity.
Qed.

Lemma dropped_screenshot_is_the_one_read_witness :
  exists rest,
    trace (App.handleGenerate demoEnv
             (Form.deliver
                (FileUpload.handleDrop
                   (Some [{| fileName := "new.png" |};
                          {| fileName := "other.png" |}]))
                Form.onScreenshotChange demoStateNoScreenshot))
    = SetGeneratedMockups [] :: ReadFile {| fileName := "new.png" |} :: rest.
Proof.
  destruct (dropped_screenshot_is_the_one_read demoEnv demoStateNoScreenshot
              {| fileName := "new.png" |} [{| fileName := "other.png" |}]
              eq_refl) as (_ & _ & _ & _ & _ & R & _).
  exact R.
Defined.

(** X26. Removing the screenshot with the cross disables the Generate
    button; a run started all the same sends nothing, keeps the mockups
    and the sources, and asks for a screenshot. *)
Theorem cleared_screenshot_blocks_generation (env : App.GenerateEnv)
    (s : App.State) :
  let s' := Form.deliver FileUpload.handleClear Form.onScreenshotChange s in
  let r := App.handleGenerate env s' in
  Form.generateDisabled s' = true
  /\ trace r = []
  /\ App.error (finalState r)
     = Some "Please upload a screenshot of the current website."
  /\ App.generatedMockups (finalState r) = App.generatedMockups s
  /\ App.sources (finalState r) = App.sources s
  /\ logo (App.input (finalState r)) = logo (App.input s).
Proof.
  intros s' r. subst r s'. unfold Form.generateDisabled.
  cbn [FileUpload.handleClear Form.deliver Form.onScreenshotChange
         App.input screenshot negb].
  rewrite orb_true_r. repeat split.
Qed.
